(** * LLMradiology: the extraction, repair and table-unification pipeline

    A shallow embedding of the Python scripts [extract_info16.py],
    [extract_info23.py], [new_extract_info2.py] and [new_extract_info3.py],
    and the properties of their pure core.

    Conventions of the embedding.
    - Text handled by the scripts (reports, backend output) is a list of
      8-bit characters, read as the code points U+0000..U+00FF; the
      character tables ([isspace], [\w], [lower], line boundaries) are
      Python's tables restricted to that range.
    - A Python value produced by [json.loads] is a [value]; a string held
      in such a value is a list of code points ([ustr]), since a JSON
      escape may denote any code point.
    - A Python function that may raise returns a [result]; the exception
      classes the scripts can meet are the constructors of [exn].
    - The text-generation backend is not modelled: what it printed (or
      that the call failed) is an input of the functions that call it. *)

From Stdlib Require Import List String Ascii NArith ZArith Bool Arith Lia.
From Stdlib Require Import Numbers.DecimalString DecimalNat.
Import ListNotations.

Set Implicit Arguments.

(* ------------------------------------------------------------------ *)
(** * Exceptions and results *)

Inductive exn : Type :=
| JSONDecodeError
| IndexError
| KeyError
| TypeError
| AttributeError
| ValueError
| NameError (name : string)
| RecursionError.

Inductive result (A : Type) : Type :=
| Ok (a : A)
| Raise (e : exn).

Arguments Ok {A} a.
Arguments Raise {A} e.

Definition bind {A B : Type} (m : result A) (k : A -> result B) : result B :=
  match m with
  | Ok a => k a
  | Raise e => Raise e
  end.

Notation "'do' x <- m ; k" := (bind m (fun x => k))
  (at level 10, x name, m at level 100, k at level 200).

Definition raises {A : Type} (m : result A) : bool :=
  match m with Ok _ => false | Raise _ => true end.

(* ------------------------------------------------------------------ *)
(** * Text *)

Definition text : Type := list ascii.

Definition lit (s : string) : text := list_ascii_of_string s.

(** Character code of a character. *)
Definition code (c : ascii) : N := N_of_ascii c.

(** The double quote, U+0022. *)
Definition DQ : ascii := ascii_of_N 34.

(** [qq s] is [s] with every apostrophe replaced by a double quote: the
    JSON texts below are written with apostrophes. *)
Definition qq (s : string) : text :=
  map (fun c => if (code c =? 39)%N then DQ else c) (lit s).

Definition is_char (n : N) (c : ascii) : bool := (code c =? n)%N.

Definition in_range (lo hi : N) (c : ascii) : bool :=
  ((lo <=? code c) && (code c <=? hi))%N.

(** [str.isspace] on U+0000..U+00FF; also the class [\s] of [re]. *)
Definition isspace (c : ascii) : bool :=
  in_range 9 13 c || in_range 28 32 c || is_char 133 c || is_char 160 c.

Definition isdigit (c : ascii) : bool := in_range 48 57 c.

(** The class [\w] of [re] on U+0000..U+00FF: alphanumeric or underscore. *)
Definition isword (c : ascii) : bool :=
  in_range 48 57 c || in_range 65 90 c || in_range 97 122 c || is_char 95 c
  || is_char 170 c || is_char 178 c || is_char 179 c || is_char 181 c
  || is_char 185 c || is_char 186 c || in_range 188 190 c
  || in_range 192 214 c || in_range 216 246 c || in_range 248 255 c.

(** [str.lower] on one character of U+0000..U+00FF. *)
Definition lower_char (c : ascii) : ascii :=
  if in_range 65 90 c || in_range 192 214 c || in_range 216 222 c
  then ascii_of_N (code c + 32) else c.

Definition lower (s : text) : text := map lower_char s.

Fixpoint lstrip (s : text) : text :=
  match s with
  | c :: s' => if isspace c then lstrip s' else s
  | [] => []
  end.

Definition rstrip (s : text) : text := rev (lstrip (rev s)).

(** [s.strip()] *)
Definition strip (s : text) : text := rstrip (lstrip s).

Definition text_eqb (a b : text) : bool :=
  if list_eq_dec ascii_dec a b then true else false.

(** [s.startswith(p)] *)
Fixpoint startswith (p s : text) : bool :=
  match p, s with
  | [], _ => true
  | a :: p', b :: s' => Ascii.eqb a b && startswith p' s'
  | _ :: _, [] => false
  end.

(** [p in s] for strings. *)
Fixpoint contains (p s : text) : bool :=
  startswith p s || match s with
                    | [] => false
                    | _ :: s' => contains p s'
                    end.

(** [s.count(p)] for a non-empty [p]: occurrences that do not overlap,
    scanning from the left. [skip] is the number of characters still
    covered by the occurrence found last. *)
Fixpoint count_from (p s : text) (skip : nat) : nat :=
  match s with
  | [] => 0
  | _ :: s' =>
      match skip with
      | S k => count_from p s' k
      | O => if startswith p s then S (count_from p s' (List.length p - 1))
             else count_from p s' 0
      end
  end.

Definition count (p s : text) : nat := count_from p s 0.

(** [s.split(sep)] for a non-empty [sep]. [cur] is the segment under
    construction, reversed. *)
Fixpoint split_from (sep s : text) (skip : nat) (cur : text) : list text :=
  match s with
  | [] => [rev cur]
  | c :: s' =>
      match skip with
      | S k => split_from sep s' k cur
      | O => if startswith sep s
             then rev cur :: split_from sep s' (List.length sep - 1) []
             else split_from sep s' 0 (c :: cur)
      end
  end.

Definition split (sep s : text) : list text := split_from sep s 0 [].

(** Line boundaries of [str.splitlines] on U+0000..U+00FF. *)
Definition islinebreak (c : ascii) : bool :=
  in_range 10 13 c || in_range 28 30 c || is_char 133 c.

(** [s.splitlines()]: a CR LF pair is one boundary, and a boundary at the
    very end opens no further line. *)
Fixpoint splitlines_from (s : text) (cur : text) : list text :=
  match s with
  | [] => match cur with [] => [] | _ => [rev cur] end
  | c :: s' =>
      if islinebreak c then
        match s' with
        | d :: s'' =>
            if is_char 13 c && is_char 10 d
            then rev cur :: splitlines_from s'' []
            else rev cur :: splitlines_from s' []
        | [] => [rev cur]
        end
      else splitlines_from s' (c :: cur)
  end.

Definition splitlines (s : text) : list text := splitlines_from s [].

(** [sep.join(parts)] *)
Fixpoint join (sep : text) (parts : list text) : text :=
  match parts with
  | [] => []
  | [p] => p
  | p :: rest => p ++ sep ++ join sep rest
  end.

(** [str(n)] for a natural number. *)
Definition str_of_nat (n : nat) : text :=
  lit (NilEmpty.string_of_uint (Nat.to_uint n)).


(* ------------------------------------------------------------------ *)
(** * Regular expressions of [re]

    The patterns of the scripts are sequences of character classes, each
    taken once or under a greedy [?], [*] or [+], with capturing groups
    around runs of them. [match_here] is the backtracking matcher of
    [re] on such a pattern: a greedy item first takes as much as it can
    and gives characters back one at a time while the rest fails. *)

Inductive item : Type :=
| One (p : ascii -> bool)
| Opt (p : ascii -> bool)
| Star (p : ascii -> bool)
| Plus (p : ascii -> bool)
| GOpen (g : nat)
| GClose (g : nat).

Definition regex : Type := list item.

(** Start and end offset of each group, counted from the start of the
    match. *)
Definition caps : Type := nat -> nat * nat.

Definition no_caps : caps := fun _ => (0, 0).

Definition set_cap (g : nat) (v : nat * nat) (c : caps) : caps :=
  fun h => if Nat.eqb h g then v else c h.

Section Matcher.

Let cont : Type := text -> nat -> caps -> option (nat * caps).

Fixpoint star (p : ascii -> bool) (k : cont) (s : text) (i : nat) (c : caps)
  : option (nat * caps) :=
  match s with
  | a :: s' =>
      if p a then
        match star p k s' (S i) c with
        | Some m => Some m
        | None => k s i c
        end
      else k s i c
  | [] => k [] i c
  end.

Fixpoint match_here (r : regex) (s : text) (i : nat) (c : caps)
  : option (nat * caps) :=
  match r with
  | [] => Some (i, c)
  | One p :: r' =>
      match s with
      | a :: s' => if p a then match_here r' s' (S i) c else None
      | [] => None
      end
  | Opt p :: r' =>
      match s with
      | a :: s' =>
          if p a then
            match match_here r' s' (S i) c with
            | Some m => Some m
            | None => match_here r' s i c
            end
          else match_here r' s i c
      | [] => match_here r' s i c
      end
  | Star p :: r' => star p (match_here r') s i c
  | Plus p :: r' =>
      match s with
      | a :: s' => if p a then star p (match_here r') s' (S i) c else None
      | [] => None
      end
  | GOpen g :: r' => match_here r' s i (set_cap g (i, i) c)
  | GClose g :: r' => match_here r' s i (set_cap g (fst (c g), i) c)
  end.

End Matcher.

(** [m.group(g)] of a match that starts at the head of [s]. *)
Definition group (s : text) (c : caps) (g : nat) : text :=
  firstn (snd (c g) - fst (c g)) (skipn (fst (c g)) s).

(** A replacement template: literal text and group references. *)
Inductive piece : Type :=
| Lit (t : text)
| Ref (g : nat).

Definition expand (tpl : list piece) (s : text) (c : caps) : text :=
  flat_map (fun p => match p with Lit t => t | Ref g => group s c g end) tpl.

(** [re.sub(r, tpl, s)]: the matches are found from the left and do not
    overlap. The patterns of the scripts match at least one character,
    so the rules of [re] for empty matches play no part. *)
Fixpoint sub_from (r : regex) (tpl : list piece) (s : text) (skip : nat) : text :=
  match s with
  | [] => []
  | a :: s' =>
      match skip with
      | S k => sub_from r tpl s' k
      | O =>
          match match_here r s 0 no_caps with
          | Some (S e, c) => expand tpl s c ++ sub_from r tpl s' e
          | _ => a :: sub_from r tpl s' 0
          end
      end
  end.

Definition re_sub (r : regex) (tpl : list piece) (s : text) : text :=
  sub_from r tpl s 0.

(** [re.search(r, s)]: the text of the leftmost match, if any. *)
Fixpoint re_search (r : regex) (s : text) : option text :=
  match match_here r s 0 no_caps with
  | Some (e, _) => Some (firstn e s)
  | None =>
      match s with
      | [] => None
      | _ :: s' => re_search r s'
      end
  end.

Definition any_char (c : ascii) : bool := true.
Definition not_char (n : N) (c : ascii) : bool := negb (is_char n c).

(** The pattern of [fix_malformed_json], with Q for the double quote:
    [(Q\w+Q:\s?Q[^Q]+)Q\s*(Q\w+Q:)], groups 1 and 2. *)
Definition missing_comma_rx : regex :=
  [ GOpen 1; One (is_char 34); Plus isword; One (is_char 34); One (is_char 58);
    Opt isspace; One (is_char 34); Plus (not_char 34); GClose 1;
    One (is_char 34); Star isspace;
    GOpen 2; One (is_char 34); Plus isword; One (is_char 34); One (is_char 58);
    GClose 2 ].

(** The template [\1,\2]. *)
Definition missing_comma_tpl : list piece := [Ref 1; Lit (lit ","); Ref 2].

(** [\{.*\}] under [re.DOTALL]. *)
Definition braces_rx : regex := [One (is_char 123); Star any_char; One (is_char 125)].

(** [,\s*([\]}])] and the template [\1]. *)
Definition trailing_comma_rx : regex :=
  [ One (is_char 44); Star isspace;
    GOpen 1; One (fun c => is_char 93 c || is_char 125 c); GClose 1 ].

Definition trailing_comma_tpl : list piece := [Ref 1].

(** [\d+] *)
Definition digits_rx : regex := [Plus isdigit].


(* ------------------------------------------------------------------ *)
(** * Python values *)

(** A Python string as its code points. *)
Definition ustr : Type := list N.

Definition utext (t : text) : ustr := map code t.

Definition u (s : string) : ustr := utext (lit s).

Definition ustr_eqb (a b : ustr) : bool :=
  if list_eq_dec N.eq_dec a b then true else false.

#[local] Set Warnings "-register-all".

(** The values the scripts handle: what [json.loads] builds, and tuples.
    A float is kept as the text of its literal. A [dict] keeps its keys
    in insertion order, each key once. *)
Inductive value : Type :=
| VNone
| VBool (b : bool)
| VInt (z : Z)
| VFloat (lexeme : text)
| VStr (s : ustr)
| VList (l : list value)
| VDict (d : list (ustr * value))
| VTuple (l : list value).

Definition dict : Type := list (ustr * value).

(** [d.get(k)] as an option. *)
Fixpoint dict_get (d : dict) (k : ustr) : option value :=
  match d with
  | [] => None
  | (k', v) :: d' => if ustr_eqb k' k then Some v else dict_get d' k
  end.

(** [d[k] = v]: an existing key keeps its place. *)
Fixpoint dict_set (d : dict) (k : ustr) (v : value) : dict :=
  match d with
  | [] => [(k, v)]
  | (k', v') :: d' =>
      if ustr_eqb k' k then (k', v) :: d' else (k', v') :: dict_set d' k v
  end.

(** [dict(pairs)] *)
Definition dict_of_pairs (pairs : list (ustr * value)) : dict :=
  fold_left (fun d kv => dict_set d (fst kv) (snd kv)) pairs [].

(* ------------------------------------------------------------------ *)
(** * [json.loads]

    The strict decoder of the standard library, as its scanner reads a
    document: white space is space, tab, line feed and carriage return;
    a string may not hold a control character; besides the JSON
    literals the constants NaN, Infinity and -Infinity are accepted. *)

Inductive scan (A : Type) : Type :=
| Scanned (a : A) (rest : text)
| Malformed
| Exhausted.

Arguments Scanned {A} a rest.
Arguments Malformed {A}.
Arguments Exhausted {A}.

Definition is_json_ws (c : ascii) : bool :=
  is_char 32 c || is_char 9 c || is_char 10 c || is_char 13 c.

Fixpoint skip_ws (s : text) : text :=
  match s with
  | c :: s' => if is_json_ws c then skip_ws s' else s
  | [] => []
  end.

Definition hexval (c : ascii) : option N :=
  if in_range 48 57 c then Some (code c - 48)%N
  else if in_range 97 102 c then Some (code c - 87)%N
  else if in_range 65 70 c then Some (code c - 55)%N
  else None.

Definition hex4 (a b c d : ascii) : option N :=
  match hexval a, hexval b, hexval c, hexval d with
  | Some x, Some y, Some z, Some w => Some (((x * 16 + y) * 16 + z) * 16 + w)%N
  | _, _, _, _ => None
  end.

Definition simple_escape (c : ascii) : option N :=
  if is_char 34 c then Some 34%N
  else if is_char 92 c then Some 92%N
  else if is_char 47 c then Some 47%N
  else if is_char 98 c then Some 8%N
  else if is_char 102 c then Some 12%N
  else if is_char 110 c then Some 10%N
  else if is_char 114 c then Some 13%N
  else if is_char 116 c then Some 9%N
  else None.

Definition is_high_surrogate (n : N) : bool := ((55296 <=? n) && (n <=? 56319))%N.
Definition is_low_surrogate (n : N) : bool := ((56320 <=? n) && (n <=? 57343))%N.
Definition join_surrogates (hi lo : N) : N :=
  (65536 + ((hi - 55296) * 1024 + (lo - 56320)))%N.

(** After the escape of a high surrogate: what the next six characters
    say. A second escape that is a low surrogate makes a pair; a second
    escape that is no number is an error; anything else leaves the first
    escape alone. *)
Inductive lookahead : Type :=
| NoPair
| BadPair
| Pair (uni2 : N).

Definition low_surrogate_at (s : text) : lookahead :=
  match s with
  | b :: v :: g1 :: g2 :: g3 :: g4 :: _ =>
      if is_char 92 b && is_char 117 v then
        match hex4 g1 g2 g3 g4 with
        | None => BadPair
        | Some uni2 => if is_low_surrogate uni2 then Pair uni2 else NoPair
        end
      else NoPair
  | _ => NoPair
  end.

(** The body of a string, after its opening quote. [acc] holds the code
    points decoded so far, reversed. *)
Fixpoint scanstring (s : text) (acc : ustr) : scan ustr :=
  match s with
  | [] => Malformed
  | c :: r =>
      if is_char 34 c then Scanned (rev acc) r
      else if is_char 92 c then
        match r with
        | [] => Malformed
        | e :: r1 =>
            if is_char 117 e then
              match r1 with
              | h1 :: h2 :: h3 :: h4 :: r2 =>
                  match hex4 h1 h2 h3 h4 with
                  | None => Malformed
                  | Some uni =>
                      if is_high_surrogate uni then
                        match low_surrogate_at r2, r2 with
                        | Pair uni2, _ :: _ :: _ :: _ :: _ :: _ :: r3 =>
                            scanstring r3 (join_surrogates uni uni2 :: acc)
                        | BadPair, _ => Malformed
                        | _, _ => scanstring r2 (uni :: acc)
                        end
                      else scanstring r2 (uni :: acc)
                  end
              | _ => Malformed
              end
            else
              match simple_escape e with
              | Some x => scanstring r1 (x :: acc)
              | None => Malformed
              end
        end
      else if (code c <? 32)%N then Malformed
      else scanstring r (code c :: acc)
  end.

(** The longest run of decimal digits at the head of [s], and the rest. *)
Fixpoint take_digits (s : text) : text * text :=
  match s with
  | c :: s' =>
      if isdigit c then let (d, r) := take_digits s' in (c :: d, r)
      else ([], s)
  | [] => ([], [])
  end.

Definition digits_value (d : text) : Z :=
  fold_left (fun acc c => (acc * 10 + Z.of_N (code c - 48))%Z) d 0%Z.

(** The integer part of a number: a lone zero, or a run of digits that
    does not start with zero. *)
Definition scan_int_part (s : text) : option (text * text) :=
  match s with
  | c :: s' =>
      if is_char 48 c then Some ([c], s')
      else if isdigit c then let (d, r) := take_digits s' in Some (c :: d, r)
      else None
  | [] => None
  end.

(** An optional fraction: a dot and at least one digit. *)
Definition scan_frac (s : text) : text * text :=
  match s with
  | c :: s' =>
      if is_char 46 c then
        match take_digits s' with
        | ([], _) => ([], s)
        | (d, r) => (c :: d, r)
        end
      else ([], s)
  | [] => ([], [])
  end.

(** An optional exponent: e or E, an optional sign, at least one digit. *)
Definition scan_exp (s : text) : text * text :=
  match s with
  | c :: s' =>
      if is_char 101 c || is_char 69 c then
        match s' with
        | g :: s'' =>
            if is_char 43 g || is_char 45 g then
              match take_digits s'' with
              | ([], _) => ([], s)
              | (d, r) => (c :: g :: d, r)
              end
            else
              match take_digits s' with
              | ([], _) => ([], s)
              | (d, r) => (c :: d, r)
              end
        | [] => ([], s)
        end
      else ([], s)
  | [] => ([], [])
  end.

Definition scan_number (s : text) : scan value :=
  let (neg, s1) := match s with
                   | c :: s' => if is_char 45 c then (true, s') else (false, s)
                   | [] => (false, s)
                   end in
  match scan_int_part s1 with
  | None => Malformed
  | Some (ip, s2) =>
      let (fp, s3) := scan_frac s2 in
      let (ep, s4) := scan_exp s3 in
      match fp, ep with
      | [], [] =>
          Scanned (VInt (if neg then Z.opp (digits_value ip) else digits_value ip)) s4
      | _, _ =>
          Scanned (VFloat ((if neg then lit "-" else []) ++ ip ++ fp ++ ep)) s4
      end
  end.

(** A constant of the scanner: its name must be a prefix of the text. *)
Definition scan_constant (name : text) (v : value) (s : text) : option (scan value) :=
  if startswith name s then Some (Scanned v (skipn (List.length name) s)) else None.

Definition scan_atom (s : text) : scan value :=
  match scan_constant (lit "null") VNone s with Some r => r | None =>
  match scan_constant (lit "true") (VBool true) s with Some r => r | None =>
  match scan_constant (lit "false") (VBool false) s with Some r => r | None =>
  match scan_constant (lit "NaN") (VFloat (lit "NaN")) s with Some r => r | None =>
  match scan_constant (lit "Infinity") (VFloat (lit "Infinity")) s with Some r => r | None =>
  match scan_constant (lit "-Infinity") (VFloat (lit "-Infinity")) s with Some r => r | None =>
  scan_number s
  end end end end end end.

(** [scan_once]: one JSON value at the head of [s]. The three functions
    descend on [fuel], one unit per nested call; [json_loads] gives them
    more than twice the length of the document, which is enough
    (see [json_loads_fuel]). *)
Fixpoint scan_once (fuel : nat) (s : text) : scan value :=
  match fuel with
  | O => Exhausted
  | S f =>
      match s with
      | [] => Malformed
      | c :: r =>
          if is_char 34 c then
            match scanstring r [] with
            | Scanned x r' => Scanned (VStr x) r'
            | Malformed => Malformed
            | Exhausted => Exhausted
            end
          else if is_char 123 c then
            match skip_ws r with
            | d :: r' =>
                if is_char 125 d then Scanned (VDict []) r'
                else scan_pairs f (d :: r') []
            | [] => Malformed
            end
          else if is_char 91 c then
            match skip_ws r with
            | d :: r' =>
                if is_char 93 d then Scanned (VList []) r'
                else scan_items f (d :: r') []
            | [] => Malformed
            end
          else scan_atom s
      end
  end

(** The items of an array, after its opening bracket and white space;
    [acc] holds the items read so far, reversed. *)
with scan_items (fuel : nat) (s : text) (acc : list value) : scan value :=
  match fuel with
  | O => Exhausted
  | S f =>
      match scan_once f s with
      | Scanned v r =>
          match skip_ws r with
          | d :: r' =>
              if is_char 93 d then Scanned (VList (rev (v :: acc))) r'
              else if is_char 44 d then scan_items f (skip_ws r') (v :: acc)
              else Malformed
          | [] => Malformed
          end
      | Malformed => Malformed
      | Exhausted => Exhausted
      end
  end

(** The pairs of an object, at the quote of a key; [acc] holds the pairs
    read so far, reversed. *)
with scan_pairs (fuel : nat) (s : text) (acc : list (ustr * value)) : scan value :=
  match fuel with
  | O => Exhausted
  | S f =>
      match s with
      | q :: s1 =>
          if is_char 34 q then
            match scanstring s1 [] with
            | Scanned k s2 =>
                match skip_ws s2 with
                | col :: s3 =>
                    if is_char 58 col then
                      match scan_once f (skip_ws s3) with
                      | Scanned v s4 =>
                          match skip_ws s4 with
                          | d :: s5 =>
                              if is_char 125 d
                              then Scanned (VDict (dict_of_pairs (rev ((k, v) :: acc)))) s5
                              else if is_char 44 d
                              then scan_pairs f (skip_ws s5) ((k, v) :: acc)
                              else Malformed
                          | [] => Malformed
                          end
                      | Malformed => Malformed
                      | Exhausted => Exhausted
                      end
                    else Malformed
                | [] => Malformed
                end
            | Malformed => Malformed
            | Exhausted => Exhausted
            end
          else Malformed
      | [] => Malformed
      end
  end.

(** [json.loads(s)] *)
Definition json_loads (s : text) : result value :=
  match scan_once (S (2 * List.length s)) (skip_ws s) with
  | Scanned v rest =>
      match skip_ws rest with
      | [] => Ok v
      | _ :: _ => Raise JSONDecodeError
      end
  | Malformed => Raise JSONDecodeError
  | Exhausted => Raise RecursionError
  end.


(* ------------------------------------------------------------------ *)
(** * Operations of Python values *)

(** The value of an exponent part: e or E, an optional sign, digits. *)
Definition exponent_value (ep : text) : Z :=
  match ep with
  | _ :: c :: d =>
      if is_char 45 c then Z.opp (digits_value d)
      else if is_char 43 c then digits_value d
      else digits_value (c :: d)
  | _ => 0%Z
  end.

(** Whether the float that a literal denotes is zero. With [m] the
    digits of the integer and fraction parts read as one number and [e]
    the exponent less the number of fraction digits, the literal stands
    for [m * 10 ^ e]; the nearest double is zero when that is at most
    [2 ^ -1075], the half of the smallest double above zero, a tie
    going to zero. NaN and the infinities are not zero. *)
Definition float_is_zero (lexeme : text) : bool :=
  let unsigned :=
    match lexeme with
    | c :: r => if is_char 45 c then r else lexeme
    | [] => []
    end in
  match scan_int_part unsigned with
  | Some (ip, r) =>
      let (fp, r') := scan_frac r in
      let (ep, _) := scan_exp r' in
      let m := digits_value (ip ++ tl fp) in
      let e := (exponent_value ep - Z.of_nat (List.length (tl fp)))%Z in
      if (m =? 0)%Z then true
      else if (0 <=? e)%Z then false
      else (2 ^ 1075 * m <=? 10 ^ (- e))%Z
  | None => false
  end.

(** Truth value of a Python value. *)
Definition truthy (v : value) : bool :=
  match v with
  | VNone => false
  | VBool b => b
  | VInt z => negb (Z.eqb z 0)
  | VFloat lexeme => negb (float_is_zero lexeme)
  | VStr s => match s with [] => false | _ => true end
  | VList l => match l with [] => false | _ => true end
  | VDict d => match d with [] => false | _ => true end
  | VTuple l => match l with [] => false | _ => true end
  end.

(** [v[k]] for a string key [k]. *)
Definition getitem (v : value) (k : ustr) : result value :=
  match v with
  | VDict d =>
      match dict_get d k with
      | Some x => Ok x
      | None => Raise KeyError
      end
  | _ => Raise TypeError
  end.

(** [v[k] = x] for a string key [k]; the value after the assignment. *)
Definition setitem (v : value) (k : ustr) (x : value) : result value :=
  match v with
  | VDict d => Ok (VDict (dict_set d k x))
  | _ => Raise TypeError
  end.

(** [v.get(k, default)] *)
Definition get_method (v : value) (k : ustr) (default : value) : result value :=
  match v with
  | VDict d =>
      match dict_get d k with
      | Some x => Ok x
      | None => Ok default
      end
  | _ => Raise AttributeError
  end.

(** [len(v)] *)
Definition len (v : value) : result nat :=
  match v with
  | VStr s => Ok (List.length s)
  | VList l => Ok (List.length l)
  | VTuple l => Ok (List.length l)
  | VDict d => Ok (List.length d)
  | _ => Raise TypeError
  end.

(** [v[i]] for an index [i] that is not negative. *)
Definition getitem_nat (v : value) (i : nat) : result value :=
  match v with
  | VStr s =>
      match nth_error s i with
      | Some c => Ok (VStr [c])
      | None => Raise IndexError
      end
  | VList l | VTuple l =>
      match nth_error l i with
      | Some x => Ok x
      | None => Raise IndexError
      end
  | VDict _ => Raise KeyError
  | _ => Raise TypeError
  end.

(** [v[:n]] *)
Definition slice_to (v : value) (n : nat) : result value :=
  match v with
  | VStr s => Ok (VStr (firstn n s))
  | VList l => Ok (VList (firstn n l))
  | VTuple l => Ok (VTuple (firstn n l))
  | _ => Raise TypeError
  end.

(** A loop body run on each element in turn; the first exception ends
    the loop. *)
Fixpoint for_each {A B : Type} (f : A -> result B) (l : list A) : result (list B) :=
  match l with
  | [] => Ok []
  | a :: l' =>
      do b <- f a;
      do bs <- for_each f l';
      Ok (b :: bs)
  end.

(** What a call of the backend gave: [subprocess.run] raised, or the
    text the process printed. *)
Inductive reply : Type :=
| CallFailed
| Stdout (out : text).

Definition EMPTY : value := VStr [].

(** A cell of the column report as [pandas.read_csv] hands it over: a
    string; the float NaN for a blank cell; and, in a column that holds
    numbers or truth values only, a number or a truth value. *)
Inductive cell : Type :=
| Text (t : text)
| Blank
| Number (lexeme : text)
| Truth (b : bool).

(** The float of a blank cell. *)
Definition NAN : value := VFloat (lit "NaN").

(** One row of the input table with the two answers of the backend
    for it. *)
Record subject : Type := {
  report : cell;
  accession_number : value;
  count_reply : reply;
  details_reply : reply
}.


(* ------------------------------------------------------------------ *)
(** * extract_info16.py *)

Module Info16.

(** Lines 18-21: one closer of each kind, when openers outnumber closers. *)
Definition balance_brackets (json_str : text) : text :=
  let json_str :=
    if count (lit "}") json_str <? count (lit "{") json_str
    then json_str ++ lit "}" else json_str in
  if count (lit "]") json_str <? count (lit "[") json_str
  then json_str ++ lit "]" else json_str.

(** Line 24. *)
Definition insert_commas (json_str : text) : text :=
  re_sub missing_comma_rx missing_comma_tpl json_str.

Definition fix_malformed_json (json_str : text) : result value :=
  let json_str := strip json_str in
  let json_str := balance_brackets json_str in
  let json_str := insert_commas json_str in
  match json_loads json_str with
  | Ok v => Ok v
  | Raise JSONDecodeError => Ok VNone
  | Raise e => Raise e
  end.

(** The default of [sys.get_int_max_str_digits()]: [int] raises
    [ValueError] on a text of more digits. *)
Definition INT_MAX_STR_DIGITS : nat := 4300.

(** The number is the first run of digits of the answer; 0 when there
    is none, when [int] refuses the run for its length (line 59 catches
    the [ValueError]), or when the call failed. *)
Definition get_number_of_specimens (r : reply) : Z :=
  match r with
  | CallFailed => 0%Z
  | Stdout out =>
      let content := strip out in
      match re_search digits_rx content with
      | Some d =>
          if INT_MAX_STR_DIGITS <? List.length d then 0%Z else digits_value d
      | None => 0%Z
      end
  end.

(** The list under the key specimens, or [None]. The text handed to
    [json.loads] starts with an opening brace, so a value that is not
    a [dict] cannot come back; had one come, the membership test or the
    subscript would raise into the outer handler or fall to the
    [else], and the result is [None] either way. *)
Definition extract_info_from_report (r : reply) : option (list value) :=
  match r with
  | CallFailed => None
  | Stdout out =>
      let content := strip out in
      match re_search braces_rx content with
      | Some json_text =>
          let json_text := re_sub trailing_comma_rx trailing_comma_tpl json_text in
          match json_loads json_text with
          | Ok (VDict d) =>
              match dict_get d (u "specimens") with
              | Some (VList l) => Some l
              | _ => None
              end
          | _ => None
          end
      | None => None
      end
  end.

Definition features_stub : value :=
  VDict [ (u "HGPIN", VInt 0); (u "ASAP", VInt 0); (u "ATYP", VInt 0);
          (u "INF", VInt 0); (u "ADC", VInt 0) ].

(** Lines 168-177. *)
Definition stub (accession_number : value) (line_number : nat) : value :=
  VDict [ (u "study_id",
           if truthy accession_number then accession_number
           else VStr (u "subject_" ++ utext (str_of_nat line_number)));
          (u "specimen_name", VStr (u "Specimen Unknown"));
          (u "gleason_score", VStr (u "No GS"));
          (u "gleason_pattern", VStr (u "No GP"));
          (u "num_cores", VStr (u "No #C"));
          (u "percent_specimen", VStr (u "unknown"));
          (u "features", features_stub);
          (u "comment", VStr (u "No comment")) ].

(** Lines 179-183, for one specimen. *)
Definition override_benign (report_text : text) (specimen : value) : result value :=
  if contains (lit "benign") (lower report_text) then
    do specimen <- setitem specimen (u "gleason_score") (VStr (u "benign"));
    do specimen <- setitem specimen (u "gleason_pattern") (VStr (u "benign"));
    setitem specimen (u "comment") (VStr (u "benign"))
  else Ok specimen.

(** Lines 179-183, for one specimen and the cell of the report:
    [report_text.lower()] is evaluated for each specimen, and only a
    string has the method. *)
Definition override (report_text : cell) (specimen : value) : result value :=
  match report_text with
  | Text t => override_benign t specimen
  | Blank | Number _ | Truth _ => Raise AttributeError
  end.

(** The body of the loop of lines 153-185: the list appended to
    [extracted_data]. *)
Definition process_subject (line_number : nat) (s : subject) : result (list value) :=
  let number_of_specimens := get_number_of_specimens (count_reply s) in
  let number_of_specimens :=
    if Z.eqb number_of_specimens 0 then 1%Z else number_of_specimens in
  let extracted_specimens := extract_info_from_report (details_reply s) in
  let extracted_specimens :=
    match extracted_specimens with
    | None => [stub (accession_number s) line_number]
    | Some l => l
    end in
  for_each (override (report s)) extracted_specimens.

(** The loop of lines 153-185, from line [line_number] on. *)
Fixpoint process_subjects (line_number : nat) (batch : list subject)
  : result (list (list value)) :=
  match batch with
  | [] => Ok []
  | s :: rest =>
      do specimens <- process_subject line_number s;
      do others <- process_subjects (S line_number) rest;
      Ok (specimens :: others)
  end.

(** [max(len(report) for report in extracted_data)] *)
Definition max_len (extracted_data : list (list value)) : result nat :=
  match extracted_data with
  | [] => Raise ValueError
  | _ => Ok (fold_right Nat.max 0 (map (@List.length value) extracted_data))
  end.

(** Line 193, for one value of [i]. *)
Definition block_columns (i : nat) : list text :=
  map (fun name => lit name ++ str_of_nat (i + 1))
    [ "Specimen_"; "GS_"; "GP_"; "#C_"; "%Spec_"; "HGPIN_"; "ASAP_";
      "ATYP_"; "INF_"; "ADC_"; "Comment_" ]%string.

Definition columns (max_specimens : nat) : list text :=
  lit "StudyID" :: flat_map block_columns (seq 0 max_specimens).

Definition feature (specimen : value) (name : string) : result value :=
  do features <- get_method specimen (u "features") (VDict []);
  get_method features (u name) (VInt 0).

(** Lines 200-212: the eleven cells of a specimen. *)
Definition specimen_cells (specimen : value) : result (list value) :=
  do c1 <- get_method specimen (u "specimen_name") EMPTY;
  do c2 <- get_method specimen (u "gleason_score") EMPTY;
  do c3 <- get_method specimen (u "gleason_pattern") EMPTY;
  do c4 <- get_method specimen (u "num_cores") EMPTY;
  do c5 <- get_method specimen (u "percent_specimen") EMPTY;
  do c6 <- feature specimen "HGPIN";
  do c7 <- feature specimen "ASAP";
  do c8 <- feature specimen "ATYP";
  do c9 <- feature specimen "INF";
  do c10 <- feature specimen "ADC";
  do c11 <- get_method specimen (u "comment") EMPTY;
  Ok [c1; c2; c3; c4; c5; c6; c7; c8; c9; c10; c11].

(** Lines 198-214: the block of slot [i]. *)
Definition block (report_data : list value) (i : nat) : result (list value) :=
  match nth_error report_data i with
  | Some specimen => specimen_cells specimen
  | None => Ok (repeat EMPTY 11)
  end.

(** Lines 196-215: the row of one subject. *)
Definition flatten_row (max_specimens : nat) (report_data : list value)
  : result (list value) :=
  do first <- match report_data with
              | [] => Raise IndexError
              | x :: _ => Ok x
              end;
  do study_id <- getitem first (u "study_id");
  do blocks <- for_each (block report_data) (seq 0 max_specimens);
  Ok (study_id :: List.concat blocks).

(** Lines 188-215: the header and the rows. *)
Definition flatten (extracted_data : list (list value))
  : result (list text * list (list value)) :=
  do max_specimens <- max_len extracted_data;
  do rows <- for_each (flatten_row max_specimens) extracted_data;
  Ok (columns max_specimens, rows).

(** The script from the loop on: the table handed to [pd.DataFrame]. *)
Definition run (batch : list subject) : result (list text * list (list value)) :=
  do extracted_data <- process_subjects 1 batch;
  flatten extracted_data.

End Info16.

(* ------------------------------------------------------------------ *)
(** * [clean_json_output]

    The same function in extract_info23.py and new_extract_info3.py. *)

Definition NL : text := [ascii_of_N 10].

Definition FENCE : text := lit "```".

(** [lines and lines[-1].startswith(FENCE)] *)
Definition last_is_fence (lines : list text) : bool :=
  match rev lines with
  | [] => false
  | l :: _ => startswith FENCE l
  end.

Definition clean_json_output (output : text) : result text :=
  let output := strip output in
  if startswith FENCE output then
    let lines := splitlines output in
    do first <- match lines with
                | [] => Raise IndexError
                | l :: _ => Ok l
                end;
    let lines := if startswith FENCE first then tl lines else lines in
    let lines := if last_is_fence lines then removelast lines else lines in
    Ok (strip (join NL lines))
  else Ok output.

(* ------------------------------------------------------------------ *)
(** * extract_info23.py *)

Module Info23.

Definition get_number_of_specimens (r : reply) : value * value :=
  let failure := (VInt 1, VList []) in
  match r with
  | CallFailed => failure
  | Stdout out =>
      let content := strip out in
      let attempt :=
        do content <- clean_json_output content;
        do data <- json_loads content;
        do number <- get_method data (u "number_of_specimens") (VInt 1);
        do names <- get_method data (u "specimen_names") (VList []);
        Ok (number, names) in
      match attempt with
      | Ok p => p
      | Raise _ => failure
      end
  end.

Definition extract_info_from_report (r : reply) : option (list value) :=
  match r with
  | CallFailed => None
  | Stdout out =>
      let content := strip out in
      match clean_json_output content with
      | Ok content =>
          match json_loads content with
          | Ok (VDict d) =>
              match dict_get d (u "specimens") with
              | Some (VList l) => Some l
              | _ => None
              end
          | _ => None
          end
      | Raise _ => None
      end
  end.

Definition features_stub : value :=
  VDict [ (u "HGPIN", VInt 0); (u "ASAP", VInt 0); (u "ATYP", VInt 0);
          (u "INF", VInt 0); (u "ADC", VInt 0); (u "PNI", VInt 0);
          (u "Benign", VInt 0) ].

(** Lines 173-182. *)
Definition stub (accession_number : value) : value :=
  VDict [ (u "study_id", accession_number);
          (u "specimen_name", VStr (u "Specimen Unknown"));
          (u "gleason_score", VStr (u "unknown"));
          (u "gleason_pattern", VStr (u "unknown"));
          (u "num_cores", VStr (u "unknown"));
          (u "percent_specimen", VStr (u "unknown"));
          (u "features", features_stub);
          (u "comment", VStr (u "unknown")) ].

(** Lines 185-187, for the specimen at index [i]. *)
Definition finish_specimen (accession_number specimen_names : value)
  (i : nat) (specimen : value) : result value :=
  do specimen <- setitem specimen (u "study_id") accession_number;
  do n <- len specimen_names;
  do name <- if i <? n then getitem_nat specimen_names i
             else Ok (VStr (u "Unknown Specimen"));
  do specimen <- setitem specimen (u "specimen_name") name;
  do comment <- getitem specimen (u "comment");
  do comment <- slice_to comment 200;
  setitem specimen (u "comment") comment.

(** The body of the loop of lines 160-189: the specimens added to
    [extracted_data]. *)
Definition process_subject (s : subject) : result (list value) :=
  let (number_of_specimens, specimen_names) :=
    get_number_of_specimens (count_reply s) in
  match extract_info_from_report (details_reply s) with
  | None => Ok [stub (accession_number s)]
  | Some extracted_specimens =>
      for_each
        (fun p => finish_specimen (accession_number s) specimen_names (fst p) (snd p))
        (combine (seq 0 (List.length extracted_specimens)) extracted_specimens)
  end.

(** [main] from the loop on: the list written to the output file. *)
Fixpoint main (batch : list subject) : result (list value) :=
  match batch with
  | [] => Ok []
  | s :: rest =>
      do specimens <- process_subject s;
      do others <- main rest;
      Ok (specimens ++ others)
  end.

End Info23.

(* ------------------------------------------------------------------ *)
(** * [json.dumps]

    With its default settings: the separators are a comma and a colon
    each followed by a space, and only printable ASCII goes out
    unescaped. A float goes out as the text of its literal. *)

Definition hex_digit (n : N) : ascii :=
  nth (N.to_nat n) (lit "0123456789abcdef") (ascii_of_N 48).

Definition hex4_of (n : N) : text :=
  [ hex_digit (n / 4096 mod 16); hex_digit (n / 256 mod 16);
    hex_digit (n / 16 mod 16); hex_digit (n mod 16) ]%N.

Definition escape_code (n : N) : text :=
  if (n =? 34)%N then [ascii_of_N 92; DQ]
  else if (n =? 92)%N then lit "\\"
  else if (n =? 10)%N then lit "\n"
  else if (n =? 13)%N then lit "\r"
  else if (n =? 9)%N then lit "\t"
  else if (n =? 8)%N then lit "\b"
  else if (n =? 12)%N then lit "\f"
  else if ((32 <=? n) && (n <=? 126))%N then [ascii_of_N n]
  else if (n <? 65536)%N then lit "\u" ++ hex4_of n
  else lit "\u" ++ hex4_of (55296 + (n - 65536) / 1024)%N
       ++ lit "\u" ++ hex4_of (56320 + (n - 65536) mod 1024)%N.

Definition dumps_str (s : ustr) : text :=
  [DQ] ++ flat_map escape_code s ++ [DQ].

Definition dumps_int (z : Z) : text :=
  lit (NilEmpty.string_of_int (Z.to_int z)).

Fixpoint json_dumps (v : value) : text :=
  match v with
  | VNone => lit "null"
  | VBool true => lit "true"
  | VBool false => lit "false"
  | VInt z => dumps_int z
  | VFloat lexeme => lexeme
  | VStr s => dumps_str s
  | VList l | VTuple l =>
      lit "[" ++ join (lit ", ") (map json_dumps l) ++ lit "]"
  | VDict d =>
      lit "{"
      ++ join (lit ", ")
           (map (fun kv => dumps_str (fst kv) ++ lit ": " ++ json_dumps (snd kv)) d)
      ++ lit "}"
  end.


(* ------------------------------------------------------------------ *)
(** * The prompts of new_extract_info2.py and new_extract_info3.py

    The two scripts build these four with the same text. *)

Definition gleason_prompt (report_text : text) : text :=
  NL
  ++ lit "    Extract the Gleason score and pattern from the following pathology report:"
  ++ NL
  ++ lit "    "
  ++ report_text
  ++ NL
  ++ lit "    Provide JSON output with keys 'gleason_score' and 'gleason_pattern'. If benign, set score to 'benign'. If unknown, return 'unknown'."
  ++ NL
  ++ lit "    ".

Definition cores_prompt (report_text : text) : text :=
  NL
  ++ lit "    Extract the number of biopsy cores with cancer from the following pathology report:"
  ++ NL
  ++ lit "    "
  ++ report_text
  ++ NL
  ++ lit "    Provide JSON output with key 'num_cores' in the format 'X/Y' (cancer-containing cores/total cores). If unknown, return 'unknown'."
  ++ NL
  ++ lit "    ".

Definition percent_prompt (report_text : text) : text :=
  NL
  ++ lit "    Extract the percentage of cancer in the specimen from the following pathology report:"
  ++ NL
  ++ lit "    "
  ++ report_text
  ++ NL
  ++ lit "    Provide JSON output with key 'percent_specimen'. If unknown, return 'unknown'."
  ++ NL
  ++ lit "    ".

Definition comment_prompt (report_text : text) : text :=
  NL
  ++ lit "    Extract the comment section from the following pathology report:"
  ++ NL
  ++ lit "    "
  ++ report_text
  ++ NL
  ++ lit "    Provide JSON output with key 'comment'. If no comment, return 'none'."
  ++ NL
  ++ lit "    ".

(** One row of the input of [csv.DictReader]. *)
Record csv_row : Type := {
  row_accession_number : text;
  row_report : text
}.

(** The dictionary of [process_report] from its five parts. *)
Definition structured_data (gleason num_cores percent features comment : value) : value :=
  VDict [ (u "gleason", gleason); (u "num_cores", num_cores);
          (u "percent_specimen", percent); (u "features", features);
          (u "comment", comment) ].

(** The dictionary appended to [data] for one row. *)
Definition specimen_data (report_id : text) (specimens : list value) : value :=
  VDict [ (u "accession_number", VStr (utext report_id));
          (u "specimens", VList specimens) ].

(** The separator of [report_text.split]: two spaces. *)
Definition TWO_SPACES : text := lit "  ".

(* ------------------------------------------------------------------ *)
(** * new_extract_info2.py *)

Module Info2.
Section Backend.

(** [call_mistral]: the remote model, which answers with a text or
    raises. *)
Variable call_mistral : text -> result text.

Definition features_prompt (report_text : text) : text :=
  NL
  ++ lit "    Extract features from the pathology report:"
  ++ NL
  ++ lit "    "
  ++ report_text
  ++ NL
  ++ lit "    Provide JSON output with keys: 'HGPIN', 'ASAP', 'ATYP', 'INF', 'ADC', 'PNI', 'Benign', each having a value of 0 (absent) or 1 (present)."
  ++ NL
  ++ lit "    ".

Definition ask (prompt : text) : result value :=
  do answer <- call_mistral prompt;
  json_loads answer.

Definition extract_gleason (report_text : text) : result value :=
  ask (gleason_prompt report_text).

Definition extract_cores (report_text : text) : result value :=
  ask (cores_prompt report_text).

Definition extract_percent (report_text : text) : result value :=
  ask (percent_prompt report_text).

Definition extract_features (report_text : text) : result value :=
  ask (features_prompt report_text).

Definition extract_comment (report_text : text) : result value :=
  ask (comment_prompt report_text).

Definition process_report (report_text : text) : result value :=
  do gleason <- extract_gleason report_text;
  do num_cores <- extract_cores report_text;
  do percent <- extract_percent report_text;
  do features <- extract_features report_text;
  do comment <- extract_comment report_text;
  Ok (structured_data gleason num_cores percent features comment).

(** Lines 77-85: the body of the loop over the rows. *)
Definition process_row (row : csv_row) : result value :=
  let report_id := row_accession_number row in
  let report_text := row_report row in
  let specimens := split TWO_SPACES report_text in
  do entries <- for_each process_report specimens;
  Ok (specimen_data report_id entries).

(** Lines 76-85: the list [data]. *)
Definition process_rows (rows : list csv_row) : result (list value) :=
  for_each process_row rows.

End Backend.
End Info2.

(* ------------------------------------------------------------------ *)
(** * new_extract_info3.py *)

Module Info3.

(** What [subprocess.run] gave: it raised, or the process ended with
    these two texts. *)
Inductive completed : Type :=
| RunFailed
| Completed (stdout stderr : text).

Definition run_ollama (r : completed) : value :=
  match r with
  | RunFailed => VNone
  | Completed stdout stderr =>
      match stderr with
      | _ :: _ => VNone
      | [] =>
          let content := strip stdout in
          match content with
          | [] => VNone
          | _ :: _ =>
              match clean_json_output content with
              | Ok content =>
                  match json_loads content with
                  | Ok v => v
                  | Raise _ => VNone
                  end
              | Raise _ => VNone
              end
          end
      end
  end.

(** What a name is bound to: a value of the model, or an object that is
    none (a module, a function, an open file). *)
Inductive binding : Type :=
| Bound (v : value)
| Opaque.

(** The names bound at the top level of the script once it has run. *)
Definition module_names : list string :=
  [ "os"; "pd"; "json"; "subprocess"; "re"; "INPUT_CSV_PATH";
    "OUTPUT_JSON_PATH"; "MODEL_NAME"; "clean_json_output"; "run_ollama";
    "get_number_of_specimens"; "mock_mistral_processing"; "call_mistral";
    "extract_gleason"; "extract_cores"; "extract_percent";
    "extract_features"; "extract_comment"; "process_report"; "input_file";
    "output_file"; "data"; "csvfile"; "reader"; "row"; "report_id";
    "report_text"; "specimens"; "specimen_data"; "specimen"; "jsonfile" ]%string.

Fixpoint lookup (name : string) (locals : list (string * value)) : option value :=
  match locals with
  | [] => None
  | (n, v) :: rest => if String.eqb n name then Some v else lookup name rest
  end.

(** The value of a name inside a function: its local variables first,
    then the names of the module; no built-in has a name the script
    reads without binding it. *)
Definition load_name (locals : list (string * value)) (name : string)
  : result binding :=
  match lookup name locals with
  | Some v => Ok (Bound v)
  | None =>
      if existsb (String.eqb name) module_names then Ok Opaque
      else Raise (NameError name)
  end.

(** [response.get(key, default)] for a key that is any object: the keys
    of a decoded object are strings, and a list or a dictionary cannot be
    hashed. *)
Definition get_by (v : value) (key : binding) (default : value) : result value :=
  match key with
  | Bound (VStr k) => get_method v k default
  | Bound (VList _) | Bound (VDict _) =>
      match v with
      | VDict _ => Raise TypeError
      | _ => Raise AttributeError
      end
  | _ =>
      match v with
      | VDict _ => Ok default
      | _ => Raise AttributeError
      end
  end.

Definition is_dict (v : value) : bool :=
  match v with
  | VDict _ => true
  | _ => false
  end.

(** Lines 89-93. The prompt is a local variable like the other two; its
    text plays no part. *)
Definition get_number_of_specimens (report_text prompt : text) (r : completed)
  : result value :=
  let response := run_ollama r in
  let locals :=
    [ ("report_text"%string, VStr (utext report_text));
      ("prompt"%string, VStr (utext prompt));
      ("response"%string, response) ] in
  if truthy response && is_dict response then
    do number <- get_method response (u "number_of_specimens") (VInt 1);
    do names <- get_method response (u "specimen_names") (VList []);
    do key <- load_name locals "specimen_text";
    do texts <- get_by response key (VList []);
    Ok (VTuple [number; names; texts])
  else Ok (VTuple [VInt 1; VList []]).

Definition mock_mistral_processing (prompt : text) : text :=
  if contains (lit "gleason") (lower prompt) then
    json_dumps (VDict [ (u "gleason_score", VStr (u "7"));
                        (u "gleason_pattern", VStr (u "4+3")) ])
  else if contains (lit "number of biopsy cores") (lower prompt) then
    json_dumps (VDict [ (u "num_cores", VStr (u "3/10")) ])
  else if contains (lit "percentage of cancer") (lower prompt) then
    json_dumps (VDict [ (u "percent_specimen", VStr (u "30%")) ])
  else if contains (lit "features from the pathology report") (lower prompt) then
    json_dumps (VDict [ (u "HGPIN", VInt 0); (u "ASAP", VInt 0);
                        (u "ATYP", VInt 0); (u "INF", VInt 0);
                        (u "ADC", VInt 0); (u "PNI", VInt 0);
                        (u "Benign", VInt 1) ])
  else if contains (lit "comment section") (lower prompt) then
    json_dumps (VDict [ (u "comment", VStr (u "No significant findings")) ])
  else
    json_dumps (VDict [ (u "unknown", VStr (u "unknown")) ]).

Definition call_mistral (prompt : text) : text :=
  mock_mistral_processing prompt.

Definition features_prompt (report_text : text) : text :=
  NL
  ++ lit "    Extract features from the pathology report:"
  ++ NL
  ++ lit "    "
  ++ report_text
  ++ NL
  ++ lit "    Provide JSON output with keys: "
  ++ NL
  ++ qq "  - 'HGPIN': 0 (absent) or 1 (present) - high grade prostatic intraepithelial neoplasia. If no data is found, set to 0."
  ++ NL
  ++ qq "  - 'ASAP': 0 (absent) or 1 (present) - atypical small acinar proliferation. If no data is found, set to 0."
  ++ NL
  ++ qq "  - 'ATYP': 0 (absent) or 1 (present) - any other mention of atypical glands besides ASAP specifically. If no data is found, set to 0."
  ++ NL
  ++ qq "  - 'INF': 0 (absent) or 1 (present) - inflammation or prostatitis. If no data is found, set to 0."
  ++ NL
  ++ qq "  - 'ADC': 0 (absent) or 1 (present) - adenocarcinoma described but no GS given. If no data is found, set to 0."
  ++ NL
  ++ qq "  - 'PNI': 0 (absent) or 1 (present) - perineural invasion. If no data is found, set to 0."
  ++ NL
  ++ lit "    ".

Definition extract_gleason (report_text : text) : result value :=
  json_loads (call_mistral (gleason_prompt report_text)).

Definition extract_cores (report_text : text) : result value :=
  json_loads (call_mistral (cores_prompt report_text)).

Definition extract_percent (report_text : text) : result value :=
  json_loads (call_mistral (percent_prompt report_text)).

Definition extract_features (report_text : text) : result value :=
  json_loads (call_mistral (features_prompt report_text)).

Definition extract_comment (report_text : text) : result value :=
  json_loads (call_mistral (comment_prompt report_text)).

Definition process_report (report_text : text) : result value :=
  do gleason <- extract_gleason report_text;
  do num_cores <- extract_cores report_text;
  do percent <- extract_percent report_text;
  do features <- extract_features report_text;
  do comment <- extract_comment report_text;
  Ok (structured_data gleason num_cores percent features comment).

(** Lines 180-188: the body of the loop over the rows. *)
Definition process_row (row : csv_row) : result value :=
  let report_id := row_accession_number row in
  let report_text := row_report row in
  let specimens := split TWO_SPACES report_text in
  do entries <- for_each process_report specimens;
  Ok (specimen_data report_id entries).

(** Lines 179-188: the list [data]. *)
Definition process_rows (rows : list csv_row) : result (list value) :=
  for_each process_row rows.

End Info3.

Unset Implicit Arguments.

(* ------------------------------------------------------------------ *)
(** * Notions used by the statements *)

(** [word] occurs in [s] with each of its letters in lower or in upper
    case; [word] is given in lower case. *)
Definition occurs_any_case (word s : text) : Prop :=
  exists pre mid post,
    s = pre ++ mid ++ post
    /\ Forall2 (fun l c => c = l \/ (code c + 32 = code l)%N) word mid.

(** A specimen that [specimen_cells] can read: a dictionary whose entry
    features, when there is one, is a dictionary. *)
Definition is_record (v : value) : bool :=
  match v with
  | VDict d =>
      match dict_get d (u "features") with
      | Some (VDict _) | None => true
      | Some _ => false
      end
  | _ => false
  end.

Definition has_study_id (v : value) : bool :=
  match v with
  | VDict d => match dict_get d (u "study_id") with Some _ => true | None => false end
  | _ => false
  end.

(** A batch as the data model has it: at least one subject, each with
    at least one specimen, the first of which names the study. *)
Definition well_formed_batch (extracted_data : list (list value)) : Prop :=
  extracted_data <> []
  /\ Forall (fun report_data =>
              match report_data with
              | [] => False
              | first :: _ => has_study_id first = true
              end
              /\ Forall (fun v => is_record v = true) report_data)
       extracted_data.

(** What stands under the key [k] in an object, and [default] when the
    object has no such key. *)
Definition entry (d : dict) (k : string) (default : value) : value :=
  match dict_get d (u k) with
  | Some x => x
  | None => default
  end.

(** A report cell that is a string in which [word] occurs in any mix of
    letter cases. *)
Definition mentions (word : text) (c : cell) : Prop :=
  exists t, c = Text t /\ occurs_any_case word t.

(** The study identifier of a stub of extract_info16.py (line 169): the
    accession number when it is truthy, and subject_ followed by the
    line number otherwise. *)
Definition stub_study_id (accession_number : value) (line_number : nat) : value :=
  if truthy accession_number then accession_number
  else VStr (u "subject_" ++ utext (str_of_nat line_number)).

(** The record that stands for a subject whose extraction failed, in
    extract_info16.py: the stub, with the three fields the override of
    lines 179-183 rewrites when the report mentions benign. *)
Definition degraded_record16 (accession_number : value) (line_number : nat)
  (benign : bool) : value :=
  VDict [ (u "study_id", stub_study_id accession_number line_number);
          (u "specimen_name", VStr (u "Specimen Unknown"));
          (u "gleason_score", VStr (u (if benign then "benign" else "No GS")));
          (u "gleason_pattern", VStr (u (if benign then "benign" else "No GP")));
          (u "num_cores", VStr (u "No #C"));
          (u "percent_specimen", VStr (u "unknown"));
          (u "features", Info16.features_stub);
          (u "comment", VStr (u (if benign then "benign" else "No comment"))) ].

(** Its eleven cells in the output row. *)
Definition degraded_cells16 (benign : bool) : list value :=
  [ VStr (u "Specimen Unknown");
    VStr (u (if benign then "benign" else "No GS"));
    VStr (u (if benign then "benign" else "No GP"));
    VStr (u "No #C"); VStr (u "unknown");
    VInt 0; VInt 0; VInt 0; VInt 0; VInt 0;
    VStr (u (if benign then "benign" else "No comment")) ].

(** A decoded answer that is an object with at least one key. *)
Definition is_nonempty_dict (v : value) : bool :=
  match v with
  | VDict (_ :: _) => true
  | _ => false
  end.

(* ------------------------------------------------------------------ *)
(** * The lexical structure of a JSON document

    Notions for the proof that the repair steps leave a valid document
    alone. *)

(** Where a scan of the document stands: outside a string, outside a
    string with nothing but white space since the last one closed,
    inside a string, inside a string after a backslash. *)
Inductive lexstate : Type :=
| LOut
| LAfter
| LStr
| LEsc.

(** What may follow a string: a comma, a colon, a closing bracket. *)
Definition is_separator (c : ascii) : bool :=
  is_char 44 c || is_char 58 c || is_char 93 c || is_char 125 c.

Definition lex_step (q : lexstate) (c : ascii) : option lexstate :=
  match q with
  | LOut => if is_char 34 c then Some LStr else Some LOut
  | LAfter =>
      if is_json_ws c then Some LAfter
      else if is_separator c then Some LOut
      else None
  | LStr =>
      if is_char 34 c then Some LAfter
      else if is_char 92 c then Some LEsc
      else Some LStr
  | LEsc => Some LStr
  end.

Fixpoint lex (q : lexstate) (s : text) : option lexstate :=
  match s with
  | [] => Some q
  | c :: s' =>
      match lex_step q c with
      | Some q' => lex q' s'
      | None => None
      end
  end.

(** [str_run a acc x]: the string scanner, started with [acc], reads
    exactly the characters [a], the last of them the closing quote, and
    gives [x]. *)
Inductive str_run : text -> ustr -> ustr -> Prop :=
| run_close : forall c acc,
    is_char 34 c = true ->
    str_run [c] acc (rev acc)
| run_plain : forall c a acc x,
    is_char 34 c = false ->
    is_char 92 c = false ->
    (code c <? 32)%N = false ->
    str_run a (code c :: acc) x ->
    str_run (c :: a) acc x
| run_escape : forall c e n a acc x,
    is_char 34 c = false ->
    is_char 92 c = true ->
    is_char 117 e = false ->
    simple_escape e = Some n ->
    str_run a (n :: acc) x ->
    str_run (c :: e :: a) acc x
| run_unicode : forall c e h1 h2 h3 h4 uni a acc x,
    is_char 34 c = false ->
    is_char 92 c = true ->
    is_char 117 e = true ->
    hex4 h1 h2 h3 h4 = Some uni ->
    (is_high_surrogate uni = false
     \/ forall r, low_surrogate_at (a ++ r) = NoPair) ->
    str_run a (uni :: acc) x ->
    str_run (c :: e :: h1 :: h2 :: h3 :: h4 :: a) acc x
| run_pair : forall c e h1 h2 h3 h4 uni b v g1 g2 g3 g4 uni2 a acc x,
    is_char 34 c = false ->
    is_char 92 c = true ->
    is_char 117 e = true ->
    hex4 h1 h2 h3 h4 = Some uni ->
    is_high_surrogate uni = true ->
    low_surrogate_at [b; v; g1; g2; g3; g4] = Pair uni2 ->
    str_run a (join_surrogates uni uni2 :: acc) x ->
    str_run (c :: e :: h1 :: h2 :: h3 :: h4
               :: b :: v :: g1 :: g2 :: g3 :: g4 :: a) acc x.

(** The characters a number is made of. *)
Definition is_number_char (c : ascii) : bool :=
  isdigit c || is_char 46 c || is_char 101 c || is_char 69 c
  || is_char 43 c || is_char 45 c.

(** A rest of the document that starts with no such character, and so
    cannot prolong a number read just before it. *)
Definition follows_ok (r : text) : Prop :=
  match r with
  | [] => True
  | c :: _ => is_number_char c = false
  end.

(** The first characters of a number: a digit, or a minus sign and a
    digit. *)
Definition number_head (a : text) : Prop :=
  match a with
  | [] => False
  | c :: rest =>
      isdigit c = true
      \/ (is_char 45 c = true
          /\ match rest with
             | d :: _ => isdigit d = true
             | [] => False
             end)
  end.

(** A result of the scanner with [r] added to what it leaves. *)
Definition scanned_with {A : Type} (m : scan A) (r : text) : scan A :=
  match m with
  | Scanned a t => Scanned a (t ++ r)
  | Malformed => Malformed
  | Exhausted => Exhausted
  end.

(** The text of a value: it starts and ends with a character that is
    not white space, and a scan that starts outside a string ends
    outside a string. *)
Definition value_text (a : text) : Prop :=
  (exists c a1, a = c :: a1 /\ isspace c = false)
  /\ (exists a0 c, a = a0 ++ [c] /\ isspace c = false)
  /\ (exists q, lex LOut a = Some q /\ (q = LOut \/ q = LAfter)).

(** The text of the items of an array, or of the pairs of an object,
    up to the closing bracket. *)
Definition closed_text (a : text) : Prop :=
  (exists c a1, a = c :: a1 /\ is_json_ws c = false)
  /\ (exists a0 c, a = a0 ++ [c] /\ is_separator c = true)
  /\ lex LOut a = Some LOut.

(** What the scanner reads of a document does not depend on what
    follows it: the three scanners at a given fuel. *)
Definition frame_once (fuel : nat) : Prop :=
  forall (s : text) (v : value) (r : text),
    scan_once fuel s = Scanned v r ->
    exists a,
      s = a ++ r
      /\ value_text a
      /\ (follows_ok r ->
          forall r', follows_ok r' -> scan_once fuel (a ++ r') = Scanned v r').

Definition frame_items (fuel : nat) : Prop :=
  forall (s : text) (acc : list value) (v : value) (r : text),
    scan_items fuel s acc = Scanned v r ->
    exists a,
      s = a ++ r
      /\ closed_text a
      /\ forall r', scan_items fuel (a ++ r') acc = Scanned v r'.

Definition frame_pairs (fuel : nat) : Prop :=
  forall (s : text) (acc : list (ustr * value)) (v : value) (r : text),
    scan_pairs fuel s acc = Scanned v r ->
    exists a,
      s = a ++ r
      /\ closed_text a
      /\ forall r', scan_pairs fuel (a ++ r') acc = Scanned v r'.

(** What every match of the comma pattern ends with: two double quotes
    with only white space between them, the second followed by a word
    and a third double quote. *)
Definition adjacent_strings (s : text) : Prop :=
  exists x y k z,
    s = x ++ DQ :: y ++ DQ :: k ++ DQ :: z
    /\ Forall (fun c => isspace c = true) y
    /\ k <> []
    /\ Forall (fun c => isword c = true) k.

(** The last six items of the comma pattern, from the quote that closes
    the first value on. *)
Definition missing_comma_tail : regex :=
  [ One (is_char 34); Star isspace;
    GOpen 2; One (is_char 34); Plus isword; One (is_char 34); One (is_char 58);
    GClose 2 ].

(** The 256 characters. *)
Definition all_chars : list ascii := map ascii_of_nat (seq 0 256).

(** A valid document that the repair does not give back: a string that
    holds an opening brace. *)
Definition brace_in_string : text := qq "'{'".

(* ------------------------------------------------------------------ *)
(** * Further notions *)

(** Lines 177-188 of new_extract_info3.py, once the input file is
    open: the reader is built from the name csv, which the script does
    not import, before the first row is read. *)
Definition info3_rows (rows : list csv_row) : result (list value) :=
  do reader <- Info3.load_name [] "csv";
  Info3.process_rows rows.

(** [s.endswith(p)] *)
Definition endswith (p s : text) : bool := startswith (rev p) (rev s).

(** Whether an occurrence of [p] can lie across the end of [a], or
    across the start of [b]: a proper part of [p] that is not empty
    ends [a], or starts [b]. *)
Definition overlaps_end (p a : text) : bool :=
  existsb (fun k => endswith (firstn k p) a) (seq 1 (List.length p - 1)).

Definition overlaps_start (p b : text) : bool :=
  existsb (fun k => startswith (skipn k p) b) (seq 1 (List.length p - 1)).

(** The five answers of the stand-in model of new_extract_info3.py to
    the questions they are meant for. *)
Definition mock_record : value :=
  structured_data
    (VDict [ (u "gleason_score", VStr (u "7"));
             (u "gleason_pattern", VStr (u "4+3")) ])
    (VDict [ (u "num_cores", VStr (u "3/10")) ])
    (VDict [ (u "percent_specimen", VStr (u "30%")) ])
    (VDict [ (u "HGPIN", VInt 0); (u "ASAP", VInt 0); (u "ATYP", VInt 0);
             (u "INF", VInt 0); (u "ADC", VInt 0); (u "PNI", VInt 0);
             (u "Benign", VInt 1) ])
    (VDict [ (u "comment", VStr (u "No significant findings")) ]).

(* ------------------------------------------------------------------ *)
(** * Inputs of the scenarios *)

(** The truncated reply of the repair scenario. *)
Definition truncated_reply : text := qq "{'specimens': [{'gleason_score': '7'".

(** What the two appended closers make of it. *)
Definition truncated_reply_balanced : text :=
  qq "{'specimens': [{'gleason_score': '7'}]".

(** Two fragments with the comma between them missing. *)
Definition comma_missing : text := qq "{'a': 'b' 'c': 'd'}".

(** A subject whose reply decodes to an object with an empty specimens
    list. *)
Definition subject_without_specimens : subject :=
  {| report := Text (lit "Prostate, needle biopsy.");
     accession_number := VStr (u "A1");
     count_reply := Stdout (lit "0");
     details_reply := Stdout (qq "{'specimens': []}") |}.




(* ------------------------------------------------------------------ *)
(** * The repair of a truncated reply *)

(** C1. On the truncated reply of the scenario, [fix_malformed_json]
    appends one closing brace and then one closing bracket, the comma
    step changes nothing, the text that results still lacks the outer
    closing brace, [json.loads] rejects it and the function returns
    [None]; the text with all three closers would decode to one specimen
    whose gleason_score is 7. *)
Theorem C1_truncated_reply_not_repaired :
  Info16.balance_brackets (strip truncated_reply) = truncated_reply_balanced
  /\ Info16.insert_commas truncated_reply_balanced = truncated_reply_balanced
  /\ json_loads truncated_reply_balanced = Raise JSONDecodeError
  /\ Info16.fix_malformed_json truncated_reply = Ok VNone
  /\ json_loads (truncated_reply ++ lit "}]}")
     = Ok (VDict [(u "specimens",
                   VList [VDict [(u "gleason_score", VStr (u "7"))]])]).
Proof.
  repeat split; vm_compute; reflexivity.
Qed.

(* ------------------------------------------------------------------ *)
(** * The comma step *)

(** C7. On two fragments with the comma missing, the substitution of
    line 24 puts the comma in the place of the closing quote of the
    first value and of the white space: the quote is lost, the text no
    longer decodes and [fix_malformed_json] returns [None]; with the
    comma inserted and both fragments kept, the text would decode. *)
Theorem C7_comma_step_drops_closing_quote :
  Info16.insert_commas comma_missing = qq "{'a': 'b,'c': 'd'}"
  /\ Info16.fix_malformed_json comma_missing = Ok VNone
  /\ json_loads (qq "{'a': 'b', 'c': 'd'}")
     = Ok (VDict [(u "a", VStr (u "b")); (u "c", VStr (u "d"))]).
Proof.
  repeat split; vm_compute; reflexivity.
Qed.

(* ------------------------------------------------------------------ *)
(** * An empty specimens list *)

(** C2. A reply that decodes to an object with an empty specimens list
    is not replaced by a stub: the subject keeps an empty list of
    records, and the flattening loop, which reads the first record of
    every subject, ends the run with [IndexError]. *)
Theorem C2_empty_specimens_list_gets_no_stub :
  Info16.extract_info_from_report (details_reply subject_without_specimens)
  = Some []
  /\ Info16.process_subject 1 subject_without_specimens = Ok []
  /\ Info16.run [subject_without_specimens] = Raise IndexError.
Proof.
  repeat split; vm_compute; reflexivity.
Qed.

(* ------------------------------------------------------------------ *)
(** * The undefined name of new_extract_info3.py *)

(** C9, as the claim states it, fails on the empty object: the reply
    decodes to a JSON object, and the function returns the pair of the
    failure branch instead of raising. *)
Lemma C9_counterexample :
  json_loads (lit "{}") = Ok (VDict [])
  /\ Info3.run_ollama (Info3.Completed (lit "{}") []) = VDict []
  /\ Info3.get_number_of_specimens [] [] (Info3.Completed (lit "{}") [])
     = Ok (VTuple [VInt 1; VList []]).
Proof.
  repeat split; vm_compute; reflexivity.
Qed.

(** C9, amended. When the decoded answer is an object with at least one
    key, the function raises [NameError] for the name specimen_text;
    in every other case (a failed call, output on stderr, an empty or
    undecodable answer, a value that is not an object, the empty
    object) it returns the pair of 1 and the empty list, two values
    where the other branch would build three. *)
Theorem C9_name_error_on_nonempty_object :
  forall (report_text prompt : text) (r : Info3.completed),
    Info3.get_number_of_specimens report_text prompt r
    = if is_nonempty_dict (Info3.run_ollama r)
      then Raise (NameError "specimen_text")
      else Ok (VTuple [VInt 1; VList []]).
Proof.
  intros report_text prompt r.
  unfold Info3.get_number_of_specimens.
  destruct (Info3.run_ollama r) as [ | b | z | x | x | l | d | l ];
    try (cbn [Info3.is_dict is_nonempty_dict]; rewrite andb_false_r;
         reflexivity).
  destruct d as [ | p d ]; [ reflexivity | ].
  cbn [truthy Info3.is_dict andb is_nonempty_dict].
  unfold get_method.
  destruct (dict_get (p :: d) (u "number_of_specimens"));
    destruct (dict_get (p :: d) (u "specimen_names")); reflexivity.
Qed.

(* ------------------------------------------------------------------ *)
(** * Loops *)

Lemma for_each_length :
  forall (A B : Type) (f : A -> result B) (l : list A) (l' : list B),
    for_each f l = Ok l' -> List.length l' = List.length l.
Proof.
  induction l as [ | a l IH ]; intros l' H; simpl in H.
  - injection H as <-. reflexivity.
  - destruct (f a) as [ b | e ]; simpl in H; [ | discriminate ].
    destruct (for_each f l) as [ bs | e ]; simpl in H; [ | discriminate ].
    injection H as <-. simpl. f_equal. apply IH. reflexivity.
Qed.

Lemma for_each_total :
  forall (A B : Type) (f : A -> result B) (l : list A),
    (forall a, In a l -> exists b, f a = Ok b) ->
    exists l', for_each f l = Ok l'.
Proof.
  induction l as [ | a l IH ]; intros H; simpl.
  - exists []. reflexivity.
  - destruct (H a (or_introl eq_refl)) as [ b Hb ]. rewrite Hb. simpl.
    destruct IH as [ bs Hbs ].
    + intros x Hx. apply H. right. exact Hx.
    + rewrite Hbs. simpl. exists (b :: bs). reflexivity.
Qed.

Lemma for_each_Forall2 :
  forall (A B : Type) (f : A -> result B) (l : list A) (l' : list B),
    for_each f l = Ok l' -> Forall2 (fun a b => f a = Ok b) l l'.
Proof.
  induction l as [ | a l IH ]; intros l' H; simpl in H.
  - injection H as <-. constructor.
  - destruct (f a) as [ b | e ] eqn:Hb; simpl in H; [ | discriminate ].
    destruct (for_each f l) as [ bs | e ]; simpl in H; [ | discriminate ].
    injection H as <-. constructor; [ exact Hb | apply IH; reflexivity ].
Qed.

(* ------------------------------------------------------------------ *)
(** * Splitting a report on two spaces *)

Lemma split_from_nonempty :
  forall (sep s : text) (skip : nat) (cur : text),
    1 <= List.length (split_from sep s skip cur).
Proof.
  induction s as [ | c s IH ]; intros skip cur; simpl.
  - apply Nat.le_refl.
  - destruct skip as [ | k ].
    + destruct (startswith sep (c :: s)); simpl; [ lia | apply IH ].
    + apply IH.
Qed.







(* ------------------------------------------------------------------ *)
(** * Prefixes, occurrences and trimming *)

Lemma startswith_spec :
  forall p s : text, startswith p s = true <-> exists r, s = p ++ r.
Proof.
  induction p as [ | a p IH ]; intros s; simpl.
  - split; [ intros _; exists s; reflexivity | reflexivity ].
  - destruct s as [ | b s ].
    + split; [ discriminate | intros [ r H ]; discriminate ].
    + rewrite andb_true_iff, Ascii.eqb_eq, IH. split.
      * intros [ -> [ r -> ] ]. exists r. reflexivity.
      * intros [ r H ]. injection H as -> ->. split; [ reflexivity | ].
        exists r. reflexivity.
Qed.

Lemma contains_spec :
  forall p s : text, contains p s = true <-> exists a b, s = a ++ p ++ b.
Proof.
  intros p. induction s as [ | c s IH ]; simpl; rewrite orb_true_iff.
  - rewrite startswith_spec. split.
    + intros [ [ r H ] | H ]; [ | discriminate ].
      exists [], r. exact H.
    + intros (a & b & H). left. destruct a as [ | x a ]; [ | discriminate ].
      exists b. exact H.
  - rewrite startswith_spec, IH. split.
    + intros [ [ r H ] | (a & b & H) ].
      * exists [], r. exact H.
      * exists (c :: a), b. rewrite H. reflexivity.
    + intros (a & b & H). destruct a as [ | x a ].
      * left. exists b. exact H.
      * right. injection H as _ H. exists a, b. exact H.
Qed.

Lemma lstrip_suffix :
  forall s : text, exists a, s = a ++ lstrip s /\ Forall (fun c => isspace c = true) a.
Proof.
  induction s as [ | c s IH ]; simpl.
  - exists []. split; [ reflexivity | constructor ].
  - destruct (isspace c) eqn:E.
    + destruct IH as (a & H & Ha). exists (c :: a). split.
      * simpl. f_equal. exact H.
      * constructor; assumption.
    + exists []. split; [ reflexivity | constructor ].
Qed.

Lemma rstrip_prefix :
  forall s : text, exists b, s = rstrip s ++ b /\ Forall (fun c => isspace c = true) b.
Proof.
  intros s. unfold rstrip.
  destruct (lstrip_suffix (rev s)) as (a & H & Ha).
  exists (rev a). split.
  - rewrite <- rev_app_distr, <- H, rev_involutive. reflexivity.
  - apply Forall_rev. exact Ha.
Qed.

Lemma strip_infix :
  forall s : text, exists a b, s = a ++ strip s ++ b.
Proof.
  intros s. unfold strip.
  destruct (lstrip_suffix s) as (a & Ha & _).
  destruct (rstrip_prefix (lstrip s)) as (b & Hb & _).
  exists a, b. rewrite <- Hb. exact Ha.
Qed.

Lemma contains_strip :
  forall p s : text, contains p (strip s) = true -> contains p s = true.
Proof.
  intros p s H. apply contains_spec in H. destruct H as (x & y & H).
  destruct (strip_infix s) as (a & b & Hs).
  apply contains_spec. exists (a ++ x), (y ++ b).
  rewrite Hs at 1. rewrite H. repeat rewrite <- app_assoc. reflexivity.
Qed.

Lemma startswith_contains :
  forall p s : text, startswith p s = true -> contains p s = true.
Proof.
  intros p s H. destruct s; simpl; rewrite H; reflexivity.
Qed.

(* ------------------------------------------------------------------ *)
(** * The response sanitizer *)

(** The first line of a text extends what was read of it so far. *)
Lemma splitlines_from_head :
  forall s cur : text,
    s <> [] \/ cur <> [] ->
    exists x rest, splitlines_from s cur = (rev cur ++ x) :: rest.
Proof.
  induction s as [ | c s IH ]; intros cur H; simpl.
  - destruct H as [ H | H ]; [ contradiction | ].
    destruct cur as [ | a cur ]; [ contradiction | ].
    exists [], []. rewrite app_nil_r. reflexivity.
  - destruct (islinebreak c).
    + destruct s as [ | d s ].
      * exists [], []. rewrite app_nil_r. reflexivity.
      * destruct (is_char 13 c && is_char 10 d);
          eexists [], _; rewrite app_nil_r; reflexivity.
    + destruct (IH (c :: cur)) as (x & rest & E).
      * right. discriminate.
      * exists (c :: x), rest. rewrite E. simpl.
        rewrite <- app_assoc. reflexivity.
Qed.

(** The first line of a text that begins with the fence begins with the
    fence. *)
Lemma first_line_of_fenced :
  forall t : text,
    startswith FENCE t = true ->
    exists first rest,
      splitlines t = first :: rest /\ startswith FENCE first = true.
Proof.
  intros t H. apply startswith_spec in H. destruct H as [ r -> ].
  destruct (splitlines_from_head r (rev FENCE)) as (x & rest & E).
  - right. discriminate.
  - exists (rev (rev FENCE) ++ x), rest. split.
    + exact E.
    + apply startswith_spec. exists x. reflexivity.
Qed.

(** C8, as the claim states it, fails on a text whose last line is a
    bare fence and whose first line is none: the text comes back with
    its last line; and a text without any fence comes back trimmed, not
    unchanged. *)
Lemma C8_counterexample :
  clean_json_output (lit "1" ++ NL ++ FENCE) = Ok (lit "1" ++ NL ++ FENCE)
  /\ clean_json_output (lit " 1 ") = Ok (lit "1").
Proof.
  split; vm_compute; reflexivity.
Qed.

(** C8, amended. The sanitizer never raises. When the trimmed text does
    not begin with the fence, and so when the text holds no fence at
    all, the result is the trimmed text. When it does, the first line
    is dropped, the last of the lines that remain is dropped when it
    begins with the fence, and the rest is joined and trimmed. *)
Theorem C8_sanitizer :
  forall output : text,
    raises (clean_json_output output) = false
    /\ (startswith FENCE (strip output) = false ->
        clean_json_output output = Ok (strip output))
    /\ (contains FENCE output = false ->
        clean_json_output output = Ok (strip output))
    /\ (startswith FENCE (strip output) = true ->
        exists first rest,
          splitlines (strip output) = first :: rest
          /\ startswith FENCE first = true
          /\ clean_json_output output
             = Ok (strip (join NL (if last_is_fence rest
                                   then removelast rest else rest)))).
Proof.
  intros output.
  assert (Hplain : startswith FENCE (strip output) = false ->
                   clean_json_output output = Ok (strip output)).
  { intros H. unfold clean_json_output. rewrite H. reflexivity. }
  assert (Hfenced : startswith FENCE (strip output) = true ->
            exists first rest,
              splitlines (strip output) = first :: rest
              /\ startswith FENCE first = true
              /\ clean_json_output output
                 = Ok (strip (join NL (if last_is_fence rest
                                       then removelast rest else rest)))).
  { intros H. destruct (first_line_of_fenced _ H) as (first & rest & E & F).
    exists first, rest. split; [ exact E | ]. split; [ exact F | ].
    unfold clean_json_output. rewrite H, E. cbn [bind]. rewrite F. reflexivity. }
  split; [ | split; [ exact Hplain | split; [ | exact Hfenced ] ] ].
  - destruct (startswith FENCE (strip output)) eqn:H.
    + destruct (Hfenced eq_refl) as (first & rest & _ & _ & ->). reflexivity.
    + rewrite (Hplain eq_refl). reflexivity.
  - intros H. apply Hplain.
    destruct (startswith FENCE (strip output)) eqn:E; [ | reflexivity ].
    apply startswith_contains, contains_strip in E. congruence.
Qed.

(** C8 at a reply wrapped in a fence with a language tag, and at a
    reply without a fence. *)
Lemma C8_witness :
  clean_json_output (lit "```json" ++ NL ++ lit "{}" ++ NL ++ FENCE ++ NL)
  = Ok (lit "{}")
  /\ clean_json_output (lit " {} ") = Ok (lit "{}").
Proof.
  split.
  - destruct (C8_sanitizer (lit "```json" ++ NL ++ lit "{}" ++ NL ++ FENCE ++ NL))
      as (_ & _ & _ & H).
    destruct (H eq_refl) as (first & rest & E & _ & ->).
    vm_compute in E. injection E as <- <-. vm_compute. reflexivity.
  - destruct (C8_sanitizer (lit " {} ")) as (_ & _ & H & _).
    rewrite (H eq_refl). vm_compute. reflexivity.
Defined.

(* ------------------------------------------------------------------ *)
(** * Dictionaries *)

Lemma ustr_eqb_eq : forall a b : ustr, ustr_eqb a b = true <-> a = b.
Proof.
  intros a b. unfold ustr_eqb.
  destruct (list_eq_dec N.eq_dec a b); split; congruence.
Qed.

Lemma ustr_eqb_refl : forall a : ustr, ustr_eqb a a = true.
Proof.
  intros a. apply ustr_eqb_eq. reflexivity.
Qed.

Lemma ustr_eqb_neq : forall a b : ustr, a <> b -> ustr_eqb a b = false.
Proof.
  intros a b H. destruct (ustr_eqb a b) eqn:E; [ | reflexivity ].
  apply ustr_eqb_eq in E. contradiction.
Qed.

Lemma dict_get_set_same :
  forall (d : dict) (k : ustr) (v : value), dict_get (dict_set d k v) k = Some v.
Proof.
  induction d as [ | [ k' v' ] d IH ]; intros k v; simpl.
  - rewrite ustr_eqb_refl. reflexivity.
  - destruct (ustr_eqb k' k) eqn:E; simpl; rewrite E; [ reflexivity | apply IH ].
Qed.

Lemma dict_get_set_other :
  forall (d : dict) (k k' : ustr) (v : value),
    k <> k' -> dict_get (dict_set d k v) k' = dict_get d k'.
Proof.
  induction d as [ | [ k0 v0 ] d IH ]; intros k k' v H; simpl.
  - rewrite (ustr_eqb_neq _ _ H). reflexivity.
  - destruct (ustr_eqb k0 k) eqn:E; simpl.
    + apply ustr_eqb_eq in E. subst k0.
      rewrite (ustr_eqb_neq _ _ H). reflexivity.
    + destruct (ustr_eqb k0 k'); [ reflexivity | apply IH; exact H ].
Qed.

(* ------------------------------------------------------------------ *)
(** * The benign override *)

Lemma lower_any_case :
  forall l c : ascii,
    in_range 97 122 l = true ->
    c = l \/ (code c + 32 = code l)%N ->
    lower_char c = l.
Proof.
  intros l c Hl H. unfold in_range in Hl.
  apply andb_true_iff in Hl. destruct Hl as [ H1 H2 ].
  apply N.leb_le in H1, H2.
  unfold lower_char, in_range. destruct H as [ -> | H ].
  - replace (code l <=? 90)%N with false by (symmetry; apply N.leb_gt; lia).
    replace (code l <=? 214)%N with true by (symmetry; apply N.leb_le; lia).
    replace (192 <=? code l)%N with false by (symmetry; apply N.leb_gt; lia).
    replace (216 <=? code l)%N with false by (symmetry; apply N.leb_gt; lia).
    rewrite !andb_false_r. reflexivity.
  - replace (65 <=? code c)%N with true by (symmetry; apply N.leb_le; lia).
    replace (code c <=? 90)%N with true by (symmetry; apply N.leb_le; lia).
    simpl. rewrite H. apply ascii_N_embedding.
Qed.

Lemma lower_of_any_case :
  forall word mid : text,
    Forall (fun l => in_range 97 122 l = true) word ->
    Forall2 (fun l c => c = l \/ (code c + 32 = code l)%N) word mid ->
    lower mid = word.
Proof.
  intros word mid Hw H. induction H as [ | l c word mid Hc H IH ]; simpl.
  - reflexivity.
  - inversion Hw as [ | ? ? Hl Hw' ]; subst.
    rewrite (lower_any_case l c Hl Hc), (IH Hw'). reflexivity.
Qed.

(** The test of line 180 holds for every report in which the word occurs
    in some mix of cases. *)
Lemma contains_lower_of_occurs :
  forall word s : text,
    Forall (fun l => in_range 97 122 l = true) word ->
    occurs_any_case word s ->
    contains word (lower s) = true.
Proof.
  intros word s Hw (pre & mid & post & -> & H).
  apply contains_spec. exists (lower pre), (lower post).
  unfold lower. rewrite !map_app.
  change (map lower_char mid) with (lower mid).
  rewrite (lower_of_any_case word mid Hw H). reflexivity.
Qed.

Lemma benign_is_lower_case :
  Forall (fun l => in_range 97 122 l = true) (lit "benign").
Proof.
  repeat constructor.
Qed.

Lemma Forall2_In_r :
  forall (A B : Type) (R : A -> B -> Prop) (l : list A) (l' : list B) (b : B),
    Forall2 R l l' -> In b l' -> exists a, In a l /\ R a b.
Proof.
  intros A B R l l' b H. induction H as [ | x y l l' Hxy H IH ]; intros Hb.
  - contradiction.
  - destruct Hb as [ <- | Hb ].
    + exists x. split; [ left; reflexivity | exact Hxy ].
    + destruct (IH Hb) as (a & Ha & Hab). exists a. split; [ right | ]; assumption.
Qed.

(** What the override leaves of a specimen under a report that
    mentions benign. *)
Lemma override_benign_fields :
  forall (report_text : text) (specimen r : value),
    contains (lit "benign") (lower report_text) = true ->
    Info16.override_benign report_text specimen = Ok r ->
    getitem r (u "gleason_score") = Ok (VStr (u "benign"))
    /\ getitem r (u "gleason_pattern") = Ok (VStr (u "benign"))
    /\ getitem r (u "comment") = Ok (VStr (u "benign")).
Proof.
  intros report_text specimen r Hb H.
  unfold Info16.override_benign in H. rewrite Hb in H.
  destruct specimen as [ | | | | | | d | ]; try discriminate.
  cbn [setitem bind] in H. injection H as <-.
  unfold getitem.
  assert (N1 : u "comment" <> u "gleason_score") by (vm_compute; discriminate).
  assert (N2 : u "comment" <> u "gleason_pattern") by (vm_compute; discriminate).
  assert (N3 : u "gleason_pattern" <> u "gleason_score") by (vm_compute; discriminate).
  repeat split.
  - rewrite (dict_get_set_other _ _ _ _ N1), (dict_get_set_other _ _ _ _ N3).
    rewrite dict_get_set_same. reflexivity.
  - rewrite (dict_get_set_other _ _ _ _ N2), dict_get_set_same. reflexivity.
  - rewrite dict_get_set_same. reflexivity.
Qed.

(** The override goes through on every list of dictionaries. *)
Lemma override_benign_total :
  forall (report_text : text) (d : dict),
    exists r, Info16.override_benign report_text (VDict d) = Ok r.
Proof.
  intros report_text d. unfold Info16.override_benign.
  destruct (contains (lit "benign") (lower report_text)).
  - cbn [setitem bind]. eexists. reflexivity.
  - eexists. reflexivity.
Qed.

(** C5. Under a report, a string, in which benign occurs in any mix of
    letter cases, every record that the main loop of extract_info16.py keeps
    for the subject, extracted or stub, has gleason_score,
    gleason_pattern and comment equal to benign. *)
Theorem C5_benign_override :
  forall (line_number : nat) (s : subject) (records : list value),
    mentions (lit "benign") (report s) ->
    Info16.process_subject line_number s = Ok records ->
    forall r, In r records ->
      getitem r (u "gleason_score") = Ok (VStr (u "benign"))
      /\ getitem r (u "gleason_pattern") = Ok (VStr (u "benign"))
      /\ getitem r (u "comment") = Ok (VStr (u "benign")).
Proof.
  intros line_number s records (report_text & Et & Hocc) H r Hr.
  unfold Info16.process_subject in H. rewrite Et in H.
  apply for_each_Forall2 in H.
  destruct (Forall2_In_r _ _ _ _ _ r H Hr) as (specimen & _ & Hs).
  apply (override_benign_fields report_text specimen r); [ | exact Hs ].
  apply contains_lower_of_occurs; [ apply benign_is_lower_case | exact Hocc ].
Qed.

(** C5 at a report that spells the word in capitals and a reply with
    one specimen of score 7. *)
Lemma C5_witness :
  exists r,
    Info16.process_subject 1
      {| report := Text (lit "BENIGN prostatic tissue.");
         accession_number := VStr (u "A1");
         count_reply := Stdout (lit "1");
         details_reply :=
           Stdout (qq "{'specimens': [{'study_id': 'A1', 'gleason_score': '7'}]}") |}
    = Ok [r]
    /\ getitem r (u "gleason_score") = Ok (VStr (u "benign"))
    /\ getitem r (u "gleason_pattern") = Ok (VStr (u "benign"))
    /\ getitem r (u "comment") = Ok (VStr (u "benign")).
Proof.
  eexists. split; [ vm_compute; reflexivity | ].
  eapply (C5_benign_override 1
            {| report := Text (lit "BENIGN prostatic tissue.");
               accession_number := VStr (u "A1");
               count_reply := Stdout (lit "1");
               details_reply :=
                 Stdout (qq "{'specimens': [{'study_id': 'A1', 'gleason_score': '7'}]}") |}).
  - exists (lit "BENIGN prostatic tissue."). split; [ reflexivity | ].
    exists [], (lit "BENIGN"), (lit " prostatic tissue.").
    split; [ reflexivity | ].
    repeat constructor; right; reflexivity.
  - vm_compute. reflexivity.
  - left. reflexivity.
Defined.

(* ------------------------------------------------------------------ *)
(** * The table unifier *)

Ltac bind_inv H :=
  repeat match type of H with
         | bind ?m _ = Ok _ =>
             let E := fresh "E" in
             destruct m eqn:E; cbn [bind] in H; [ | discriminate H ]
         end.

Lemma for_each_app :
  forall (A B : Type) (f : A -> result B) (l1 l2 : list A),
    for_each f (l1 ++ l2)
    = (do a <- for_each f l1; do b <- for_each f l2; Ok (a ++ b)).
Proof.
  intros A B f l1 l2. induction l1 as [ | x l1 IH ]; simpl.
  - destruct (for_each f l2); reflexivity.
  - destruct (f x) as [ y | e ]; simpl; [ | reflexivity ].
    rewrite IH. destruct (for_each f l1) as [ ys | e ]; simpl; [ | reflexivity ].
    destruct (for_each f l2); reflexivity.
Qed.

Lemma specimen_cells_length :
  forall (specimen : value) (cells : list value),
    Info16.specimen_cells specimen = Ok cells -> List.length cells = 11.
Proof.
  intros specimen cells H. unfold Info16.specimen_cells in H.
  bind_inv H. injection H as <-. reflexivity.
Qed.

Lemma get_method_dict :
  forall (d : dict) (k : ustr) (default : value),
    exists x, get_method (VDict d) k default = Ok x.
Proof.
  intros d k default. unfold get_method.
  destruct (dict_get d k); eexists; reflexivity.
Qed.

Lemma feature_total :
  forall (d : dict) (name : string),
    is_record (VDict d) = true ->
    exists x, Info16.feature (VDict d) name = Ok x.
Proof.
  intros d name H. unfold Info16.feature, get_method at 1.
  unfold is_record in H.
  destruct (dict_get d (u "features")) as [ f | ]; cbn [bind].
  - destruct f; try discriminate. apply get_method_dict.
  - apply get_method_dict.
Qed.

Lemma specimen_cells_total :
  forall specimen : value,
    is_record specimen = true ->
    exists cells, Info16.specimen_cells specimen = Ok cells.
Proof.
  intros specimen H.
  destruct specimen as [ | | | | | | d | ]; try discriminate.
  unfold Info16.specimen_cells.
  destruct (get_method_dict d (u "specimen_name") EMPTY) as [ c1 -> ].
  destruct (get_method_dict d (u "gleason_score") EMPTY) as [ c2 -> ].
  destruct (get_method_dict d (u "gleason_pattern") EMPTY) as [ c3 -> ].
  destruct (get_method_dict d (u "num_cores") EMPTY) as [ c4 -> ].
  destruct (get_method_dict d (u "percent_specimen") EMPTY) as [ c5 -> ].
  destruct (feature_total d "HGPIN" H) as [ c6 -> ].
  destruct (feature_total d "ASAP" H) as [ c7 -> ].
  destruct (feature_total d "ATYP" H) as [ c8 -> ].
  destruct (feature_total d "INF" H) as [ c9 -> ].
  destruct (feature_total d "ADC" H) as [ c10 -> ].
  destruct (get_method_dict d (u "comment") EMPTY) as [ c11 -> ].
  cbn [bind]. eexists. reflexivity.
Qed.

(** The blocks of the slots a subject fills are the cells of its
    specimens, in their order. *)
Lemma blocks_of_specimens :
  forall (pre report_data : list value),
    for_each (Info16.block (pre ++ report_data))
      (seq (List.length pre) (List.length report_data))
    = for_each Info16.specimen_cells report_data.
Proof.
  intros pre report_data. revert pre.
  induction report_data as [ | x l IH ]; intros pre; simpl.
  - reflexivity.
  - unfold Info16.block at 1.
    rewrite nth_error_app2 by apply Nat.le_refl.
    rewrite Nat.sub_diag. simpl.
    specialize (IH (pre ++ [x])).
    rewrite <- app_assoc in IH. simpl in IH.
    rewrite length_app in IH. simpl in IH. rewrite Nat.add_1_r in IH.
    rewrite IH. reflexivity.
Qed.

(** The blocks of the slots beyond its own are empty cells. *)
Lemma blocks_beyond :
  forall (report_data : list value) (k start : nat),
    List.length report_data <= start ->
    for_each (Info16.block report_data) (seq start k)
    = Ok (repeat (repeat EMPTY 11) k).
Proof.
  intros report_data k. induction k as [ | k IH ]; intros start H.
  - reflexivity.
  - cbn [seq for_each]. unfold Info16.block at 1.
    replace (nth_error report_data start) with (@None value)
      by (symmetry; apply nth_error_None; exact H).
    cbn [bind]. rewrite IH by lia. reflexivity.
Qed.

Lemma blocks_eq :
  forall (report_data : list value) (m : nat),
    List.length report_data <= m ->
    for_each (Info16.block report_data) (seq 0 m)
    = (do cells <- for_each Info16.specimen_cells report_data;
       Ok (cells ++ repeat (repeat EMPTY 11) (m - List.length report_data))).
Proof.
  intros report_data m H.
  replace m with (List.length report_data + (m - List.length report_data)) at 1
    by lia.
  rewrite seq_app, for_each_app. cbn [Nat.add].
  pose proof (blocks_of_specimens [] report_data) as E.
  cbn [app List.length] in E. rewrite E.
  destruct (for_each Info16.specimen_cells report_data) as [ cells | e ];
    [ | reflexivity ].
  cbn [bind]. rewrite blocks_beyond by apply Nat.le_refl. reflexivity.
Qed.

Lemma concat_repeat_repeat :
  forall (A : Type) (x : A) (n k : nat),
    List.concat (repeat (repeat x n) k) = repeat x (n * k).
Proof.
  intros A x n k. induction k as [ | k IH ].
  - rewrite Nat.mul_0_r. reflexivity.
  - cbn [repeat List.concat]. rewrite IH.
    replace (n * S k) with (n + n * k) by lia.
    rewrite repeat_app. reflexivity.
Qed.

Lemma concat_empty_blocks :
  forall k : nat,
    List.concat (repeat (repeat EMPTY 11) k) = repeat EMPTY (11 * k).
Proof.
  intros k. apply concat_repeat_repeat.
Qed.

Lemma concat_cells_length :
  forall cells : list (list value),
    Forall (fun c => List.length c = 11) cells ->
    List.length (List.concat cells) = 11 * List.length cells.
Proof.
  intros cells H. induction H as [ | c cells Hc H IH ]; simpl.
  - reflexivity.
  - rewrite length_app, Hc, IH. lia.
Qed.

Lemma specimen_cells_all_length :
  forall (report_data : list value) (cells : list (list value)),
    for_each Info16.specimen_cells report_data = Ok cells ->
    Forall (fun c => List.length c = 11) cells.
Proof.
  intros report_data cells H. apply for_each_Forall2 in H.
  induction H as [ | x c l cells Hx H IH ]; constructor.
  - apply (specimen_cells_length x c Hx).
  - exact IH.
Qed.

(** The row of one subject, when [max_specimens] covers its list. *)
Lemma flatten_row_shape :
  forall (m : nat) (report_data row : list value),
    List.length report_data <= m ->
    Info16.flatten_row m report_data = Ok row ->
    exists first others study_id cells,
      report_data = first :: others
      /\ getitem first (u "study_id") = Ok study_id
      /\ for_each Info16.specimen_cells report_data = Ok cells
      /\ Forall (fun c => List.length c = 11) cells
      /\ row = study_id :: List.concat cells
                 ++ repeat EMPTY (11 * (m - List.length report_data))
      /\ List.length row = 1 + 11 * m.
Proof.
  intros m report_data row Hm H. unfold Info16.flatten_row in H.
  destruct report_data as [ | first others ]; [ discriminate | ].
  cbn [bind] in H.
  destruct (getitem first (u "study_id")) as [ study_id | e ] eqn:Hid;
    cbn [bind] in H; [ | discriminate ].
  rewrite (blocks_eq (first :: others) m Hm) in H.
  destruct (for_each Info16.specimen_cells (first :: others)) as [ cells | e ] eqn:Hc;
    cbn [bind] in H; [ | discriminate ].
  injection H as <-.
  pose proof (specimen_cells_all_length _ _ Hc) as Hall.
  exists first, others, study_id, cells.
  rewrite concat_app, concat_empty_blocks.
  repeat split; try assumption; try reflexivity.
  cbn [List.length]. rewrite length_app, repeat_length.
  rewrite (concat_cells_length cells Hall).
  rewrite (for_each_length _ _ _ _ _ Hc). cbn [List.length] in *. lia.
Qed.

Lemma flatten_row_total :
  forall (m : nat) (report_data : list value),
    List.length report_data <= m ->
    match report_data with
    | [] => False
    | first :: _ => has_study_id first = true
    end ->
    Forall (fun v => is_record v = true) report_data ->
    exists row, Info16.flatten_row m report_data = Ok row.
Proof.
  intros m report_data Hm Hfirst Hrec. unfold Info16.flatten_row.
  destruct report_data as [ | first others ]; [ contradiction | ].
  cbn [bind].
  assert (Hid : exists x, getitem first (u "study_id") = Ok x).
  { unfold has_study_id in Hfirst. unfold getitem.
    destruct first; try discriminate.
    destruct (dict_get d (u "study_id")); [ eexists; reflexivity | discriminate ]. }
  destruct Hid as [ x -> ]. cbn [bind].
  rewrite (blocks_eq (first :: others) m Hm).
  destruct (for_each_total _ _ Info16.specimen_cells (first :: others)) as [ cells -> ].
  - intros a Ha. apply specimen_cells_total.
    rewrite Forall_forall in Hrec. apply Hrec. exact Ha.
  - cbn [bind]. eexists. reflexivity.
Qed.

Lemma max_len_bound :
  forall (extracted_data : list (list value)) (report_data : list value),
    In report_data extracted_data ->
    List.length report_data
    <= fold_right Nat.max 0 (map (@List.length value) extracted_data).
Proof.
  induction extracted_data as [ | x l IH ]; intros rd H.
  - contradiction.
  - simpl. destruct H as [ -> | H ]; [ lia | ].
    specialize (IH rd H). lia.
Qed.

Lemma max_len_reached :
  forall extracted_data : list (list value),
    extracted_data <> [] ->
    exists report_data,
      In report_data extracted_data
      /\ List.length report_data
         = fold_right Nat.max 0 (map (@List.length value) extracted_data).
Proof.
  induction extracted_data as [ | x l IH ]; intros H; [ contradiction | ].
  destruct l as [ | y l ].
  - exists x. split; [ left; reflexivity | simpl; lia ].
  - destruct IH as (rd & Hin & Hlen); [ discriminate | ].
    cbn [map fold_right] in *.
    destruct (Nat.max_spec (List.length x)
                (Nat.max (List.length y)
                   (fold_right Nat.max 0 (map (@List.length value) l))))
      as [ [ _ E ] | [ _ E ] ]; rewrite E.
    + exists rd. split; [ right; exact Hin | exact Hlen ].
    + exists x. split; [ left; reflexivity | reflexivity ].
Qed.

Lemma block_columns_length :
  forall i : nat, List.length (Info16.block_columns i) = 11.
Proof.
  intros i. reflexivity.
Qed.

Lemma block_columns_all_length :
  forall start m : nat,
    List.length (flat_map Info16.block_columns (seq start m)) = 11 * m.
Proof.
  intros start m. revert start. induction m as [ | m IH ]; intros start.
  - reflexivity.
  - cbn [seq flat_map]. rewrite length_app, block_columns_length, IH. lia.
Qed.

Lemma columns_length :
  forall m : nat, List.length (Info16.columns m) = 1 + 11 * m.
Proof.
  intros m. unfold Info16.columns. cbn [List.length].
  rewrite block_columns_all_length. reflexivity.
Qed.

Lemma Forall2_impl_In :
  forall (A B : Type) (R S : A -> B -> Prop) (l : list A) (l' : list B),
    (forall a b, In a l -> R a b -> S a b) ->
    Forall2 R l l' -> Forall2 S l l'.
Proof.
  intros A B R S l l' H F. induction F as [ | a b l l' Hab F IH ]; constructor.
  - apply H; [ left; reflexivity | exact Hab ].
  - apply IH. intros x y Hx. apply H. right. exact Hx.
Qed.

(** The cells of a specimen, read off the specimen itself. *)
Lemma specimen_cells_entries :
  forall (specimen : value) (c : list value),
    Info16.specimen_cells specimen = Ok c ->
    exists d f,
      specimen = VDict d
      /\ entry d "features" (VDict []) = VDict f
      /\ c = [ entry d "specimen_name" EMPTY;
               entry d "gleason_score" EMPTY;
               entry d "gleason_pattern" EMPTY;
               entry d "num_cores" EMPTY;
               entry d "percent_specimen" EMPTY;
               entry f "HGPIN" (VInt 0);
               entry f "ASAP" (VInt 0);
               entry f "ATYP" (VInt 0);
               entry f "INF" (VInt 0);
               entry f "ADC" (VInt 0);
               entry d "comment" EMPTY ].
Proof.
  intros specimen c H. destruct specimen as [ | | | | | | d | ];
    try discriminate H.
  unfold Info16.specimen_cells, Info16.feature in H.
  assert (G : forall k default,
             get_method (VDict d) (u k) default = Ok (entry d k default)).
  { intros k default. unfold get_method, entry.
    destruct (dict_get d (u k)); reflexivity. }
  rewrite !G in H. cbn [bind] in H.
  destruct (entry d "features" (VDict [])) as [ | | | | | | f | ] eqn:Ef;
    try discriminate H.
  assert (G' : forall k default,
             get_method (VDict f) (u k) default = Ok (entry f k default)).
  { intros k default. unfold get_method, entry.
    destruct (dict_get f (u k)); reflexivity. }
  rewrite !G' in H. cbn [bind] in H. injection H as <-.
  exists d, f. split; [ reflexivity | split; [ exact Ef | reflexivity ] ].
Qed.

Lemma specimen_cells_all_entries :
  forall (report_data : list value) (cells : list (list value)),
    for_each Info16.specimen_cells report_data = Ok cells ->
    Forall2
      (fun specimen c =>
         exists d f,
           specimen = VDict d
           /\ entry d "features" (VDict []) = VDict f
           /\ c = [ entry d "specimen_name" EMPTY;
                    entry d "gleason_score" EMPTY;
                    entry d "gleason_pattern" EMPTY;
                    entry d "num_cores" EMPTY;
                    entry d "percent_specimen" EMPTY;
                    entry f "HGPIN" (VInt 0);
                    entry f "ASAP" (VInt 0);
                    entry f "ATYP" (VInt 0);
                    entry f "INF" (VInt 0);
                    entry f "ADC" (VInt 0);
                    entry d "comment" EMPTY ])
      report_data cells.
Proof.
  intros report_data cells H. apply for_each_Forall2 in H.
  induction H as [ | x c l cells Hx H IH ]; constructor.
  - apply (specimen_cells_entries x c Hx).
  - exact IH.
Qed.

(** C6. The flattening loop gives a table on every batch of the data
    model. Whenever it gives one, with [m] the largest number of
    specimens of a subject, the header has 1 + 11 * m names and there is
    one row per subject; each row has 1 + 11 * m cells: the study
    identifier of the first record, then the eleven cells of each
    specimen of the subject in the order of the list, then 11 empty
    strings for every slot the subject does not fill. The eleven cells
    of a specimen are what the object holds under specimen_name,
    gleason_score, gleason_pattern, num_cores and percent_specimen, an
    empty string for a key that is absent; what its features hold under
    HGPIN, ASAP, ATYP, INF and ADC, 0 for a feature, or for features,
    that are absent; and what it holds under comment. *)
Theorem C6_rectangular_table :
  forall extracted_data : list (list value),
    (well_formed_batch extracted_data ->
     exists out, Info16.flatten extracted_data = Ok out)
    /\ forall (header : list text) (rows : list (list value)),
         Info16.flatten extracted_data = Ok (header, rows) ->
         exists m,
           (forall report_data,
               In report_data extracted_data -> List.length report_data <= m)
           /\ (exists report_data,
                  In report_data extracted_data /\ List.length report_data = m)
           /\ List.length header = 1 + 11 * m
           /\ Forall2
                (fun report_data row =>
                   List.length row = 1 + 11 * m
                   /\ exists first others study_id cells,
                        report_data = first :: others
                        /\ getitem first (u "study_id") = Ok study_id
                        /\ for_each Info16.specimen_cells report_data = Ok cells
                        /\ Forall (fun c => List.length c = 11) cells
                        /\ Forall2
                             (fun specimen c =>
                                exists d f,
                                  specimen = VDict d
                                  /\ entry d "features" (VDict []) = VDict f
                                  /\ c = [ entry d "specimen_name" EMPTY;
                                           entry d "gleason_score" EMPTY;
                                           entry d "gleason_pattern" EMPTY;
                                           entry d "num_cores" EMPTY;
                                           entry d "percent_specimen" EMPTY;
                                           entry f "HGPIN" (VInt 0);
                                           entry f "ASAP" (VInt 0);
                                           entry f "ATYP" (VInt 0);
                                           entry f "INF" (VInt 0);
                                           entry f "ADC" (VInt 0);
                                           entry d "comment" EMPTY ])
                             report_data cells
                        /\ row = study_id :: List.concat cells
                                   ++ repeat EMPTY
                                        (11 * (m - List.length report_data)))
                extracted_data rows.
Proof.
  intros extracted_data. split.
  - intros [ Hne Hwf ]. unfold Info16.flatten, Info16.max_len.
    destruct extracted_data as [ | x l ] eqn:Hd; [ contradiction | ].
    rewrite <- Hd in *. cbn [bind].
    destruct (for_each_total _ _
                (Info16.flatten_row
                   (fold_right Nat.max 0 (map (@List.length value) extracted_data)))
                extracted_data) as [ rows -> ].
    + intros rd Hin. rewrite Forall_forall in Hwf.
      destruct (Hwf rd Hin) as [ Hfirst Hrec ].
      apply flatten_row_total; [ apply max_len_bound; exact Hin | | ]; assumption.
    + cbn [bind]. eexists. reflexivity.
  - intros header rows H. unfold Info16.flatten, Info16.max_len in H.
    destruct extracted_data as [ | x l ] eqn:Hd; [ discriminate | ].
    rewrite <- Hd in *. cbn [bind] in H.
    set (m := fold_right Nat.max 0 (map (@List.length value) extracted_data)) in *.
    destruct (for_each (Info16.flatten_row m) extracted_data) as [ rows' | e ] eqn:Hr;
      cbn [bind] in H; [ | discriminate ].
    injection H as <- <-.
    exists m. split; [ | split; [ | split ] ].
    + intros rd Hin. apply max_len_bound. exact Hin.
    + apply max_len_reached. rewrite Hd. discriminate.
    + apply columns_length.
    + apply for_each_Forall2 in Hr.
      apply (Forall2_impl_In _ _ _ _ _ _ (fun rd row Hin Hrow =>
               match flatten_row_shape m rd row (max_len_bound _ rd Hin) Hrow with
               | ex_intro _ first (ex_intro _ others (ex_intro _ sid
                   (ex_intro _ cells (conj A (conj B (conj C (conj D (conj E F)))))))) =>
                   conj F (ex_intro _ first (ex_intro _ others (ex_intro _ sid
                     (ex_intro _ cells
                        (conj A (conj B (conj C (conj D
                           (conj (specimen_cells_all_entries rd cells C) E)))))))))
               end) Hr).
Qed.

(** C6 at a batch of two subjects, the first with two specimens and the
    second with one that has no features: the cells of the rows, one by
    one. The second block of the second row holds empty strings. *)
Lemma C6_witness :
  exists header,
    Info16.flatten
      [ [ VDict [ (u "study_id", VStr (u "A"));
                  (u "specimen_name", VStr (u "Left apex"));
                  (u "gleason_score", VInt 7);
                  (u "gleason_pattern", VStr (u "3+4"));
                  (u "num_cores", VInt 2);
                  (u "percent_specimen", VStr (u "40%"));
                  (u "features", VDict [ (u "HGPIN", VInt 1);
                                         (u "ADC", VInt 1) ]);
                  (u "comment", VStr (u "perineural invasion")) ];
          VDict [ (u "gleason_score", VInt 6);
                  (u "features", VDict [ (u "INF", VInt 1) ]) ] ];
        [ VDict [ (u "study_id", VStr (u "B"));
                  (u "specimen_name", VStr (u "Right base")) ] ] ]
    = Ok (header,
          [ [ VStr (u "A");
              VStr (u "Left apex"); VInt 7; VStr (u "3+4"); VInt 2;
              VStr (u "40%"); VInt 1; VInt 0; VInt 0; VInt 0; VInt 1;
              VStr (u "perineural invasion");
              EMPTY; VInt 6; EMPTY; EMPTY; EMPTY;
              VInt 0; VInt 0; VInt 0; VInt 1; VInt 0; EMPTY ];
            [ VStr (u "B");
              VStr (u "Right base"); EMPTY; EMPTY; EMPTY; EMPTY;
              VInt 0; VInt 0; VInt 0; VInt 0; VInt 0; EMPTY;
              EMPTY; EMPTY; EMPTY; EMPTY; EMPTY; EMPTY;
              EMPTY; EMPTY; EMPTY; EMPTY; EMPTY ] ])
    /\ List.length header = 23.
Proof.
  destruct (C6_rectangular_table
              [ [ VDict [ (u "study_id", VStr (u "A"));
                          (u "specimen_name", VStr (u "Left apex"));
                          (u "gleason_score", VInt 7);
                          (u "gleason_pattern", VStr (u "3+4"));
                          (u "num_cores", VInt 2);
                          (u "percent_specimen", VStr (u "40%"));
                          (u "features", VDict [ (u "HGPIN", VInt 1);
                                                 (u "ADC", VInt 1) ]);
                          (u "comment", VStr (u "perineural invasion")) ];
                  VDict [ (u "gleason_score", VInt 6);
                          (u "features", VDict [ (u "INF", VInt 1) ]) ] ];
                [ VDict [ (u "study_id", VStr (u "B"));
                          (u "specimen_name", VStr (u "Right base")) ] ] ])
    as [ Htotal Hshape ].
  destruct Htotal as [ [ header rows ] Hout ].
  - split; [ discriminate | ].
    repeat constructor.
  - destruct (Hshape header rows Hout) as (m & Hle & (rd & Hin & Hm) & Hh & Hrows).
    assert (E2 : m = 2).
    { pose proof (Hle _ (or_introl eq_refl)) as H2. simpl in H2.
      destruct Hin as [ <- | [ <- | [] ] ]; simpl in Hm; lia. }
    clear Hle Hin Hm. subst m.
    inversion Hrows as [ | ? row_a ? rest Ha Hrest ]; subst.
    inversion Hrest as [ | ? row_b ? rest' Hb Hnil ]; subst.
    inversion Hnil; subst.
    exists header. split; [ | exact Hh ].
    rewrite Hout. do 2 f_equal.
    destruct Ha as [ _ (first & others & sid & cells & Hrd & Hsid & _ & _ & Hc & ->) ].
    destruct Hb as [ _ (first' & others' & sid' & cells' & Hrd' & Hsid' & _ & _
                        & Hc' & ->) ].
    injection Hrd as <- <-. injection Hrd' as <- <-.
    injection Hsid as <-. injection Hsid' as <-.
    inversion Hc as [ | ? c1 ? rest1 (d1 & f1 & Ed1 & Ef1 & ->) Hc2 ]; subst.
    inversion Hc2 as [ | ? c2 ? rest2 (d2 & f2 & Ed2 & Ef2 & ->) Hc3 ]; subst.
    inversion Hc3; subst.
    inversion Hc' as [ | ? c3 ? rest3 (d3 & f3 & Ed3 & Ef3 & ->) Hc4 ]; subst.
    inversion Hc4; subst.
    injection Ed1 as <-. injection Ed2 as <-. injection Ed3 as <-.
    injection Ef1 as <-. injection Ef2 as <-. injection Ef3 as <-.
    reflexivity.
Defined.

(* ------------------------------------------------------------------ *)
(** * Subjects whose extraction failed *)

Lemma degraded_study_id :
  forall (accession_number : value) (line_number : nat) (benign : bool),
    getitem (degraded_record16 accession_number line_number benign) (u "study_id")
    = Ok (stub_study_id accession_number line_number).
Proof.
  intros accession_number line_number benign. reflexivity.
Qed.

Lemma degraded_cells :
  forall (accession_number : value) (line_number : nat) (benign : bool),
    Info16.specimen_cells (degraded_record16 accession_number line_number benign)
    = Ok (degraded_cells16 benign).
Proof.
  intros accession_number line_number benign. destruct benign; reflexivity.
Qed.

Lemma override_of_stub :
  forall (report_text : text) (accession_number : value) (line_number : nat),
    Info16.override_benign report_text (Info16.stub accession_number line_number)
    = Ok (degraded_record16 accession_number line_number
            (contains (lit "benign") (lower report_text))).
Proof.
  intros report_text accession_number line_number.
  unfold Info16.override_benign, degraded_record16, stub_study_id.
  destruct (contains (lit "benign") (lower report_text)); reflexivity.
Qed.

(** The row of a subject whose only record is the stub. *)
Lemma degraded_row :
  forall (accession_number : value) (line_number max_specimens : nat)
         (benign : bool),
    1 <= max_specimens ->
    Info16.flatten_row max_specimens
      [degraded_record16 accession_number line_number benign]
    = Ok (stub_study_id accession_number line_number
            :: degraded_cells16 benign
            ++ repeat EMPTY (11 * (max_specimens - 1))).
Proof.
  intros accession_number line_number max_specimens benign Hmax.
  unfold Info16.flatten_row. cbn [bind].
  rewrite degraded_study_id. cbn [bind].
  rewrite (blocks_eq [degraded_record16 accession_number line_number benign]
             max_specimens Hmax).
  cbn [for_each]. rewrite degraded_cells. cbn [bind List.length].
  rewrite concat_app, concat_empty_blocks.
  cbn [List.concat]. rewrite app_nil_r. reflexivity.
Qed.




(* ------------------------------------------------------------------ *)
(** * Facts about the character classes *)

Lemma all_chars_complete : forall c : ascii, In c all_chars.
Proof.
  intros c. unfold all_chars.
  rewrite <- (ascii_nat_embedding c). apply in_map.
  apply in_seq. split; [ lia | ]. simpl. apply nat_ascii_bounded.
Qed.

Lemma char_implies :
  forall P Q : ascii -> bool,
    forallb (fun c => implb (P c) (Q c)) all_chars = true ->
    forall c, P c = true -> Q c = true.
Proof.
  intros P Q H c Hc. rewrite forallb_forall in H.
  specialize (H c (all_chars_complete c)). rewrite Hc in H. exact H.
Qed.

Lemma char_excludes :
  forall P Q : ascii -> bool,
    forallb (fun c => implb (P c) (negb (Q c))) all_chars = true ->
    forall c, P c = true -> Q c = false.
Proof.
  intros P Q H c Hc. apply negb_true_iff.
  apply (char_implies P (fun c => negb (Q c)) H c Hc).
Qed.

Ltac all_chars_check := vm_compute; reflexivity.

Lemma is_char_eq :
  forall (n : N) (c : ascii), (n < 256)%N -> is_char n c = true -> c = ascii_of_N n.
Proof.
  intros n c Hn H. unfold is_char, code in H. apply N.eqb_eq in H.
  rewrite <- H. symmetry. apply ascii_N_embedding.
Qed.

Lemma is_char_DQ : forall c : ascii, is_char 34 c = true -> c = DQ.
Proof.
  intros c H. apply is_char_eq; [ reflexivity | exact H ].
Qed.

Lemma json_ws_is_space : forall c, is_json_ws c = true -> isspace c = true.
Proof. apply char_implies. all_chars_check. Qed.

Lemma space_not_quote : forall c, isspace c = true -> is_char 34 c = false.
Proof. apply char_excludes. all_chars_check. Qed.

Lemma space_not_backslash : forall c, isspace c = true -> is_char 92 c = false.
Proof. apply char_excludes. all_chars_check. Qed.

Lemma space_not_separator : forall c, isspace c = true -> is_separator c = false.
Proof. apply char_excludes. all_chars_check. Qed.

Lemma word_not_json_ws : forall c, isword c = true -> is_json_ws c = false.
Proof. apply char_excludes. all_chars_check. Qed.

Lemma word_not_separator : forall c, isword c = true -> is_separator c = false.
Proof. apply char_excludes. all_chars_check. Qed.

Lemma quote_not_json_ws : forall c, is_char 34 c = true -> is_json_ws c = false.
Proof. apply char_excludes. all_chars_check. Qed.

Lemma quote_not_separator : forall c, is_char 34 c = true -> is_separator c = false.
Proof. apply char_excludes. all_chars_check. Qed.

Lemma quote_not_space : forall c, is_char 34 c = true -> isspace c = false.
Proof. apply char_excludes. all_chars_check. Qed.

Lemma quote_not_backslash : forall c, is_char 34 c = true -> is_char 92 c = false.
Proof. apply char_excludes. all_chars_check. Qed.

Lemma backslash_not_quote : forall c, is_char 92 c = true -> is_char 34 c = false.
Proof. apply char_excludes. all_chars_check. Qed.

Lemma hex_not_quote :
  forall c,
    (match hexval c with Some _ => true | None => false end) = true ->
    is_char 34 c = false.
Proof. apply char_excludes. all_chars_check. Qed.

Lemma hex_not_backslash :
  forall c,
    (match hexval c with Some _ => true | None => false end) = true ->
    is_char 92 c = false.
Proof. apply char_excludes. all_chars_check. Qed.

Lemma json_ws_not_quote : forall c, is_json_ws c = true -> is_char 34 c = false.
Proof. apply char_excludes. all_chars_check. Qed.

Lemma json_ws_follows : forall c, is_json_ws c = true -> is_number_char c = false.
Proof. apply char_excludes. all_chars_check. Qed.

Lemma separator_follows : forall c, is_separator c = true -> is_number_char c = false.
Proof. apply char_excludes. all_chars_check. Qed.

Lemma number_char_not_space : forall c, is_number_char c = true -> isspace c = false.
Proof. apply char_excludes. all_chars_check. Qed.

Lemma number_char_not_quote : forall c, is_number_char c = true -> is_char 34 c = false.
Proof. apply char_excludes. all_chars_check. Qed.

Lemma digit_is_number_char : forall c, isdigit c = true -> is_number_char c = true.
Proof. apply char_implies. all_chars_check. Qed.

Lemma zero_is_digit : forall c, is_char 48 c = true -> isdigit c = true.
Proof. apply char_implies. all_chars_check. Qed.

Lemma sign_not_digit :
  forall c, (is_char 43 c || is_char 45 c) = true -> isdigit c = false.
Proof.
  apply (char_excludes (fun c => is_char 43 c || is_char 45 c) isdigit).
  all_chars_check.
Qed.

Lemma follows_ok_head :
  forall (c : ascii) (r : text),
    follows_ok (c :: r) ->
    isdigit c = false /\ is_char 46 c = false
    /\ (is_char 101 c || is_char 69 c) = false
    /\ (is_char 43 c || is_char 45 c) = false
    /\ is_char 45 c = false /\ is_char 48 c = false.
Proof.
  intros c r H. simpl in H.
  assert (H' : negb (is_number_char c) = true) by (rewrite H; reflexivity).
  pose (P := fun c => negb (is_number_char c)).
  split; [ | split; [ | split; [ | split; [ | split ] ] ] ].
  - exact (char_excludes P isdigit ltac:(all_chars_check) c H').
  - exact (char_excludes P (is_char 46) ltac:(all_chars_check) c H').
  - exact (char_excludes P (fun c => is_char 101 c || is_char 69 c)
             ltac:(all_chars_check) c H').
  - exact (char_excludes P (fun c => is_char 43 c || is_char 45 c)
             ltac:(all_chars_check) c H').
  - exact (char_excludes P (is_char 45) ltac:(all_chars_check) c H').
  - exact (char_excludes P (is_char 48) ltac:(all_chars_check) c H').
Qed.

Lemma separator_not_quote : forall c, is_separator c = true -> is_char 34 c = false.
Proof. apply char_excludes. all_chars_check. Qed.

Lemma separator_not_json_ws : forall c, is_separator c = true -> is_json_ws c = false.
Proof. apply char_excludes. all_chars_check. Qed.

Lemma separator_not_space : forall c, is_separator c = true -> isspace c = false.
Proof. apply char_excludes. all_chars_check. Qed.

(* ------------------------------------------------------------------ *)
(** * White space of a document *)

Lemma skip_ws_split :
  forall s : text,
    exists w, s = w ++ skip_ws s /\ Forall (fun c => is_json_ws c = true) w.
Proof.
  induction s as [ | c s IH ]; simpl.
  - exists []. split; [ reflexivity | constructor ].
  - destruct (is_json_ws c) eqn:E.
    + destruct IH as (w & H & Hw). exists (c :: w). split.
      * simpl. f_equal. exact H.
      * constructor; assumption.
    + exists []. split; [ reflexivity | constructor ].
Qed.

Lemma skip_ws_app :
  forall w t : text,
    Forall (fun c => is_json_ws c = true) w -> skip_ws (w ++ t) = skip_ws t.
Proof.
  intros w t H. induction H as [ | c w Hc H IH ]; simpl.
  - reflexivity.
  - rewrite Hc. exact IH.
Qed.

Lemma skip_ws_head :
  forall (c : ascii) (t : text), is_json_ws c = false -> skip_ws (c :: t) = c :: t.
Proof.
  intros c t H. simpl. rewrite H. reflexivity.
Qed.

Lemma skip_ws_cons :
  forall (s : text) (c : ascii) (t : text),
    skip_ws s = c :: t -> is_json_ws c = false.
Proof.
  induction s as [ | d s IH ]; intros c t H; simpl in H.
  - discriminate.
  - destruct (is_json_ws d) eqn:E.
    + apply (IH c t H).
    + injection H as <- _. exact E.
Qed.

Lemma skip_ws_nil :
  forall s : text, skip_ws s = [] -> Forall (fun c => is_json_ws c = true) s.
Proof.
  induction s as [ | d s IH ]; intros H; simpl in H.
  - constructor.
  - destruct (is_json_ws d) eqn:E; [ | discriminate ].
    constructor; [ exact E | apply IH; exact H ].
Qed.

Lemma skip_ws_length : forall s : text, List.length (skip_ws s) <= List.length s.
Proof.
  induction s as [ | d s IH ]; simpl.
  - apply Nat.le_refl.
  - destruct (is_json_ws d); simpl; lia.
Qed.

(* ------------------------------------------------------------------ *)
(** * The lexical scan *)

Lemma lex_app :
  forall (a b : text) (q : lexstate),
    lex q (a ++ b)
    = match lex q a with
      | Some q' => lex q' b
      | None => None
      end.
Proof.
  induction a as [ | c a IH ]; intros b q; simpl.
  - reflexivity.
  - destruct (lex_step q c); [ apply IH | reflexivity ].
Qed.

(** Outside a string, white space leaves the scan where it stands. *)
Lemma lex_ws :
  forall (w : text) (q : lexstate),
    Forall (fun c => is_json_ws c = true) w ->
    q = LOut \/ q = LAfter ->
    lex q w = Some q.
Proof.
  intros w q H Hq. induction H as [ | c w Hc H IH ]; simpl.
  - reflexivity.
  - destruct Hq as [ -> | -> ]; simpl.
    + rewrite (json_ws_not_quote c Hc). exact IH.
    + rewrite Hc. exact IH.
Qed.

(** Outside a string, a separator brings the scan back to the plain
    state. *)
Lemma lex_separator :
  forall (d : ascii) (q : lexstate),
    is_separator d = true ->
    q = LOut \/ q = LAfter ->
    lex_step q d = Some LOut.
Proof.
  intros d q Hd [ -> | -> ]; simpl.
  - rewrite (separator_not_quote d Hd). reflexivity.
  - rewrite (separator_not_json_ws d Hd), Hd. reflexivity.
Qed.

(* ------------------------------------------------------------------ *)
(** * The string scanner *)

Lemma lookahead_not_backslash :
  forall (b : ascii) (t : text),
    is_char 92 b = false -> low_surrogate_at (b :: t) = NoPair.
Proof.
  intros b t H.
  destruct t as [ | v [ | g1 [ | g2 [ | g3 [ | g4 t ] ] ] ] ]; try reflexivity.
  simpl. rewrite H. reflexivity.
Qed.

Lemma lookahead_not_u :
  forall (b v : ascii) (t : text),
    is_char 117 v = false -> low_surrogate_at (b :: v :: t) = NoPair.
Proof.
  intros b v t H.
  destruct t as [ | g1 [ | g2 [ | g3 [ | g4 t ] ] ] ]; try reflexivity.
  simpl. rewrite H, andb_false_r. reflexivity.
Qed.

(** The lookahead after a high surrogate sees only characters that the
    scanner goes on to read. *)
Lemma lookahead_stable :
  forall (a : text) (acc x : ustr),
    str_run a acc x ->
    forall r r' : text, low_surrogate_at (a ++ r) = low_surrogate_at (a ++ r').
Proof.
  intros a acc x H r r'. destruct H; cbn [app].
  - rewrite !lookahead_not_backslash by (apply quote_not_backslash; assumption).
    reflexivity.
  - rewrite !lookahead_not_backslash by assumption. reflexivity.
  - rewrite !lookahead_not_u by assumption. reflexivity.
  - reflexivity.
  - reflexivity.
Qed.

(** What the scanner reads is a run, and the rest is what it leaves. *)
Lemma scanstring_run :
  forall (n : nat) (s : text) (acc x : ustr) (r : text),
    List.length s <= n ->
    scanstring s acc = Scanned x r ->
    exists a, s = a ++ r /\ str_run a acc x.
Proof.
  induction n as [ | n IH ]; intros s acc x r Hn H.
  - destruct s; [ discriminate H | simpl in Hn; lia ].
  - destruct s as [ | c r0 ]; [ discriminate H | ].
    cbn [scanstring] in H. cbn [List.length] in Hn.
    destruct (is_char 34 c) eqn:Eq.
    { injection H as <- <-. exists [c]. split; [ reflexivity | ].
      apply run_close. exact Eq. }
    destruct (is_char 92 c) eqn:Eb.
    2:{ destruct (code c <? 32)%N eqn:Ec; [ discriminate H | ].
        destruct (IH r0 _ x r ltac:(lia) H) as (a & -> & Ha).
        exists (c :: a). split; [ reflexivity | ].
        apply run_plain; assumption. }
    destruct r0 as [ | e r1 ]; [ discriminate H | ].
    cbn [List.length] in Hn.
    destruct (is_char 117 e) eqn:Eu.
    2:{ destruct (simple_escape e) as [ m | ] eqn:Es; [ | discriminate H ].
        destruct (IH r1 _ x r ltac:(lia) H) as (a & -> & Ha).
        exists (c :: e :: a). split; [ reflexivity | ].
        apply run_escape with (n := m); assumption. }
    destruct r1 as [ | h1 [ | h2 [ | h3 [ | h4 r2 ] ] ] ]; try discriminate H.
    cbn [List.length] in Hn.
    destruct (hex4 h1 h2 h3 h4) as [ uni | ] eqn:Eh; [ | discriminate H ].
    destruct (is_high_surrogate uni) eqn:Ehigh.
    2:{ destruct (IH r2 _ x r ltac:(lia) H) as (a & -> & Ha).
        exists (c :: e :: h1 :: h2 :: h3 :: h4 :: a). split; [ reflexivity | ].
        apply run_unicode with (uni := uni); try assumption.
        left. exact Ehigh. }
    destruct (low_surrogate_at r2) as [ | | uni2 ] eqn:El.
    + destruct (IH r2 _ x r ltac:(lia) H) as (a & -> & Ha).
      exists (c :: e :: h1 :: h2 :: h3 :: h4 :: a). split; [ reflexivity | ].
      apply run_unicode with (uni := uni); try assumption.
      right. intros r'. rewrite <- El. apply (lookahead_stable a _ x Ha).
    + discriminate H.
    + destruct r2 as [ | b [ | v [ | g1 [ | g2 [ | g3 [ | g4 r3 ] ] ] ] ] ];
        try discriminate El.
      cbn [List.length] in Hn.
      destruct (IH r3 _ x r ltac:(lia) H) as (a & -> & Ha).
      exists (c :: e :: h1 :: h2 :: h3 :: h4
                :: b :: v :: g1 :: g2 :: g3 :: g4 :: a).
      split; [ reflexivity | ].
      apply run_pair with (uni := uni) (uni2 := uni2); try assumption.
Qed.

(** A run is read the same way whatever follows it. *)
Lemma run_scanstring :
  forall (a : text) (acc x : ustr),
    str_run a acc x -> forall r : text, scanstring (a ++ r) acc = Scanned x r.
Proof.
  intros a acc x H. induction H; intros r; cbn [app scanstring].
  - rewrite H. reflexivity.
  - rewrite H, H0, H1. apply IHstr_run.
  - rewrite H, H0, H1, H2. apply IHstr_run.
  - rewrite H, H0, H1, H2.
    destruct (is_high_surrogate uni) eqn:Ehigh; [ | apply IHstr_run ].
    destruct H3 as [ H3 | H3 ]; [ discriminate H3 | ].
    rewrite (H3 r). apply IHstr_run.
  - rewrite H, H0, H1, H2, H3.
    change (low_surrogate_at (b :: v :: g1 :: g2 :: g3 :: g4 :: a ++ r))
      with (low_surrogate_at [b; v; g1; g2; g3; g4]).
    rewrite H4. apply IHstr_run.
Qed.

Lemma hex4_digits :
  forall (h1 h2 h3 h4 : ascii) (n : N),
    hex4 h1 h2 h3 h4 = Some n ->
    lex LStr [h1; h2; h3; h4] = Some LStr.
Proof.
  intros h1 h2 h3 h4 n H. unfold hex4 in H.
  destruct (hexval h1) eqn:E1; [ | discriminate H ].
  destruct (hexval h2) eqn:E2; [ | discriminate H ].
  destruct (hexval h3) eqn:E3; [ | discriminate H ].
  destruct (hexval h4) eqn:E4; [ | discriminate H ].
  assert (F : forall h m, hexval h = Some m -> lex_step LStr h = Some LStr).
  { intros h m E. unfold lex_step.
    rewrite (hex_not_quote h), (hex_not_backslash h);
      try reflexivity; rewrite E; reflexivity. }
  cbn [lex].
  rewrite (F _ _ E1), (F _ _ E2), (F _ _ E3), (F _ _ E4). reflexivity.
Qed.

Lemma escape_start :
  forall c e : ascii,
    is_char 34 c = false -> is_char 92 c = true -> lex LStr [c; e] = Some LStr.
Proof.
  intros c e H H0. cbn [lex lex_step]. rewrite H, H0. reflexivity.
Qed.

Lemma pair_escape :
  forall (b v g1 g2 g3 g4 : ascii) (uni2 : N),
    low_surrogate_at [b; v; g1; g2; g3; g4] = Pair uni2 ->
    lex LStr [b; v; g1; g2; g3; g4] = Some LStr.
Proof.
  intros b v g1 g2 g3 g4 uni2 H. unfold low_surrogate_at in H.
  destruct (is_char 92 b) eqn:Eb; [ | discriminate H ].
  destruct (is_char 117 v) eqn:Ev; [ | discriminate H ].
  cbn [andb] in H.
  destruct (hex4 g1 g2 g3 g4) as [ m | ] eqn:Eh; [ | discriminate H ].
  change [b; v; g1; g2; g3; g4] with ([b; v] ++ [g1; g2; g3; g4]).
  rewrite lex_app, (escape_start b v (backslash_not_quote b Eb) Eb).
  cbv beta iota. apply (hex4_digits _ _ _ _ _ Eh).
Qed.

(** A run ends the string it is in. *)
Lemma run_lex :
  forall (a : text) (acc x : ustr), str_run a acc x -> lex LStr a = Some LAfter.
Proof.
  intros a acc x H. induction H.
  - cbn [lex lex_step]. rewrite H. reflexivity.
  - cbn [lex lex_step]. rewrite H, H0. exact IHstr_run.
  - cbn [lex lex_step]. rewrite H, H0. exact IHstr_run.
  - change (c :: e :: h1 :: h2 :: h3 :: h4 :: a)
      with ([c; e] ++ [h1; h2; h3; h4] ++ a).
    rewrite lex_app, (escape_start c e H H0). cbv beta iota.
    rewrite lex_app, (hex4_digits _ _ _ _ _ H2). exact IHstr_run.
  - change (c :: e :: h1 :: h2 :: h3 :: h4
              :: b :: v :: g1 :: g2 :: g3 :: g4 :: a)
      with ([c; e] ++ [h1; h2; h3; h4] ++ [b; v; g1; g2; g3; g4] ++ a).
    rewrite lex_app, (escape_start c e H H0). cbv beta iota.
    rewrite lex_app, (hex4_digits _ _ _ _ _ H2). cbv beta iota.
    rewrite lex_app, (pair_escape _ _ _ _ _ _ _ H4). exact IHstr_run.
Qed.

(** A run ends with a double quote. *)
Lemma run_last :
  forall (a : text) (acc x : ustr),
    str_run a acc x ->
    exists a0 c, a = a0 ++ [c] /\ is_char 34 c = true.
Proof.
  intros a acc x H. induction H.
  - exists [], c. split; [ reflexivity | assumption ].
  - destruct IHstr_run as (a0 & q & -> & Hq).
    exists (c :: a0), q. split; [ reflexivity | exact Hq ].
  - destruct IHstr_run as (a0 & q & -> & Hq).
    exists (c :: e :: a0), q. split; [ reflexivity | exact Hq ].
  - destruct IHstr_run as (a0 & q & -> & Hq).
    exists (c :: e :: h1 :: h2 :: h3 :: h4 :: a0), q.
    split; [ reflexivity | exact Hq ].
  - destruct IHstr_run as (a0 & q & -> & Hq).
    exists (c :: e :: h1 :: h2 :: h3 :: h4
              :: b :: v :: g1 :: g2 :: g3 :: g4 :: a0), q.
    split; [ reflexivity | exact Hq ].
Qed.

(* ------------------------------------------------------------------ *)
(** * Numbers *)

Lemma take_digits_split :
  forall s d r : text,
    take_digits s = (d, r) ->
    s = d ++ r /\ Forall (fun c => isdigit c = true) d.
Proof.
  induction s as [ | c s IH ]; intros d r H; simpl in H.
  - injection H as <- <-. split; [ reflexivity | constructor ].
  - destruct (isdigit c) eqn:E.
    + destruct (take_digits s) as [ d' r' ] eqn:T. injection H as <- <-.
      destruct (IH d' r' eq_refl) as [ -> Hd ].
      split; [ reflexivity | constructor; assumption ].
    + injection H as <- <-. split; [ reflexivity | constructor ].
Qed.

(** Digits are taken the same way whatever follows them, as long as it
    does not start like a number. *)
Lemma take_digits_app :
  forall p r : text,
    follows_ok r ->
    take_digits (p ++ r)
    = (fst (take_digits p), snd (take_digits p) ++ r).
Proof.
  induction p as [ | c p IH ]; intros r H; cbn [app].
  - destruct r as [ | c r ]; [ reflexivity | ].
    destruct (follows_ok_head c r H) as (H1 & _).
    simpl. rewrite H1. reflexivity.
  - simpl. destruct (isdigit c).
    + rewrite (IH r H). destruct (take_digits p). reflexivity.
    + reflexivity.
Qed.

Lemma scan_int_part_app :
  forall p r : text,
    follows_ok r ->
    scan_int_part (p ++ r)
    = match scan_int_part p with
      | Some (ip, t) => Some (ip, t ++ r)
      | None => None
      end.
Proof.
  intros p r H. destruct p as [ | c p ]; cbn [app].
  - destruct r as [ | c r ]; [ reflexivity | ].
    destruct (follows_ok_head c r H) as (H1 & _ & _ & _ & _ & H6).
    unfold scan_int_part. rewrite H1, H6. reflexivity.
  - unfold scan_int_part. destruct (is_char 48 c); [ reflexivity | ].
    destruct (isdigit c); [ | reflexivity ].
    rewrite (take_digits_app p r H). destruct (take_digits p). reflexivity.
Qed.

Lemma scan_frac_app :
  forall p r : text,
    follows_ok r ->
    scan_frac (p ++ r) = (fst (scan_frac p), snd (scan_frac p) ++ r).
Proof.
  intros p r H. destruct p as [ | c p ]; cbn [app].
  - destruct r as [ | c r ]; [ reflexivity | ].
    destruct (follows_ok_head c r H) as (_ & H2 & _).
    unfold scan_frac. rewrite H2. reflexivity.
  - unfold scan_frac. destruct (is_char 46 c); [ | reflexivity ].
    rewrite (take_digits_app p r H).
    destruct (take_digits p) as [ d t ]. cbn [fst snd].
    destruct d; reflexivity.
Qed.

Lemma scan_exp_app :
  forall p r : text,
    follows_ok r ->
    scan_exp (p ++ r) = (fst (scan_exp p), snd (scan_exp p) ++ r).
Proof.
  intros p r H. destruct p as [ | c p ]; cbn [app].
  - destruct r as [ | c r ]; [ reflexivity | ].
    destruct (follows_ok_head c r H) as (_ & _ & H3 & _).
    unfold scan_exp. rewrite H3. reflexivity.
  - unfold scan_exp. destruct (is_char 101 c || is_char 69 c); [ | reflexivity ].
    destruct p as [ | g p ]; cbn [app].
    + destruct r as [ | g r ]; [ reflexivity | ].
      destruct (follows_ok_head g r H) as (H1 & _ & _ & H4 & _).
      rewrite H4. simpl. rewrite H1. reflexivity.
    + destruct (is_char 43 g || is_char 45 g).
      * rewrite (take_digits_app p r H).
        destruct (take_digits p) as [ d t ]. cbn [fst snd].
        destruct d; reflexivity.
      * change (g :: p ++ r) with ((g :: p) ++ r).
        rewrite (take_digits_app (g :: p) r H).
        destruct (take_digits (g :: p)) as [ d t ]. cbn [fst snd].
        destruct d; reflexivity.
Qed.

(** A number is read the same way whatever follows it, as long as it
    does not start like a number. *)
Lemma scan_number_app :
  forall p r : text,
    follows_ok r ->
    scan_number (p ++ r) = scanned_with (scan_number p) r.
Proof.
  intros p r H. unfold scan_number.
  assert (K : forall (neg : bool) (q : text),
             match scan_int_part (q ++ r) with
             | Some (ip, s2) =>
                 let (fp, s3) := scan_frac s2 in
                 let (ep, s4) := scan_exp s3 in
                 match fp, ep with
                 | [], [] =>
                     Scanned (VInt (if neg then Z.opp (digits_value ip)
                                    else digits_value ip)) s4
                 | _, _ =>
                     Scanned (VFloat ((if neg then lit "-" else [])
                                      ++ ip ++ fp ++ ep)) s4
                 end
             | None => Malformed
             end
             = scanned_with
                 match scan_int_part q with
                 | Some (ip, s2) =>
                     let (fp, s3) := scan_frac s2 in
                     let (ep, s4) := scan_exp s3 in
                     match fp, ep with
                     | [], [] =>
                         Scanned (VInt (if neg then Z.opp (digits_value ip)
                                        else digits_value ip)) s4
                     | _, _ =>
                         Scanned (VFloat ((if neg then lit "-" else [])
                                          ++ ip ++ fp ++ ep)) s4
                     end
                 | None => Malformed
                 end r).
  { intros neg q. rewrite (scan_int_part_app q r H).
    destruct (scan_int_part q) as [ [ ip s2 ] | ]; [ | reflexivity ].
    rewrite (scan_frac_app s2 r H).
    destruct (scan_frac s2) as [ fp s3 ]. cbn [fst snd].
    rewrite (scan_exp_app s3 r H).
    destruct (scan_exp s3) as [ ep s4 ]. cbn [fst snd].
    destruct fp, ep; reflexivity. }
  destruct p as [ | c p ]; cbn [app].
  - destruct r as [ | c r ]; [ reflexivity | ].
    destruct (follows_ok_head c r H) as (_ & _ & _ & _ & H5 & _).
    rewrite H5. apply (K false []).
  - destruct (is_char 45 c).
    + apply (K true p).
    + apply (K false (c :: p)).
Qed.

Lemma scan_int_part_split :
  forall s ip r : text,
    scan_int_part s = Some (ip, r) ->
    s = ip ++ r
    /\ Forall (fun c => isdigit c = true) ip
    /\ exists c rest, ip = c :: rest.
Proof.
  intros s ip r H. destruct s as [ | c s ]; [ discriminate H | ].
  unfold scan_int_part in H. destruct (is_char 48 c) eqn:E0.
  - injection H as <- <-. split; [ reflexivity | ]. split.
    + constructor; [ apply zero_is_digit; exact E0 | constructor ].
    + exists c, []. reflexivity.
  - destruct (isdigit c) eqn:E; [ | discriminate H ].
    destruct (take_digits s) as [ d t ] eqn:T. injection H as <- <-.
    destruct (take_digits_split s d t T) as [ -> Hd ].
    split; [ reflexivity | ]. split.
    + constructor; assumption.
    + exists c, d. reflexivity.
Qed.

Lemma scan_frac_split :
  forall s fp r : text,
    scan_frac s = (fp, r) ->
    s = fp ++ r /\ Forall (fun c => is_number_char c = true) fp.
Proof.
  intros s fp r H. destruct s as [ | c s ].
  - injection H as <- <-. split; [ reflexivity | constructor ].
  - unfold scan_frac in H. destruct (is_char 46 c) eqn:E.
    + destruct (take_digits s) as [ d t ] eqn:T.
      destruct (take_digits_split s d t T) as [ -> Hd ].
      destruct d as [ | d0 d ].
      * injection H as <- <-. split; [ reflexivity | constructor ].
      * injection H as <- <-. split; [ reflexivity | ].
        constructor.
        -- revert E. apply (char_implies (is_char 46) is_number_char).
           all_chars_check.
        -- apply (Forall_impl _ digit_is_number_char Hd).
    + injection H as <- <-. split; [ reflexivity | constructor ].
Qed.

Lemma scan_exp_split :
  forall s ep r : text,
    scan_exp s = (ep, r) ->
    s = ep ++ r /\ Forall (fun c => is_number_char c = true) ep.
Proof.
  intros s ep r H. destruct s as [ | c s ].
  - injection H as <- <-. split; [ reflexivity | constructor ].
  - unfold scan_exp in H.
    destruct (is_char 101 c || is_char 69 c) eqn:E.
    2:{ injection H as <- <-. split; [ reflexivity | constructor ]. }
    assert (Hc : is_number_char c = true).
    { revert E.
      apply (char_implies (fun c => is_char 101 c || is_char 69 c) is_number_char).
      all_chars_check. }
    destruct s as [ | g s ].
    { injection H as <- <-. split; [ reflexivity | constructor ]. }
    destruct (is_char 43 g || is_char 45 g) eqn:Eg.
    + assert (Hg : is_number_char g = true).
      { revert Eg.
        apply (char_implies (fun c => is_char 43 c || is_char 45 c) is_number_char).
        all_chars_check. }
      destruct (take_digits s) as [ d t ] eqn:T.
      destruct (take_digits_split s d t T) as [ -> Hd ].
      destruct d as [ | d0 d ].
      * injection H as <- <-. split; [ reflexivity | constructor ].
      * injection H as <- <-. split; [ reflexivity | ].
        constructor; [ exact Hc | ]. constructor; [ exact Hg | ].
        apply (Forall_impl _ digit_is_number_char Hd).
    + destruct (take_digits (g :: s)) as [ d t ] eqn:T.
      destruct (take_digits_split (g :: s) d t T) as [ E' Hd ].
      destruct d as [ | d0 d ].
      * injection H as <- <-. split; [ reflexivity | constructor ].
      * injection H as <- <-. split.
        -- cbn [app]. f_equal. exact E'.
        -- constructor; [ exact Hc | ].
           apply (Forall_impl _ digit_is_number_char Hd).
Qed.

(** What a number read is made of. *)
Lemma scan_number_split :
  forall (s : text) (v : value) (r : text),
    scan_number s = Scanned v r ->
    exists a,
      s = a ++ r
      /\ Forall (fun c => is_number_char c = true) a
      /\ number_head a.
Proof.
  intros s v r H. unfold scan_number in H.
  assert (G : forall (neg : bool) (s1 : text),
             match scan_int_part s1 with
             | Some (ip, s2) =>
                 let (fp, s3) := scan_frac s2 in
                 let (ep, s4) := scan_exp s3 in
                 match fp, ep with
                 | [], [] =>
                     Scanned (VInt (if neg then Z.opp (digits_value ip)
                                    else digits_value ip)) s4
                 | _, _ =>
                     Scanned (VFloat ((if neg then lit "-" else [])
                                      ++ ip ++ fp ++ ep)) s4
                 end
             | None => Malformed
             end = Scanned v r ->
             exists a c rest,
               s1 = a ++ r /\ a = c :: rest /\ isdigit c = true
               /\ Forall (fun c => is_number_char c = true) a).
  { intros neg s1 G.
    destruct (scan_int_part s1) as [ [ ip s2 ] | ] eqn:Ei; [ | discriminate G ].
    destruct (scan_int_part_split s1 ip s2 Ei) as (-> & Hip & c & rest & ->).
    destruct (scan_frac s2) as [ fp s3 ] eqn:Ef.
    destruct (scan_frac_split s2 fp s3 Ef) as (-> & Hfp).
    destruct (scan_exp s3) as [ ep s4 ] eqn:Ee.
    destruct (scan_exp_split s3 ep s4 Ee) as (-> & Hep).
    assert (r = s4) by (destruct fp, ep; injection G as _ <-; reflexivity).
    subst s4.
    exists ((c :: rest) ++ fp ++ ep), c, (rest ++ fp ++ ep).
    split; [ rewrite <- !app_assoc; reflexivity | ].
    split; [ reflexivity | ]. split.
    - inversion Hip; assumption.
    - apply Forall_app. split.
      + apply (Forall_impl _ digit_is_number_char Hip).
      + apply Forall_app. split; assumption. }
  destruct s as [ | c s ].
  - destruct (G false [] H) as (a & c & rest & E & -> & _).
    destruct r; discriminate E.
  - destruct (is_char 45 c) eqn:Em.
    + destruct (G true s H) as (a & d & rest & -> & -> & Hd & Ha).
      exists (c :: d :: rest). split; [ reflexivity | ]. split.
      * constructor; [ | exact Ha ].
        revert Em. apply (char_implies (is_char 45) is_number_char).
        all_chars_check.
      * right. split; [ exact Em | exact Hd ].
    + destruct (G false (c :: s) H) as (a & d & rest & E & -> & Hd & Ha).
      exists (d :: rest). split; [ exact E | ]. split; [ exact Ha | ].
      left. exact Hd.
Qed.

Lemma app_same_tail :
  forall (A : Type) (t r : list A), t ++ r = r -> t = [].
Proof.
  intros A t r H. apply (f_equal (@List.length A)) in H.
  rewrite length_app in H. destruct t; [ reflexivity | simpl in H; lia ].
Qed.

(** The frame of a number. *)
Lemma scan_number_frame :
  forall (a r : text) (v : value),
    scan_number (a ++ r) = Scanned v r ->
    follows_ok r ->
    forall r', follows_ok r' -> scan_number (a ++ r') = Scanned v r'.
Proof.
  intros a r v H Hr r' Hr'.
  rewrite (scan_number_app a r Hr) in H.
  rewrite (scan_number_app a r' Hr').
  destruct (scan_number a) as [ w t | | ]; try discriminate H.
  cbn [scanned_with] in *. injection H as -> H.
  apply app_same_tail in H. subst t. reflexivity.
Qed.

(* ------------------------------------------------------------------ *)
(** * Constants *)

Lemma skipn_app_exact :
  forall (A : Type) (p t : list A), skipn (List.length p) (p ++ t) = t.
Proof.
  intros A p t. induction p as [ | x p IH ]; [ reflexivity | exact IH ].
Qed.

Lemma scan_constant_some :
  forall (name : text) (v0 : value) (s : text) (res : scan value),
    scan_constant name v0 s = Some res ->
    exists t, s = name ++ t /\ res = Scanned v0 t.
Proof.
  intros name v0 s res H. unfold scan_constant in H.
  destruct (startswith name s) eqn:E; [ | discriminate H ].
  apply startswith_spec in E. destruct E as [ t -> ].
  rewrite skipn_app_exact in H. injection H as <-.
  exists t. split; reflexivity.
Qed.

Lemma scan_constant_head :
  forall (name : text) (v0 : value) (c : ascii) (t : text),
    match name with
    | n0 :: _ => Ascii.eqb n0 c = false
    | [] => False
    end ->
    scan_constant name v0 (c :: t) = None.
Proof.
  intros name v0 c t H. destruct name as [ | n0 name ]; [ contradiction | ].
  unfold scan_constant. simpl. rewrite H. reflexivity.
Qed.

Lemma scan_constant_second :
  forall (name : text) (v0 : value) (c d : ascii) (t : text),
    match name with
    | _ :: n1 :: _ => Ascii.eqb n1 d = false
    | _ => False
    end ->
    scan_constant name v0 (c :: d :: t) = None.
Proof.
  intros name v0 c d t H.
  destruct name as [ | n0 [ | n1 name ] ]; try contradiction.
  unfold scan_constant. simpl. rewrite H, andb_false_r. reflexivity.
Qed.

(** No constant starts like a number. *)
Lemma number_start_not_letter :
  forall c,
    (isdigit c || is_char 45 c) = true ->
    (Ascii.eqb "n" c || Ascii.eqb "t" c || Ascii.eqb "f" c
     || Ascii.eqb "N" c || Ascii.eqb "I" c) = false.
Proof.
  apply (char_excludes (fun c => isdigit c || is_char 45 c)
           (fun c => Ascii.eqb "n" c || Ascii.eqb "t" c || Ascii.eqb "f" c
                     || Ascii.eqb "N" c || Ascii.eqb "I" c)).
  all_chars_check.
Qed.

Lemma digit_not_minus_or_I :
  forall c, isdigit c = true -> (Ascii.eqb "-" c || Ascii.eqb "I" c) = false.
Proof.
  apply (char_excludes isdigit (fun c => Ascii.eqb "-" c || Ascii.eqb "I" c)).
  all_chars_check.
Qed.

Lemma atom_of_number :
  forall a : text,
    number_head a -> forall t : text, scan_atom (a ++ t) = scan_number (a ++ t).
Proof.
  intros a H t. destruct a as [ | c a ]; [ contradiction | ].
  cbn [app]. unfold scan_atom.
  assert (L : (isdigit c || is_char 45 c) = true).
  { destruct H as [ H | [ H _ ] ]; rewrite H;
      [ reflexivity | apply orb_true_r ]. }
  pose proof (number_start_not_letter c L) as F.
  apply orb_false_iff in F. destruct F as [ F FI ].
  apply orb_false_iff in F. destruct F as [ F FN ].
  apply orb_false_iff in F. destruct F as [ F Ff ].
  apply orb_false_iff in F. destruct F as [ Fn Ft ].
  rewrite (scan_constant_head (lit "null") VNone c (a ++ t) Fn).
  rewrite (scan_constant_head (lit "true") (VBool true) c (a ++ t) Ft).
  rewrite (scan_constant_head (lit "false") (VBool false) c (a ++ t) Ff).
  rewrite (scan_constant_head (lit "NaN") (VFloat (lit "NaN")) c (a ++ t) FN).
  rewrite (scan_constant_head (lit "Infinity") (VFloat (lit "Infinity")) c
             (a ++ t) FI).
  destruct H as [ H | [ _ H ] ].
  - pose proof (digit_not_minus_or_I c H) as G.
    apply orb_false_iff in G. destruct G as [ G _ ].
    rewrite (scan_constant_head (lit "-Infinity") (VFloat (lit "-Infinity")) c
               (a ++ t) G).
    reflexivity.
  - destruct a as [ | d a ]; [ contradiction | ].
    pose proof (digit_not_minus_or_I d H) as G.
    apply orb_false_iff in G. destruct G as [ _ G ].
    cbn [app].
    rewrite (scan_constant_second (lit "-Infinity") (VFloat (lit "-Infinity"))
               c d (a ++ t) G).
    reflexivity.
Qed.

Lemma lex_seq :
  forall (a b : text) (q q1 q2 : lexstate),
    lex q a = Some q1 -> lex q1 b = Some q2 -> lex q (a ++ b) = Some q2.
Proof.
  intros a b q q1 q2 H1 H2. rewrite lex_app, H1. exact H2.
Qed.

Lemma lex_cons :
  forall (c : ascii) (b : text) (q q1 q2 : lexstate),
    lex_step q c = Some q1 -> lex q1 b = Some q2 -> lex q (c :: b) = Some q2.
Proof.
  intros c b q q1 q2 H1 H2. cbn [lex]. rewrite H1. exact H2.
Qed.

(** A text without white space and without a double quote is the text
    of a value. *)
Lemma solid_value_text :
  forall a : text,
    a <> [] ->
    Forall (fun c => isspace c = false /\ is_char 34 c = false) a ->
    value_text a.
Proof.
  intros a Hne H. split; [ | split ].
  - destruct a as [ | c a ]; [ contradiction | ].
    exists c, a. split; [ reflexivity | ].
    inversion H as [ | ? ? [ Hc _ ] _ ]. exact Hc.
  - destruct (exists_last Hne) as (a0 & c & ->).
    exists a0, c. split; [ reflexivity | ].
    apply Forall_app in H. destruct H as [ _ H ].
    inversion H as [ | ? ? [ Hc _ ] _ ]. exact Hc.
  - exists LOut. split; [ | left; reflexivity ].
    clear Hne. induction H as [ | c a [ _ Hc ] H IH ]; [ reflexivity | ].
    cbn [lex lex_step]. rewrite Hc. exact IH.
Qed.

Lemma constant_text :
  forall name : text,
    name <> [] ->
    forallb (fun c => negb (isspace c) && negb (is_char 34 c)) name = true ->
    value_text name.
Proof.
  intros name Hne H. apply solid_value_text; [ exact Hne | ].
  rewrite forallb_forall in H. apply Forall_forall. intros c Hc.
  specialize (H c Hc). apply andb_true_iff in H. destruct H as [ H1 H2 ].
  apply negb_true_iff in H1, H2. split; assumption.
Qed.

(** The frame of a constant or a number. *)
Lemma scan_atom_frame :
  forall (s : text) (v : value) (r : text),
    scan_atom s = Scanned v r ->
    exists a,
      s = a ++ r
      /\ value_text a
      /\ (follows_ok r ->
          forall r', follows_ok r' -> scan_atom (a ++ r') = Scanned v r').
Proof.
  intros s v r H. unfold scan_atom in H.
  destruct (scan_constant (lit "null") VNone s) as [ res | ] eqn:E1.
  { destruct (scan_constant_some _ _ _ _ E1) as (t & -> & ->).
    injection H as <- <-. exists (lit "null").
    split; [ reflexivity | ].
    split; [ apply constant_text; [ discriminate | reflexivity ] | ].
    intros _ r' _. reflexivity. }
  destruct (scan_constant (lit "true") (VBool true) s) as [ res | ] eqn:E2.
  { destruct (scan_constant_some _ _ _ _ E2) as (t & -> & ->).
    injection H as <- <-. exists (lit "true").
    split; [ reflexivity | ].
    split; [ apply constant_text; [ discriminate | reflexivity ] | ].
    intros _ r' _. reflexivity. }
  destruct (scan_constant (lit "false") (VBool false) s) as [ res | ] eqn:E3.
  { destruct (scan_constant_some _ _ _ _ E3) as (t & -> & ->).
    injection H as <- <-. exists (lit "false").
    split; [ reflexivity | ].
    split; [ apply constant_text; [ discriminate | reflexivity ] | ].
    intros _ r' _. reflexivity. }
  destruct (scan_constant (lit "NaN") (VFloat (lit "NaN")) s) as [ res | ] eqn:E4.
  { destruct (scan_constant_some _ _ _ _ E4) as (t & -> & ->).
    injection H as <- <-. exists (lit "NaN").
    split; [ reflexivity | ].
    split; [ apply constant_text; [ discriminate | reflexivity ] | ].
    intros _ r' _. reflexivity. }
  destruct (scan_constant (lit "Infinity") (VFloat (lit "Infinity")) s)
    as [ res | ] eqn:E5.
  { destruct (scan_constant_some _ _ _ _ E5) as (t & -> & ->).
    injection H as <- <-. exists (lit "Infinity").
    split; [ reflexivity | ].
    split; [ apply constant_text; [ discriminate | reflexivity ] | ].
    intros _ r' _. reflexivity. }
  destruct (scan_constant (lit "-Infinity") (VFloat (lit "-Infinity")) s)
    as [ res | ] eqn:E6.
  { destruct (scan_constant_some _ _ _ _ E6) as (t & -> & ->).
    injection H as <- <-. exists (lit "-Infinity").
    split; [ reflexivity | ].
    split; [ apply constant_text; [ discriminate | reflexivity ] | ].
    intros _ r' _. reflexivity. }
  destruct (scan_number_split s v r H) as (a & -> & Ha & Hh).
  exists a. split; [ reflexivity | ]. split.
  - apply solid_value_text.
    + destruct a; [ contradiction | discriminate ].
    + apply (Forall_impl _ (fun c Hc => conj (number_char_not_space c Hc)
                                             (number_char_not_quote c Hc)) Ha).
  - intros Hr r' Hr'. rewrite (atom_of_number a Hh r').
    apply (scan_number_frame a r v H Hr r' Hr').
Qed.

(* ------------------------------------------------------------------ *)
(** * The frame of a value *)

Lemma after_ws :
  forall (r1 : text) (d : ascii) (r2 : text),
    skip_ws r1 = d :: r2 ->
    exists w,
      r1 = w ++ d :: r2
      /\ Forall (fun c => is_json_ws c = true) w
      /\ is_json_ws d = false.
Proof.
  intros r1 d r2 H. destruct (skip_ws_split r1) as (w & E & Hw).
  rewrite H in E. exists w. split; [ exact E | ]. split; [ exact Hw | ].
  apply (skip_ws_cons r1 d r2 H).
Qed.

Lemma skip_ws_over :
  forall (w : text) (d : ascii) (t : text),
    Forall (fun c => is_json_ws c = true) w ->
    is_json_ws d = false ->
    skip_ws (w ++ d :: t) = d :: t.
Proof.
  intros w d t Hw Hd. rewrite (skip_ws_app w (d :: t) Hw).
  apply skip_ws_head. exact Hd.
Qed.

Lemma follows_ws_sep :
  forall (w : text) (d : ascii) (t : text),
    Forall (fun c => is_json_ws c = true) w ->
    is_separator d = true ->
    follows_ok (w ++ d :: t).
Proof.
  intros w d t Hw Hd. destruct Hw as [ | c w Hc Hw ]; cbn [app follows_ok].
  - apply separator_follows. exact Hd.
  - apply json_ws_follows. exact Hc.
Qed.

Lemma closer_is_separator :
  forall c, (is_char 93 c || is_char 125 c || is_char 44 c || is_char 58 c) = true ->
            is_separator c = true.
Proof.
  apply (char_implies
           (fun c => is_char 93 c || is_char 125 c || is_char 44 c || is_char 58 c)
           is_separator).
  all_chars_check.
Qed.

Lemma opener_solid :
  forall c, (is_char 123 c || is_char 91 c) = true ->
            isspace c = false.
Proof.
  apply (char_excludes (fun c => is_char 123 c || is_char 91 c) isspace).
  all_chars_check.
Qed.

Lemma lex_out_plain :
  forall c, is_char 34 c = false -> lex_step LOut c = Some LOut.
Proof.
  intros c H. cbn [lex_step]. rewrite H. reflexivity.
Qed.

(** The text of a bracketed value: an opening bracket, white space, and
    a closed text. *)
Lemma bracketed_text :
  forall (c : ascii) (w a : text),
    is_char 34 c = false ->
    (is_char 123 c || is_char 91 c) = true ->
    Forall (fun c => is_json_ws c = true) w ->
    (exists a0 z, a = a0 ++ [z] /\ is_separator z = true) ->
    lex LOut a = Some LOut ->
    value_text (c :: w ++ a).
Proof.
  intros c w a Hq Hc Hw (a0 & z & -> & Hz) Hlex. split; [ | split ].
  - exists c, (w ++ a0 ++ [z]). split; [ reflexivity | ].
    apply opener_solid. exact Hc.
  - exists (c :: w ++ a0), z. split.
    + cbn [app]. rewrite <- !app_assoc. reflexivity.
    + apply separator_not_space. exact Hz.
  - exists LOut. split; [ | left; reflexivity ].
    apply lex_cons with (q1 := LOut); [ apply lex_out_plain; exact Hq | ].
    apply lex_seq with (q1 := LOut); [ | exact Hlex ].
    apply lex_ws; [ exact Hw | left; reflexivity ].
Qed.

Ltac norm_app := repeat first [ rewrite <- app_assoc | progress cbn [app] ].

Lemma once_step :
  forall f : nat, frame_items f -> frame_pairs f -> frame_once (S f).
Proof.
  intros f Hi Hp s v r H.
  destruct s as [ | c r0 ]; [ discriminate H | ].
  cbn [scan_once] in H.
  destruct (is_char 34 c) eqn:Eq.
  { destruct (scanstring r0 []) as [ x r1 | | ] eqn:Es; try discriminate H.
    injection H as <- <-.
    destruct (scanstring_run (List.length r0) r0 [] x r1 (le_n _) Es)
      as (a1 & -> & Ha1).
    exists (c :: a1). split; [ reflexivity | ]. split.
    - split; [ | split ].
      + exists c, a1. split; [ reflexivity | apply quote_not_space; exact Eq ].
      + destruct (run_last _ _ _ Ha1) as (a0 & q & -> & Hq).
        exists (c :: a0), q.
        split; [ reflexivity | apply quote_not_space; exact Hq ].
      + exists LAfter. split; [ | right; reflexivity ].
        apply lex_cons with (q1 := LStr).
        * cbn [lex_step]. rewrite Eq. reflexivity.
        * apply (run_lex _ _ _ Ha1).
    - intros _ r' _. cbn [app scan_once]. rewrite Eq.
      rewrite (run_scanstring _ _ _ Ha1 r'). reflexivity. }
  destruct (is_char 123 c) eqn:Eo.
  { destruct (skip_ws r0) as [ | d r1 ] eqn:Ew; [ discriminate H | ].
    destruct (after_ws r0 d r1 Ew) as (w & -> & Hw & Hd).
    destruct (is_char 125 d) eqn:Ec.
    - injection H as <- <-. exists (c :: w ++ [d]).
      split; [ cbn [app]; rewrite <- app_assoc; reflexivity | ]. split.
      + apply bracketed_text; try assumption.
        * rewrite Eo. reflexivity.
        * exists [], d. split; [ reflexivity | ].
          apply closer_is_separator. rewrite Ec. rewrite orb_true_r. reflexivity.
        * apply lex_cons with (q1 := LOut); [ | reflexivity ].
          apply lex_out_plain. apply separator_not_quote.
          apply closer_is_separator. rewrite Ec. rewrite orb_true_r. reflexivity.
      + intros _ r' _. cbn [app]. rewrite <- app_assoc. cbn [app scan_once].
        rewrite Eq, Eo, (skip_ws_over w d r' Hw Hd), Ec. reflexivity.
    - destruct (Hp _ _ _ _ H) as (ap & E & Hcl & Hf).
      destruct Hcl as ((d' & ap1 & -> & Hd') & Hend & Hlex).
      cbn [app] in E. injection E as <- ->.
      exists (c :: w ++ d :: ap1).
      split; [ cbn [app]; rewrite <- app_assoc; reflexivity | ]. split.
      + apply bracketed_text; try assumption. rewrite Eo. reflexivity.
      + intros _ r' _. cbn [app]. rewrite <- app_assoc. cbn [app scan_once].
        rewrite Eq, Eo, (skip_ws_over w d (ap1 ++ r') Hw Hd), Ec.
        apply (Hf r'). }
  destruct (is_char 91 c) eqn:Ea.
  { destruct (skip_ws r0) as [ | d r1 ] eqn:Ew; [ discriminate H | ].
    destruct (after_ws r0 d r1 Ew) as (w & -> & Hw & Hd).
    destruct (is_char 93 d) eqn:Ec.
    - injection H as <- <-. exists (c :: w ++ [d]).
      split; [ cbn [app]; rewrite <- app_assoc; reflexivity | ]. split.
      + apply bracketed_text; try assumption.
        * rewrite Ea. apply orb_true_r.
        * exists [], d. split; [ reflexivity | ].
          apply closer_is_separator. rewrite Ec. reflexivity.
        * apply lex_cons with (q1 := LOut); [ | reflexivity ].
          apply lex_out_plain. apply separator_not_quote.
          apply closer_is_separator. rewrite Ec. reflexivity.
      + intros _ r' _. cbn [app]. rewrite <- app_assoc. cbn [app scan_once].
        rewrite Eq, Eo, Ea, (skip_ws_over w d r' Hw Hd), Ec. reflexivity.
    - destruct (Hi _ _ _ _ H) as (ap & E & Hcl & Hf).
      destruct Hcl as ((d' & ap1 & -> & Hd') & Hend & Hlex).
      cbn [app] in E. injection E as <- ->.
      exists (c :: w ++ d :: ap1).
      split; [ cbn [app]; rewrite <- app_assoc; reflexivity | ]. split.
      + apply bracketed_text; try assumption. rewrite Ea. apply orb_true_r.
      + intros _ r' _. cbn [app]. rewrite <- app_assoc. cbn [app scan_once].
        rewrite Eq, Eo, Ea, (skip_ws_over w d (ap1 ++ r') Hw Hd), Ec.
        apply (Hf r'). }
  destruct (scan_atom_frame (c :: r0) v r H) as (a & E & Ha & Hf).
  exists a. split; [ exact E | ]. split; [ exact Ha | ].
  intros Hr r' Hr'.
  destruct Ha as ((c' & a1 & -> & _) & _).
  cbn [app] in E. injection E as <- _.
  cbn [app scan_once]. rewrite Eq, Eo, Ea.
  apply (Hf Hr r' Hr').
Qed.

(** After a value: white space and a separator keep the scan outside a
    string. *)
Lemma lex_value_sep :
  forall (a1 w : text) (d : ascii) (b : text),
    value_text a1 ->
    Forall (fun c => is_json_ws c = true) w ->
    is_separator d = true ->
    lex LOut b = Some LOut ->
    lex LOut (a1 ++ w ++ d :: b) = Some LOut.
Proof.
  intros a1 w d b (_ & _ & q & Hq & Hq') Hw Hd Hb.
  apply lex_seq with (q1 := q); [ exact Hq | ].
  apply lex_seq with (q1 := q); [ apply lex_ws; assumption | ].
  apply lex_cons with (q1 := LOut); [ | exact Hb ].
  apply lex_separator; assumption.
Qed.

Lemma value_starts :
  forall a : text,
    value_text a -> exists c a1, a = c :: a1 /\ is_json_ws c = false.
Proof.
  intros a ((c & a1 & -> & Hc) & _). exists c, a1.
  split; [ reflexivity | ].
  destruct (is_json_ws c) eqn:E; [ | reflexivity ].
  rewrite (json_ws_is_space c E) in Hc. discriminate Hc.
Qed.

Lemma items_step :
  forall f : nat, frame_once f -> frame_items f -> frame_items (S f).
Proof.
  intros f Ho Hi s acc v r H. cbn [scan_items] in H.
  destruct (scan_once f s) as [ v1 r1 | | ] eqn:E1; try discriminate H.
  destruct (Ho _ _ _ E1) as (a1 & -> & Ha1 & Hf1).
  destruct (skip_ws r1) as [ | d r2 ] eqn:Ew; [ discriminate H | ].
  destruct (after_ws r1 d r2 Ew) as (w & -> & Hw & Hd).
  destruct (is_char 93 d) eqn:Ec.
  - injection H as <- <-.
    assert (Hs : is_separator d = true)
      by (apply closer_is_separator; rewrite Ec; reflexivity).
    exists (a1 ++ w ++ [d]).
    split; [ norm_app; reflexivity | ]. split.
    + split; [ | split ].
      * destruct (value_starts a1 Ha1) as (c & a2 & -> & Hc).
        exists c, (a2 ++ w ++ [d]). split; [ reflexivity | exact Hc ].
      * exists (a1 ++ w), d. split; [ norm_app; reflexivity | exact Hs ].
      * apply lex_value_sep; try assumption. reflexivity.
    + intros r'. norm_app. cbn [scan_items].
      rewrite (Hf1 (follows_ws_sep w d _ Hw Hs) (w ++ d :: r')
                 (follows_ws_sep w d r' Hw Hs)).
      rewrite (skip_ws_over w d r' Hw Hd), Ec. reflexivity.
  - destruct (is_char 44 d) eqn:Em; [ | discriminate H ].
    assert (Hs : is_separator d = true).
    { apply closer_is_separator. rewrite Em. rewrite !orb_true_r. reflexivity. }
    destruct (Hi _ _ _ _ H) as (a2 & E & Hcl & Hf2).
    destruct (skip_ws_split r2) as (w2 & E2 & Hw2). rewrite E in E2. subst r2.
    destruct Hcl as ((c2 & a3 & -> & Hc2) & (a0 & z & Hend & Hz) & Hlex).
    exists (a1 ++ w ++ d :: w2 ++ c2 :: a3).
    split; [ norm_app; reflexivity | ].
    split.
    + split; [ | split ].
      * destruct (value_starts a1 Ha1) as (c & a4 & -> & Hc).
        exists c, (a4 ++ w ++ d :: w2 ++ c2 :: a3).
        split; [ reflexivity | exact Hc ].
      * exists (a1 ++ w ++ d :: w2 ++ a0), z. split; [ | exact Hz ].
        rewrite Hend. norm_app. reflexivity.
      * apply lex_value_sep; try assumption.
        apply lex_seq with (q1 := LOut); [ | exact Hlex ].
        apply lex_ws; [ exact Hw2 | left; reflexivity ].
    + intros r'. norm_app. cbn [scan_items].
      rewrite (Hf1 (follows_ws_sep w d _ Hw Hs) (w ++ d :: w2 ++ c2 :: a3 ++ r')
                 (follows_ws_sep w d _ Hw Hs)).
      rewrite (skip_ws_over w d _ Hw Hd), Ec, Em.
      rewrite (skip_ws_over w2 c2 _ Hw2 Hc2).
      apply (Hf2 r').
Qed.

Lemma pairs_step :
  forall f : nat, frame_once f -> frame_pairs f -> frame_pairs (S f).
Proof.
  intros f Ho Hp s acc v r H. cbn [scan_pairs] in H.
  destruct s as [ | q s1 ]; [ discriminate H | ].
  destruct (is_char 34 q) eqn:Eq; [ | discriminate H ].
  destruct (scanstring s1 []) as [ k s2 | | ] eqn:Es; try discriminate H.
  destruct (scanstring_run (List.length s1) s1 [] k s2 (le_n _) Es)
    as (ak & -> & Hak).
  destruct (skip_ws s2) as [ | col s3 ] eqn:Ewk; [ discriminate H | ].
  destruct (after_ws s2 col s3 Ewk) as (wk & -> & Hwk & Hcol).
  destruct (is_char 58 col) eqn:Ecol; [ | discriminate H ].
  assert (Hscol : is_separator col = true).
  { apply closer_is_separator. rewrite Ecol. rewrite !orb_true_r. reflexivity. }
  destruct (scan_once f (skip_ws s3)) as [ v1 s4 | | ] eqn:E1; try discriminate H.
  destruct (Ho _ _ _ E1) as (av & Ev & Hav & Hf1).
  destruct (skip_ws_split s3) as (w3 & E3 & Hw3). rewrite Ev in E3. subst s3.
  destruct (skip_ws s4) as [ | d s5 ] eqn:Ew4; [ discriminate H | ].
  destruct (after_ws s4 d s5 Ew4) as (w4 & -> & Hw4 & Hd).
  destruct (value_starts av Hav) as (cv & av1 & Eav & Hcv).
  assert (Lkey : lex LOut (q :: ak ++ wk ++ [col] ++ w3) = Some LOut).
  { apply lex_cons with (q1 := LStr); [ cbn [lex_step]; rewrite Eq; reflexivity | ].
    apply lex_seq with (q1 := LAfter); [ apply (run_lex _ _ _ Hak) | ].
    apply lex_seq with (q1 := LAfter);
      [ apply lex_ws; [ exact Hwk | right; reflexivity ] | ].
    apply lex_cons with (q1 := LOut).
    - apply lex_separator; [ exact Hscol | right; reflexivity ].
    - apply lex_ws; [ exact Hw3 | left; reflexivity ]. }
  assert (Skip3 : forall t, skip_ws (w3 ++ av ++ t) = av ++ t).
  { intros t. rewrite Eav. cbn [app]. apply skip_ws_over; assumption. }
  destruct (is_char 125 d) eqn:Ec.
  - injection H as <- <-.
    assert (Hs : is_separator d = true).
    { apply closer_is_separator. rewrite Ec. rewrite orb_true_r. reflexivity. }
    exists ((q :: ak ++ wk ++ [col] ++ w3) ++ av ++ w4 ++ [d]).
    split; [ norm_app; reflexivity | ].
    split.
    + split; [ | split ].
      * exists q, ((ak ++ wk ++ [col] ++ w3) ++ av ++ w4 ++ [d]).
        split; [ reflexivity | apply quote_not_json_ws; exact Eq ].
      * exists ((q :: ak ++ wk ++ [col] ++ w3) ++ av ++ w4), d.
        split; [ norm_app; reflexivity | exact Hs ].
      * apply lex_seq with (q1 := LOut); [ exact Lkey | ].
        apply lex_value_sep; try assumption. reflexivity.
    + intros r'. norm_app. cbn [scan_pairs]. rewrite Eq.
      rewrite (run_scanstring _ _ _ Hak).
      rewrite (skip_ws_over wk col _ Hwk Hcol), Ecol.
      rewrite (Skip3 (w4 ++ d :: r')).
      rewrite (Hf1 (follows_ws_sep w4 d _ Hw4 Hs) (w4 ++ d :: r')
                 (follows_ws_sep w4 d r' Hw4 Hs)).
      rewrite (skip_ws_over w4 d r' Hw4 Hd), Ec. reflexivity.
  - destruct (is_char 44 d) eqn:Em; [ | discriminate H ].
    assert (Hs : is_separator d = true).
    { apply closer_is_separator. rewrite Em. rewrite !orb_true_r. reflexivity. }
    destruct (Hp _ _ _ _ H) as (a2 & E & Hcl & Hf2).
    destruct (skip_ws_split s5) as (w5 & E5 & Hw5). rewrite E in E5. subst s5.
    destruct Hcl as ((c2 & a3 & -> & Hc2) & (a0 & z & Hend & Hz) & Hlex).
    exists ((q :: ak ++ wk ++ [col] ++ w3) ++ av ++ w4 ++ d :: w5 ++ c2 :: a3).
    split; [ norm_app; reflexivity | ].
    split.
    + split; [ | split ].
      * exists q, ((ak ++ wk ++ [col] ++ w3) ++ av ++ w4 ++ d :: w5 ++ c2 :: a3).
        split; [ reflexivity | apply quote_not_json_ws; exact Eq ].
      * exists ((q :: ak ++ wk ++ [col] ++ w3) ++ av ++ w4 ++ d :: w5 ++ a0), z.
        split; [ | exact Hz ].
        rewrite Hend. norm_app. reflexivity.
      * apply lex_seq with (q1 := LOut); [ exact Lkey | ].
        apply lex_value_sep; try assumption.
        apply lex_seq with (q1 := LOut); [ | exact Hlex ].
        apply lex_ws; [ exact Hw5 | left; reflexivity ].
    + intros r'. norm_app. cbn [scan_pairs]. rewrite Eq.
      rewrite (run_scanstring _ _ _ Hak).
      rewrite (skip_ws_over wk col _ Hwk Hcol), Ecol.
      rewrite (Skip3 (w4 ++ d :: w5 ++ c2 :: a3 ++ r')).
      rewrite (Hf1 (follows_ws_sep w4 d _ Hw4 Hs)
                 (w4 ++ d :: w5 ++ c2 :: a3 ++ r')
                 (follows_ws_sep w4 d _ Hw4 Hs)).
      rewrite (skip_ws_over w4 d _ Hw4 Hd), Ec, Em.
      rewrite (skip_ws_over w5 c2 _ Hw5 Hc2).
      apply (Hf2 r').
Qed.

(** What the scanner reads does not depend on what follows it. *)
Lemma scan_frame :
  forall f : nat, frame_once f /\ frame_items f /\ frame_pairs f.
Proof.
  induction f as [ | f (Ho & Hi & Hp) ].
  - split; [ | split ].
    + intros s v r H. discriminate H.
    + intros s acc v r H. discriminate H.
    + intros s acc v r H. discriminate H.
  - split; [ | split ].
    + apply once_step; assumption.
    + apply items_step; assumption.
    + apply pairs_step; assumption.
Qed.

(* ------------------------------------------------------------------ *)
(** * The fuel of the decoder *)

Lemma scanstring_not_exhausted :
  forall (n : nat) (s : text) (acc : ustr),
    List.length s <= n -> scanstring s acc <> Exhausted.
Proof.
  induction n as [ | n IH ]; intros s acc Hn.
  - destruct s; [ discriminate | simpl in Hn; lia ].
  - destruct s as [ | c r0 ]; [ discriminate | ].
    cbn [scanstring]. cbn [List.length] in Hn.
    destruct (is_char 34 c); [ discriminate | ].
    destruct (is_char 92 c).
    2:{ destruct (code c <? 32)%N; [ discriminate | apply IH; lia ]. }
    destruct r0 as [ | e r1 ]; [ discriminate | ].
    cbn [List.length] in Hn.
    destruct (is_char 117 e).
    2:{ destruct (simple_escape e); [ apply IH; lia | discriminate ]. }
    destruct r1 as [ | h1 [ | h2 [ | h3 [ | h4 r2 ] ] ] ]; try discriminate.
    cbn [List.length] in Hn.
    destruct (hex4 h1 h2 h3 h4); [ | discriminate ].
    destruct (is_high_surrogate n0); [ | apply IH; lia ].
    destruct (low_surrogate_at r2); [ apply IH; lia | discriminate | ].
    destruct r2 as [ | b [ | v [ | g1 [ | g2 [ | g3 [ | g4 r3 ] ] ] ] ] ];
      apply IH; cbn [List.length] in *; lia.
Qed.

Lemma scan_atom_not_exhausted : forall s : text, scan_atom s <> Exhausted.
Proof.
  intros s. unfold scan_atom, scan_constant.
  repeat match goal with
         | |- context [ if startswith ?p ?t then _ else _ ] =>
             destruct (startswith p t); [ discriminate | ]
         end.
  unfold scan_number.
  destruct (match s with
            | [] => (false, s)
            | c :: s' => if is_char 45 c then (true, s') else (false, s)
            end) as [ neg s1 ].
  destruct (scan_int_part s1) as [ [ ip s2 ] | ]; [ | discriminate ].
  destruct (scan_frac s2) as [ fp s3 ]. destruct (scan_exp s3) as [ ep s4 ].
  destruct fp, ep; discriminate.
Qed.

(** One more unit of fuel changes no result. *)
Lemma scan_mono :
  forall f : nat,
    (forall s, scan_once f s <> Exhausted -> scan_once (S f) s = scan_once f s)
    /\ (forall s acc,
           scan_items f s acc <> Exhausted ->
           scan_items (S f) s acc = scan_items f s acc)
    /\ (forall s acc,
           scan_pairs f s acc <> Exhausted ->
           scan_pairs (S f) s acc = scan_pairs f s acc).
Proof.
  induction f as [ | f (Ho & Hi & Hp) ].
  - split; [ | split ]; intros; exfalso; auto.
  - split; [ | split ].
    + intros s H. destruct s as [ | c r0 ]; [ reflexivity | ].
      cbn [scan_once] in *.
      destruct (is_char 34 c); [ reflexivity | ].
      destruct (is_char 123 c).
      { destruct (skip_ws r0) as [ | d r1 ]; [ reflexivity | ].
        destruct (is_char 125 d); [ reflexivity | ].
        apply Hp. exact H. }
      destruct (is_char 91 c); [ | reflexivity ].
      destruct (skip_ws r0) as [ | d r1 ]; [ reflexivity | ].
      destruct (is_char 93 d); [ reflexivity | ].
      apply Hi. exact H.
    + intros s acc H. cbn [scan_items] in *.
      destruct (scan_once f s) as [ v r | | ] eqn:E.
      * rewrite (Ho s) by (rewrite E; discriminate). rewrite E.
        destruct (skip_ws r) as [ | d r' ]; [ reflexivity | ].
        destruct (is_char 93 d); [ reflexivity | ].
        destruct (is_char 44 d); [ | reflexivity ].
        apply Hi. exact H.
      * rewrite (Ho s) by (rewrite E; discriminate). rewrite E. reflexivity.
      * exfalso. apply H. reflexivity.
    + intros s acc H. cbn [scan_pairs] in *.
      destruct s as [ | q s1 ]; [ reflexivity | ].
      destruct (is_char 34 q); [ | reflexivity ].
      destruct (scanstring s1 []) as [ k s2 | | ]; try reflexivity.
      destruct (skip_ws s2) as [ | col s3 ]; [ reflexivity | ].
      destruct (is_char 58 col); [ | reflexivity ].
      destruct (scan_once f (skip_ws s3)) as [ v s4 | | ] eqn:E.
      * rewrite (Ho (skip_ws s3)) by (rewrite E; discriminate). rewrite E.
        destruct (skip_ws s4) as [ | d s5 ]; [ reflexivity | ].
        destruct (is_char 125 d); [ reflexivity | ].
        destruct (is_char 44 d); [ | reflexivity ].
        apply Hp. exact H.
      * rewrite (Ho (skip_ws s3)) by (rewrite E; discriminate). rewrite E.
        reflexivity.
      * exfalso. apply H. reflexivity.
Qed.

Lemma scan_mono_add :
  forall (k f : nat) (s : text),
    scan_once f s <> Exhausted -> scan_once (k + f) s = scan_once f s.
Proof.
  induction k as [ | k IH ]; intros f s H.
  - reflexivity.
  - cbn [Nat.add]. destruct (scan_mono (k + f)) as (Ho & _).
    rewrite Ho; rewrite (IH f s H); [ reflexivity | exact H ].
Qed.

(** What the scanner leaves is shorter than what it was given. *)
Lemma scan_once_shorter :
  forall (f : nat) (s : text) (v : value) (r : text),
    scan_once f s = Scanned v r -> List.length r < List.length s.
Proof.
  intros f s v r H. destruct (scan_frame f) as (Ho & _).
  destruct (Ho s v r H) as (a & -> & ((c & a1 & -> & _) & _) & _).
  cbn [app List.length]. rewrite length_app. lia.
Qed.

Lemma scanstring_shorter :
  forall (s : text) (acc x : ustr) (r : text),
    scanstring s acc = Scanned x r -> List.length r < List.length s.
Proof.
  intros s acc x r H.
  destruct (scanstring_run (List.length s) s acc x r (le_n _) H) as (a & -> & Ha).
  destruct (run_last _ _ _ Ha) as (a0 & q & -> & _).
  rewrite !length_app. cbn [List.length]. lia.
Qed.

(** Fuel beyond twice the length of the text is never used up. *)
Lemma scan_fuel :
  forall f : nat,
    (forall s, 2 * List.length s < f -> scan_once f s <> Exhausted)
    /\ (forall s acc, 2 * List.length s + 1 < f -> scan_items f s acc <> Exhausted)
    /\ (forall s acc, 2 * List.length s + 1 < f -> scan_pairs f s acc <> Exhausted).
Proof.
  induction f as [ | f (Ho & Hi & Hp) ].
  - split; [ | split ]; intros; lia.
  - split; [ | split ].
    + intros s H. destruct s as [ | c r0 ]; [ discriminate | ].
      cbn [scan_once]. cbn [List.length] in H.
      destruct (is_char 34 c).
      { pose proof (scanstring_not_exhausted (List.length r0) r0 [] (le_n _)) as N.
        destruct (scanstring r0 []); [ discriminate | discriminate | ].
        exfalso. apply N. reflexivity. }
      pose proof (skip_ws_length r0) as L.
      destruct (is_char 123 c).
      { destruct (skip_ws r0) as [ | d r1 ]; [ discriminate | ].
        destruct (is_char 125 d); [ discriminate | ].
        apply Hp. lia. }
      destruct (is_char 91 c); [ | apply scan_atom_not_exhausted ].
      destruct (skip_ws r0) as [ | d r1 ]; [ discriminate | ].
      destruct (is_char 93 d); [ discriminate | ].
      apply Hi. lia.
    + intros s acc H. cbn [scan_items].
      pose proof (Ho s ltac:(lia)) as N.
      destruct (scan_once f s) as [ v r | | ] eqn:E;
        [ | discriminate | exfalso; apply N; reflexivity ].
      pose proof (scan_once_shorter f s v r E) as L1.
      pose proof (skip_ws_length r) as L2.
      destruct (skip_ws r) as [ | d r' ]; [ discriminate | ].
      destruct (is_char 93 d); [ discriminate | ].
      destruct (is_char 44 d); [ | discriminate ].
      pose proof (skip_ws_length r') as L3. cbn [List.length] in L2.
      apply Hi. lia.
    + intros s acc H. cbn [scan_pairs].
      destruct s as [ | q s1 ]; [ discriminate | ].
      cbn [List.length] in H.
      destruct (is_char 34 q); [ | discriminate ].
      pose proof (scanstring_not_exhausted (List.length s1) s1 [] (le_n _)) as N.
      destruct (scanstring s1 []) as [ k s2 | | ] eqn:Es;
        [ | discriminate | exfalso; apply N; reflexivity ].
      pose proof (scanstring_shorter s1 [] k s2 Es) as L1.
      pose proof (skip_ws_length s2) as L2.
      destruct (skip_ws s2) as [ | col s3 ]; [ discriminate | ].
      cbn [List.length] in L2.
      destruct (is_char 58 col); [ | discriminate ].
      pose proof (skip_ws_length s3) as L3.
      pose proof (Ho (skip_ws s3) ltac:(lia)) as N1.
      destruct (scan_once f (skip_ws s3)) as [ v s4 | | ] eqn:E;
        [ | discriminate | exfalso; apply N1; reflexivity ].
      pose proof (scan_once_shorter f _ v s4 E) as L4.
      pose proof (skip_ws_length s4) as L5.
      destruct (skip_ws s4) as [ | d s5 ]; [ discriminate | ].
      cbn [List.length] in L5.
      destruct (is_char 125 d); [ discriminate | ].
      destruct (is_char 44 d); [ | discriminate ].
      pose proof (skip_ws_length s5) as L6.
      apply Hp. lia.
Qed.

(** The decoder never runs out of fuel: the only exception of
    [json_loads] is [JSONDecodeError]. *)
Lemma json_loads_fuel :
  forall (s : text) (e : exn), json_loads s = Raise e -> e = JSONDecodeError.
Proof.
  intros s e H. unfold json_loads in H.
  destruct (scan_fuel (S (2 * List.length s))) as (Ho & _).
  pose proof (skip_ws_length s) as L.
  pose proof (Ho (skip_ws s) ltac:(lia)) as N.
  destruct (scan_once (S (2 * List.length s)) (skip_ws s)) as [ v r | | ].
  - destruct (skip_ws r); [ discriminate H | ]. injection H as <-. reflexivity.
  - injection H as <-. reflexivity.
  - exfalso. apply N. reflexivity.
Qed.

(** A result does not depend on the fuel, once there is enough of it. *)
Lemma scan_once_any_fuel :
  forall (f f' : nat) (s : text) (v : value) (r : text),
    scan_once f s = Scanned v r ->
    2 * List.length s < f' ->
    scan_once f' s = Scanned v r.
Proof.
  intros f f' s v r H Hf'.
  destruct (scan_fuel f') as (Ho & _). specialize (Ho s Hf').
  destruct (Nat.le_ge_cases f f') as [ L | L ].
  - replace f' with ((f' - f) + f) by lia.
    rewrite scan_mono_add; [ exact H | rewrite H; discriminate ].
  - rewrite <- H. replace f with ((f - f') + f') by lia.
    symmetry. apply scan_mono_add. exact Ho.
Qed.

(* ------------------------------------------------------------------ *)
(** * The comma pattern on a valid document *)

(** What a greedy item takes is a run of its class. *)
Lemma star_inv :
  forall (p : ascii -> bool)
         (k : text -> nat -> caps -> option (nat * caps))
         (s : text) (i : nat) (c : caps) (m : nat * caps),
    star p k s i c = Some m ->
    exists a t,
      s = a ++ t
      /\ Forall (fun x => p x = true) a
      /\ k t (i + List.length a) c = Some m.
Proof.
  intros p k s. induction s as [ | x s IH ]; intros i c m H; cbn [star] in H.
  - exists [], []. split; [ reflexivity | ]. split; [ constructor | ].
    cbn [List.length]. rewrite Nat.add_0_r. exact H.
  - destruct (p x) eqn:Ex.
    + destruct (star p k s (S i) c) as [ m' | ] eqn:Es.
      * injection H as <-. destruct (IH (S i) c m' Es) as (a & t & -> & Ha & Hk).
        exists (x :: a), t. split; [ reflexivity | ].
        split; [ constructor; assumption | ].
        cbn [List.length]. rewrite Nat.add_succ_r. exact Hk.
      * exists [], (x :: s). split; [ reflexivity | ]. split; [ constructor | ].
        cbn [List.length]. rewrite Nat.add_0_r. exact H.
    + exists [], (x :: s). split; [ reflexivity | ]. split; [ constructor | ].
      cbn [List.length]. rewrite Nat.add_0_r. exact H.
Qed.

(** A match of a pattern holds a match of its last items. *)
Lemma match_here_tail :
  forall (r1 r2 : regex) (s : text) (i : nat) (c : caps) (m : nat * caps),
    match_here (r1 ++ r2) s i c = Some m ->
    exists x t i' c', s = x ++ t /\ match_here r2 t i' c' = Some m.
Proof.
  induction r1 as [ | it r1 IH ]; intros r2 s i c m H.
  - exists [], s, i, c. split; [ reflexivity | exact H ].
  - cbn [app match_here] in H. destruct it as [ p | p | p | p | g | g ].
    + destruct s as [ | a s ]; [ discriminate H | ].
      destruct (p a); [ | discriminate H ].
      destruct (IH r2 s (S i) c m H) as (x & t & i' & c' & -> & Hm).
      exists (a :: x), t, i', c'. split; [ reflexivity | exact Hm ].
    + destruct s as [ | a s ]; [ apply (IH r2 [] i c m H) | ].
      destruct (p a); [ | apply (IH r2 (a :: s) i c m H) ].
      destruct (match_here (r1 ++ r2) s (S i) c) as [ m' | ] eqn:E.
      * injection H as <-.
        destruct (IH r2 s (S i) c m' E) as (x & t & i' & c' & -> & Hm).
        exists (a :: x), t, i', c'. split; [ reflexivity | exact Hm ].
      * apply (IH r2 (a :: s) i c m H).
    + destruct (star_inv p _ s i c m H) as (a & t & -> & _ & Hk).
      destruct (IH r2 t _ c m Hk) as (x & t' & i' & c' & -> & Hm).
      exists (a ++ x), t', i', c'. split; [ apply app_assoc | exact Hm ].
    + destruct s as [ | a0 s ]; [ discriminate H | ].
      destruct (p a0); [ | discriminate H ].
      destruct (star_inv p _ s (S i) c m H) as (a & t & -> & _ & Hk).
      destruct (IH r2 t _ c m Hk) as (x & t' & i' & c' & -> & Hm).
      exists (a0 :: a ++ x), t', i', c'.
      split; [ cbn [app]; rewrite app_assoc; reflexivity | exact Hm ].
    + apply (IH r2 s i _ m H).
    + apply (IH r2 s i _ m H).
Qed.

(** What the last items of the comma pattern match. *)
Lemma tail_match_shape :
  forall (t : text) (i : nat) (c : caps) (m : nat * caps),
    match_here missing_comma_tail t i c = Some m ->
    exists y k z,
      t = DQ :: y ++ DQ :: k ++ DQ :: z
      /\ Forall (fun c => isspace c = true) y
      /\ k <> []
      /\ Forall (fun c => isword c = true) k.
Proof.
  intros t i c m H. unfold missing_comma_tail in H. cbn [match_here] in H.
  destruct t as [ | q2 t1 ]; [ discriminate H | ].
  destruct (is_char 34 q2) eqn:E2; [ | discriminate H ].
  destruct (star_inv isspace _ t1 (S i) c m H) as (y & t2 & -> & Hy & H2).
  cbn [match_here] in H2.
  destruct t2 as [ | q3 t3 ]; [ discriminate H2 | ].
  destruct (is_char 34 q3) eqn:E3; [ | discriminate H2 ].
  destruct t3 as [ | w t4 ]; [ discriminate H2 | ].
  destruct (isword w) eqn:Ew; [ | discriminate H2 ].
  destruct (star_inv isword _ t4 _ _ m H2) as (k & t5 & -> & Hk & H5).
  cbn [match_here] in H5.
  destruct t5 as [ | q4 t6 ]; [ discriminate H5 | ].
  destruct (is_char 34 q4) eqn:E4; [ | discriminate H5 ].
  rewrite (is_char_DQ q2 E2), (is_char_DQ q3 E3), (is_char_DQ q4 E4).
  exists y, (w :: k), t6. split; [ | split; [ exact Hy | split ] ].
  - reflexivity.
  - discriminate.
  - constructor; assumption.
Qed.

(** Every match of the comma pattern holds two adjacent strings. *)
Lemma match_adjacent :
  forall (s : text) (i : nat) (c : caps) (m : nat * caps),
    match_here missing_comma_rx s i c = Some m -> adjacent_strings s.
Proof.
  intros s i c m H.
  change missing_comma_rx
    with (firstn 9 missing_comma_rx ++ missing_comma_tail) in H.
  destruct (match_here_tail _ _ s i c m H) as (x & t & i' & c' & -> & Hm).
  destruct (tail_match_shape t i' c' m Hm) as (y & k & z & -> & Hy & Hk & Hw).
  exists x, y, k, z. repeat split; assumption.
Qed.

Lemma lex_in_string_spaces :
  forall y : text,
    Forall (fun c => isspace c = true) y -> lex LStr y = Some LStr.
Proof.
  intros y H. induction H as [ | c y Hc H IH ]; [ reflexivity | ].
  cbn [lex lex_step].
  rewrite (space_not_quote c Hc), (space_not_backslash c Hc). exact IH.
Qed.

(** After a string, white space and a double quote stop the scan. *)
Lemma lex_after_quote :
  forall y rest : text,
    Forall (fun c => isspace c = true) y ->
    lex LAfter (y ++ DQ :: rest) = None.
Proof.
  intros y rest H. induction H as [ | c y Hc H IH ]; cbn [app lex lex_step].
  - reflexivity.
  - rewrite (space_not_separator c Hc).
    destruct (is_json_ws c); [ exact IH | reflexivity ].
Qed.

(** Inside a string, white space, its closing quote and a word stop the
    scan. *)
Lemma lex_quote_word :
  forall (y k rest : text),
    Forall (fun c => isspace c = true) y ->
    k <> [] ->
    Forall (fun c => isword c = true) k ->
    lex LStr (y ++ DQ :: k ++ rest) = None.
Proof.
  intros y k rest Hy Hne Hk.
  rewrite lex_app, (lex_in_string_spaces y Hy).
  destruct k as [ | w k ]; [ contradiction | ].
  inversion Hk as [ | ? ? Hw _ ]; subst.
  cbn [app lex lex_step].
  change (is_char 34 DQ) with true. cbn [lex lex_step].
  rewrite (word_not_json_ws w Hw), (word_not_separator w Hw). reflexivity.
Qed.

(** A document that scans holds no two adjacent strings. *)
Lemma lex_no_adjacent :
  forall (s : text) (q : lexstate),
    lex LOut s = Some q -> ~ adjacent_strings s.
Proof.
  intros s q H (x & y & k & z & -> & Hy & Hne & Hk).
  rewrite lex_app in H.
  destruct (lex LOut x) as [ p | ]; [ | discriminate H ].
  cbn [lex] in H.
  destruct p; cbn [lex_step] in H; change (is_char 34 DQ) with true in H;
    cbv beta iota in H.
  - rewrite (lex_quote_word y k (DQ :: z) Hy Hne Hk) in H. discriminate H.
  - change (is_json_ws DQ) with false in H.
    change (is_separator DQ) with false in H. discriminate H.
  - rewrite (lex_after_quote y (k ++ DQ :: z) Hy) in H. discriminate H.
  - rewrite (lex_quote_word y k (DQ :: z) Hy Hne Hk) in H. discriminate H.
Qed.

Lemma adjacent_in_suffix :
  forall x t : text, adjacent_strings t -> adjacent_strings (x ++ t).
Proof.
  intros x t (x' & y & k & z & -> & H). exists (x ++ x'), y, k, z.
  split; [ apply app_assoc | exact H ].
Qed.

(** A substitution whose pattern matches nowhere changes nothing. *)
Lemma sub_from_id :
  forall (r : regex) (tpl : list piece) (s : text),
    (forall x t, s = x ++ t -> match_here r t 0 no_caps = None) ->
    sub_from r tpl s 0 = s.
Proof.
  intros r tpl s. induction s as [ | a s IH ]; intros H; cbn [sub_from].
  - reflexivity.
  - rewrite (H [] (a :: s) eq_refl). f_equal. apply IH.
    intros x t E. apply (H (a :: x) t). rewrite E. reflexivity.
Qed.

(** The comma step leaves alone every text that scans. *)
Lemma insert_commas_id :
  forall (s : text) (q : lexstate),
    lex LOut s = Some q -> Info16.insert_commas s = s.
Proof.
  intros s q H. unfold Info16.insert_commas, re_sub. apply sub_from_id.
  intros x t E.
  destruct (match_here missing_comma_rx t 0 no_caps) as [ m | ] eqn:M;
    [ | reflexivity ].
  exfalso. apply (lex_no_adjacent s q H). rewrite E.
  apply adjacent_in_suffix. apply (match_adjacent t 0 no_caps m M).
Qed.

(* ------------------------------------------------------------------ *)
(** * Trimming and counting *)

Lemma lstrip_spaces :
  forall w t : text,
    Forall (fun c => isspace c = true) w -> lstrip (w ++ t) = lstrip t.
Proof.
  intros w t H. induction H as [ | c w Hc H IH ]; cbn [app lstrip].
  - reflexivity.
  - rewrite Hc. exact IH.
Qed.

Lemma lstrip_solid :
  forall (c : ascii) (t : text), isspace c = false -> lstrip (c :: t) = c :: t.
Proof.
  intros c t H. cbn [lstrip]. rewrite H. reflexivity.
Qed.

Lemma rstrip_spaces :
  forall (a0 : text) (c : ascii) (w : text),
    isspace c = false ->
    Forall (fun c => isspace c = true) w ->
    rstrip ((a0 ++ [c]) ++ w) = a0 ++ [c].
Proof.
  intros a0 c w Hc Hw. unfold rstrip.
  rewrite !rev_app_distr. cbn [rev app].
  rewrite (lstrip_spaces (rev w) (c :: rev a0) (Forall_rev Hw)).
  rewrite (lstrip_solid c (rev a0) Hc).
  cbn [rev]. rewrite rev_involutive. reflexivity.
Qed.

Lemma count_single_app :
  forall (c0 : ascii) (a b : text),
    count [c0] (a ++ b) = count [c0] a + count [c0] b.
Proof.
  intros c0 a b. unfold count. induction a as [ | x a IH ]; cbn [app].
  - reflexivity.
  - cbn [count_from startswith List.length Nat.sub].
    destruct (Ascii.eqb c0 x); cbn [andb]; rewrite IH; reflexivity.
Qed.

Lemma count_absent :
  forall (c0 : ascii) (w : text),
    Forall (fun x => Ascii.eqb c0 x = false) w -> count [c0] w = 0.
Proof.
  intros c0 w H. unfold count. induction H as [ | x w Hx H IH ].
  - reflexivity.
  - cbn [count_from startswith]. rewrite Hx. exact IH.
Qed.

Lemma space_not_bracket :
  forall c,
    isspace c = true ->
    (Ascii.eqb "{" c || Ascii.eqb "}" c || Ascii.eqb "[" c || Ascii.eqb "]" c)
    = false.
Proof.
  apply (char_excludes isspace
           (fun c => Ascii.eqb "{" c || Ascii.eqb "}" c
                     || Ascii.eqb "[" c || Ascii.eqb "]" c)).
  all_chars_check.
Qed.

Lemma count_bracket_trimmed :
  forall (c0 : ascii) (w0 a w1 : text),
    (c0 = "{" \/ c0 = "}" \/ c0 = "[" \/ c0 = "]")%char ->
    Forall (fun c => isspace c = true) w0 ->
    Forall (fun c => isspace c = true) w1 ->
    count [c0] (w0 ++ a ++ w1) = count [c0] a.
Proof.
  intros c0 w0 a w1 Hc H0 H1.
  assert (P : forall c, isspace c = true -> Ascii.eqb c0 c = false).
  { intros c Hs. pose proof (space_not_bracket c Hs) as G.
    apply orb_false_iff in G. destruct G as [ G G4 ].
    apply orb_false_iff in G. destruct G as [ G G3 ].
    apply orb_false_iff in G. destruct G as [ G1 G2 ].
    destruct Hc as [ -> | [ -> | [ -> | -> ] ] ]; assumption. }
  assert (F : forall w, Forall (fun c => isspace c = true) w -> count [c0] w = 0).
  { intros w Hw. apply count_absent. apply (Forall_impl _ P Hw). }
  rewrite !count_single_app, (F w0 H0), (F w1 H1). lia.
Qed.

(* ------------------------------------------------------------------ *)
(** * Repairing a valid document *)

(** C4, as the claim states it, fails on a document that is a string
    holding an opening brace: it is valid JSON, the brace counts as
    unclosed, a closing brace is appended, the text no longer decodes
    and the function returns [None]. *)
Lemma C4_counterexample :
  json_loads brace_in_string = Ok (VStr (u "{"))
  /\ Info16.balance_brackets (strip brace_in_string) = brace_in_string ++ lit "}"
  /\ Info16.fix_malformed_json brace_in_string = Ok VNone.
Proof.
  repeat split; vm_compute; reflexivity.
Qed.

(** What a document that decodes is made of: white space, the text of
    its value, white space. *)
Lemma json_loads_shape :
  forall (s : text) (v : value),
    json_loads s = Ok v ->
    exists w0 a w1,
      s = w0 ++ a ++ w1
      /\ Forall (fun c => is_json_ws c = true) w0
      /\ Forall (fun c => is_json_ws c = true) w1
      /\ value_text a
      /\ json_loads a = Ok v.
Proof.
  intros s v H. unfold json_loads in H.
  destruct (scan_once (S (2 * List.length s)) (skip_ws s)) as [ v' r | | ] eqn:E;
    try discriminate H.
  destruct (skip_ws r) eqn:Er; [ | discriminate H ]. injection H as ->.
  destruct (skip_ws_split s) as (w0 & Es & Hw0).
  destruct (scan_frame (S (2 * List.length s))) as (Ho & _).
  destruct (Ho _ _ _ E) as (a & Ea & Ha & Hf).
  pose proof (skip_ws_nil r Er) as Hr.
  exists w0, a, r. rewrite <- Ea.
  split; [ exact Es | ]. split; [ exact Hw0 | ]. split; [ exact Hr | ].
  split; [ exact Ha | ].
  assert (Fr : follows_ok r).
  { destruct Hr as [ | c r Hc Hr ]; [ exact I | ].
    apply json_ws_follows. exact Hc. }
  specialize (Hf Fr [] I). rewrite app_nil_r in Hf.
  unfold json_loads.
  destruct (value_starts a Ha) as (c & a1 & -> & Hc).
  rewrite (skip_ws_head c a1 Hc).
  rewrite (scan_once_any_fuel _ (S (2 * List.length (c :: a1))) _ _ _ Hf
             ltac:(lia)).
  reflexivity.
Qed.

(** C4, amended. A text that is strict, valid JSON, and in which the
    opening braces are no more than the closing ones and the opening
    square brackets no more than the closing ones, comes back from
    [fix_malformed_json] as the value it decodes to. *)
Theorem C4_valid_json_is_kept :
  forall (s : text) (v : value),
    json_loads s = Ok v ->
    count (lit "{") s <= count (lit "}") s ->
    count (lit "[") s <= count (lit "]") s ->
    Info16.fix_malformed_json s = Ok v.
Proof.
  intros s v H Hb Hk.
  destruct (json_loads_shape s v H)
    as (w0 & a & w1 & -> & Hw0 & Hw1 & Ha & Hv).
  pose proof (Forall_impl _ json_ws_is_space Hw0) as S0.
  pose proof (Forall_impl _ json_ws_is_space Hw1) as S1.
  assert (Es : strip (w0 ++ a ++ w1) = a).
  { unfold strip. rewrite (lstrip_spaces w0 (a ++ w1) S0).
    destruct Ha as ((c & a1 & -> & Hc) & (a0 & z & E & Hz) & _).
    cbn [app]. rewrite (lstrip_solid c (a1 ++ w1) Hc).
    change (c :: a1 ++ w1) with ((c :: a1) ++ w1). rewrite E.
    apply rstrip_spaces; assumption. }
  change (lit "{") with ["{"%char] in Hb. change (lit "}") with ["}"%char] in Hb.
  change (lit "[") with ["["%char] in Hk. change (lit "]") with ["]"%char] in Hk.
  rewrite (count_bracket_trimmed "{" w0 a w1 (or_introl eq_refl) S0 S1) in Hb.
  rewrite (count_bracket_trimmed "}" w0 a w1
             (or_intror (or_introl eq_refl)) S0 S1) in Hb.
  rewrite (count_bracket_trimmed "[" w0 a w1
             (or_intror (or_intror (or_introl eq_refl))) S0 S1) in Hk.
  rewrite (count_bracket_trimmed "]" w0 a w1
             (or_intror (or_intror (or_intror eq_refl))) S0 S1) in Hk.
  unfold Info16.fix_malformed_json. rewrite Es.
  assert (Eb : Info16.balance_brackets a = a).
  { unfold Info16.balance_brackets.
    change (lit "{") with ["{"%char]. change (lit "}") with ["}"%char].
    change (lit "[") with ["["%char]. change (lit "]") with ["]"%char].
    replace (count ["}"%char] a <? count ["{"%char] a) with false
      by (symmetry; apply Nat.ltb_ge; exact Hb).
    replace (count ["]"%char] a <? count ["["%char] a) with false
      by (symmetry; apply Nat.ltb_ge; exact Hk).
    reflexivity. }
  rewrite Eb.
  destruct Ha as (_ & _ & q & Hq & _).
  rewrite (insert_commas_id a q Hq), Hv. reflexivity.
Qed.

(** C4 at an object with a nested array and white space around it. *)
Lemma C4_witness :
  Info16.fix_malformed_json (qq " {'specimens': [{'gleason_score': '7'}]} ")
  = Ok (VDict [(u "specimens",
                VList [VDict [(u "gleason_score", VStr (u "7"))]])]).
Proof.
  apply (C4_valid_json_is_kept
           (qq " {'specimens': [{'gleason_score': '7'}]} ")).
  - vm_compute. reflexivity.
  - vm_compute. apply le_n.
  - vm_compute. apply le_n.
Defined.

(* ------------------------------------------------------------------ *)
(** * extract_info16.py: the records of a subject *)

(** X2. The benign override rewrites three fields only: every other
    key of the specimen reads as before, and a key the specimen lacks
    is still lacking. *)
Theorem override_benign_keeps_other_fields :
  forall (report_text : text) (specimen r : value) (k : ustr),
    Info16.override_benign report_text specimen = Ok r ->
    k <> u "gleason_score" -> k <> u "gleason_pattern" -> k <> u "comment" ->
    getitem r k = getitem specimen k.
Proof.
  intros report_text specimen r k H H1 H2 H3.
  unfold Info16.override_benign in H.
  destruct (contains (lit "benign") (lower report_text)).
  - destruct specimen as [ | | | | | | d | ]; try discriminate.
    cbn [setitem bind] in H. injection H as <-.
    unfold getitem.
    rewrite !dict_get_set_other by (intros E; symmetry in E; contradiction).
    reflexivity.
  - injection H as <-. reflexivity.
Qed.

Lemma override_benign_keeps_other_fields_witness :
  getitem (VDict [ (u "num_cores", VStr (u "3/7"));
                   (u "gleason_score", VStr (u "benign"));
                   (u "gleason_pattern", VStr (u "benign"));
                   (u "comment", VStr (u "benign")) ])
    (u "num_cores")
  = getitem (VDict [ (u "num_cores", VStr (u "3/7"));
                     (u "gleason_score", VStr (u "7")) ])
      (u "num_cores").
Proof.
  apply (override_benign_keeps_other_fields (lit "BENIGN tissue")
           (VDict [ (u "num_cores", VStr (u "3/7"));
                    (u "gleason_score", VStr (u "7")) ])).
  - vm_compute. reflexivity.
  - discriminate.
  - discriminate.
  - discriminate.
Defined.

(* ------------------------------------------------------------------ *)
(** * extract_info16.py: when the table comes out *)

Lemma for_each_In :
  forall (A B : Type) (f : A -> result B) (l : list A) (l' : list B) (a : A),
    for_each f l = Ok l' -> In a l -> exists b, f a = Ok b.
Proof.
  intros A B f l l' a H Ha. apply for_each_Forall2 in H.
  induction H as [ | x y l l' Hxy H IH ]; [ contradiction | ].
  destruct Ha as [ -> | Ha ]; [ exists y; exact Hxy | apply IH; exact Ha ].
Qed.

Lemma get_method_ok_dict :
  forall (v : value) (k : ustr) (default x : value),
    get_method v k default = Ok x -> exists d, v = VDict d.
Proof.
  intros v k default x H. destruct v; try discriminate. eexists. reflexivity.
Qed.

Lemma specimen_cells_record :
  forall (specimen : value) (cells : list value),
    Info16.specimen_cells specimen = Ok cells -> is_record specimen = true.
Proof.
  intros specimen cells H. unfold Info16.specimen_cells in H.
  destruct (get_method specimen (u "specimen_name") EMPTY) as [ c1 | ] eqn:E1;
    [ | discriminate H ].
  destruct (get_method_ok_dict _ _ _ _ E1) as [ d -> ].
  cbn [bind] in H. clear E1.
  destruct (get_method (VDict d) (u "gleason_score") EMPTY); [ | discriminate H ].
  destruct (get_method (VDict d) (u "gleason_pattern") EMPTY); [ | discriminate H ].
  destruct (get_method (VDict d) (u "num_cores") EMPTY); [ | discriminate H ].
  destruct (get_method (VDict d) (u "percent_specimen") EMPTY); [ | discriminate H ].
  cbn [bind] in H.
  destruct (Info16.feature (VDict d) "HGPIN") as [ c6 | ] eqn:E6;
    [ | discriminate H ].
  clear H. unfold Info16.feature, get_method at 1 in E6. unfold is_record.
  destruct (dict_get d (u "features")) as [ f | ]; [ | reflexivity ].
  cbn [bind] in E6. destruct f; try discriminate E6. reflexivity.
Qed.

Lemma flatten_row_well_formed :
  forall (m : nat) (report_data row : list value),
    List.length report_data <= m ->
    Info16.flatten_row m report_data = Ok row ->
    match report_data with
    | [] => False
    | first :: _ => has_study_id first = true
    end
    /\ Forall (fun v => is_record v = true) report_data.
Proof.
  intros m report_data row Hm H.
  destruct (flatten_row_shape m report_data row Hm H)
    as (first & others & study_id & cells & -> & Hid & Hc & _).
  split.
  - unfold getitem in Hid. unfold has_study_id.
    destruct first; try discriminate.
    destruct (dict_get d (u "study_id")); [ reflexivity | discriminate ].
  - apply Forall_forall. intros v Hv.
    destruct (for_each_In _ _ _ _ _ v Hc Hv) as [ c Hcv ].
    apply (specimen_cells_record v c Hcv).
Qed.

(** X3. The flattening loop of extract_info16.py gives a table only on
    a batch with at least one subject, in which every subject has at
    least one record, its first record is an object with a study_id, and
    every record is an object whose features entry, if any, is an
    object. On any other batch the run ends with an exception and no
    table is written. *)
Theorem flatten_only_well_formed :
  forall (extracted_data : list (list value))
         (out : list text * list (list value)),
    Info16.flatten extracted_data = Ok out ->
    well_formed_batch extracted_data.
Proof.
  intros extracted_data out H. unfold Info16.flatten, Info16.max_len in H.
  destruct extracted_data as [ | x l ] eqn:Hd; [ discriminate | ].
  rewrite <- Hd in *. cbn [bind] in H.
  set (m := fold_right Nat.max 0 (map (@List.length value) extracted_data)) in *.
  destruct (for_each (Info16.flatten_row m) extracted_data) as [ rows | e ] eqn:Hr;
    cbn [bind] in H; [ | discriminate ].
  split; [ rewrite Hd; discriminate | ].
  apply Forall_forall. intros rd Hin.
  destruct (for_each_In _ _ _ _ _ rd Hr Hin) as [ row Hrow ].
  apply (flatten_row_well_formed m rd row (max_len_bound _ rd Hin) Hrow).
Qed.

Lemma flatten_only_well_formed_witness :
  well_formed_batch [[VDict [(u "study_id", VStr (u "A1"))]]].
Proof.
  apply (flatten_only_well_formed
           [[VDict [(u "study_id", VStr (u "A1"))]]]
           (Info16.columns 1,
            [[VStr (u "A1"); EMPTY; EMPTY; EMPTY; EMPTY; EMPTY;
              VInt 0; VInt 0; VInt 0; VInt 0; VInt 0; EMPTY]])).
  vm_compute. reflexivity.
Defined.

(* ------------------------------------------------------------------ *)
(** * extract_info16.py: the cell of the report *)

Lemma process_subjects_Forall2 :
  forall (batch : list subject) (line_number : nat) (data : list (list value)),
    Info16.process_subjects line_number batch = Ok data ->
    Forall2 (fun s rd => exists n, Info16.process_subject n s = Ok rd) batch data.
Proof.
  induction batch as [ | s batch IH ]; intros line_number data H.
  - injection H as <-. constructor.
  - cbn [Info16.process_subjects] in H.
    destruct (Info16.process_subject line_number s) as [ rd | ] eqn:Es;
      [ | discriminate H ].
    cbn [bind] in H.
    destruct (Info16.process_subjects (S line_number) batch) as [ others | ] eqn:Eo;
      [ | discriminate H ].
    cbn [bind] in H. injection H as <-.
    constructor; [ exists line_number; exact Es | apply (IH _ _ Eo) ].
Qed.

Lemma Forall2_In_l :
  forall (A B : Type) (R : A -> B -> Prop) (l : list A) (l' : list B) (a : A),
    Forall2 R l l' -> In a l -> exists b, In b l' /\ R a b.
Proof.
  intros A B R l l' a H. induction H as [ | x y l l' Hxy H IH ]; intros Ha.
  - contradiction.
  - destruct Ha as [ -> | Ha ].
    + exists y. split; [ left; reflexivity | exact Hxy ].
    + destruct (IH Ha) as (b & Hb & Hab). exists b.
      split; [ right; exact Hb | exact Hab ].
Qed.

Lemma for_each_all_raise :
  forall (A B : Type) (e : exn) (l : list A) (l' : list B),
    for_each (fun _ : A => Raise e) l = Ok l' -> l = [] /\ l' = [].
Proof.
  intros A B e l l' H. destruct l as [ | a l ].
  - injection H as <-. split; reflexivity.
  - discriminate H.
Qed.

(** X1. [report_text.lower()] is evaluated for every record of a
    subject, the stub included, and outside any handler; a record list
    that is empty stops the flattening loop. So a run of
    extract_info16.py that reaches its table had a string in the report
    cell of every row: one blank cell, which pandas hands over as the
    float NaN, or one number there, ends the run with an exception. *)
Theorem run16_needs_text_reports :
  forall (batch : list subject) (table : list text * list (list value)),
    Info16.run batch = Ok table ->
    forall s, In s batch -> exists report_text, report s = Text report_text.
Proof.
  intros batch table H s Hs. unfold Info16.run in H.
  destruct (Info16.process_subjects 1 batch) as [ data | ] eqn:Ed;
    [ | discriminate H ].
  cbn [bind] in H.
  destruct (Forall2_In_l _ _ _ _ _ s (process_subjects_Forall2 _ _ _ Ed) Hs)
    as (rd & Hrd & n & Hn).
  assert (Hraise : for_each (fun _ : value => @Raise value AttributeError)
                     match Info16.extract_info_from_report (details_reply s) with
                     | Some l => l
                     | None => [Info16.stub (accession_number s) n]
                     end
                   = Ok rd ->
                   False).
  { intros Hraise. destruct (for_each_all_raise _ _ _ _ _ Hraise) as [ _ -> ].
    unfold Info16.flatten, Info16.max_len in H.
    destruct data as [ | x l ] eqn:Hd; [ contradiction | ].
    rewrite <- Hd in *. cbn [bind] in H.
    set (m := fold_right Nat.max 0 (map (@List.length value) data)) in *.
    destruct (for_each (Info16.flatten_row m) data) as [ rows | ] eqn:Hr;
      [ | discriminate H ].
    destruct (for_each_In _ _ _ _ _ [] Hr Hrd) as [ row Hrow ].
    discriminate Hrow. }
  unfold Info16.process_subject in Hn.
  destruct (report s) as [ t | | lexeme | b ] eqn:Er;
    [ exists t; reflexivity | | | ]; elim (Hraise Hn).
Qed.

Lemma run16_needs_text_reports_witness :
  exists report_text,
    report {| report := Text (lit "Adenocarcinoma");
              accession_number := NAN;
              count_reply := Stdout (lit "1");
              details_reply :=
                Stdout (qq "{'specimens': [{'study_id': 'A1'}]}") |}
    = Text report_text.
Proof.
  apply (run16_needs_text_reports
           [ {| report := Text (lit "Adenocarcinoma");
                accession_number := NAN;
                count_reply := Stdout (lit "1");
                details_reply :=
                  Stdout (qq "{'specimens': [{'study_id': 'A1'}]}") |} ]
           (Info16.columns 1,
            [ [ VStr (u "A1"); EMPTY; EMPTY; EMPTY; EMPTY; EMPTY;
                VInt 0; VInt 0; VInt 0; VInt 0; VInt 0; EMPTY ] ])).
  - vm_compute. reflexivity.
  - left. reflexivity.
Defined.

(* ------------------------------------------------------------------ *)
(** * extract_info23.py: the records of a subject *)

(** What lines 185-187 need of a specimen and what they make of it. *)
Lemma finish_specimen_inv :
  forall (acc names : value) (i : nat) (sp r : value),
    Info23.finish_specimen acc names i sp = Ok r ->
    exists d n name c c',
      sp = VDict d
      /\ len names = Ok n
      /\ (if i <? n then getitem_nat names i
          else Ok (VStr (u "Unknown Specimen"))) = Ok name
      /\ dict_get d (u "comment") = Some c
      /\ slice_to c 200 = Ok c'
      /\ r = VDict (dict_set
                      (dict_set (dict_set d (u "study_id") acc)
                         (u "specimen_name") name)
                      (u "comment") c').
Proof.
  intros acc names i sp r H. unfold Info23.finish_specimen in H.
  destruct sp as [ | | | | | | d | ]; try discriminate H.
  cbn [setitem bind] in H.
  destruct (len names) as [ n | ] eqn:En; [ | discriminate H ].
  cbn [bind] in H.
  destruct (if i <? n then getitem_nat names i
            else Ok (VStr (u "Unknown Specimen"))) as [ name | ] eqn:Ename;
    [ | discriminate H ].
  cbn [bind] in H. unfold getitem in H.
  rewrite !dict_get_set_other in H by discriminate.
  destruct (dict_get d (u "comment")) as [ c | ] eqn:Ec; [ | discriminate H ].
  cbn [bind] in H.
  destruct (slice_to c 200) as [ c' | ] eqn:Es; [ | discriminate H ].
  cbn [bind] in H. injection H as <-.
  exists d, n, name, c, c'. repeat split; assumption.
Qed.

Lemma for_each_indexed :
  forall (A B : Type) (f : nat * A -> result B) (l : list A) (a : nat)
         (l' : list B),
    for_each f (combine (seq a (List.length l)) l) = Ok l' ->
    List.length l' = List.length l
    /\ forall (i : nat) (x : A) (y : B),
         nth_error l i = Some x -> nth_error l' i = Some y ->
         f (a + i, x) = Ok y.
Proof.
  induction l as [ | x0 l IH ]; intros a l' H.
  - injection H as <-. split; [ reflexivity | ].
    intros [ | i ] x y Hx; discriminate Hx.
  - cbn [List.length seq combine for_each] in H.
    destruct (f (a, x0)) as [ y0 | ] eqn:E0; [ | discriminate H ].
    cbn [bind] in H.
    destruct (for_each f (combine (seq (S a) (List.length l)) l))
      as [ ys | ] eqn:E; [ | discriminate H ].
    cbn [bind] in H. injection H as <-.
    destruct (IH (S a) ys E) as [ Hlen Hnth ].
    split; [ cbn [List.length]; rewrite Hlen; reflexivity | ].
    intros [ | i ] x y Hx Hy; cbn [nth_error] in Hx, Hy.
    + injection Hx as <-. injection Hy as <-.
      rewrite Nat.add_0_r. exact E0.
    + rewrite <- Nat.add_succ_comm. apply (Hnth i x y Hx Hy).
Qed.

Lemma slice_to_len :
  forall (c c' : value) (n : nat),
    slice_to c n = Ok c' -> exists m, len c' = Ok m /\ m <= n.
Proof.
  intros c c' n H.
  destruct c; try discriminate H; cbn [slice_to] in H; injection H as <-;
    cbn [len]; eexists; (split; [ reflexivity | apply firstn_le_length ]).
Qed.

(** The records of a subject with extracted specimens, index by index. *)
Lemma process_subject23_inv :
  forall (s : subject) (l records : list value),
    Info23.extract_info_from_report (details_reply s) = Some l ->
    Info23.process_subject s = Ok records ->
    List.length records = List.length l
    /\ (forall (i : nat) (sp : value),
           nth_error l i = Some sp ->
           exists r,
             nth_error records i = Some r
             /\ Info23.finish_specimen (accession_number s)
                  (snd (Info23.get_number_of_specimens (count_reply s))) i sp
                = Ok r)
    /\ (forall (i : nat) (r : value),
           nth_error records i = Some r ->
           exists sp,
             nth_error l i = Some sp
             /\ Info23.finish_specimen (accession_number s)
                  (snd (Info23.get_number_of_specimens (count_reply s))) i sp
                = Ok r).
Proof.
  intros s l records He H. unfold Info23.process_subject in H.
  destruct (Info23.get_number_of_specimens (count_reply s)) as [ number names ].
  rewrite He in H. cbn [snd].
  destruct (for_each_indexed _ _ _ l 0 records H) as [ Hlen Hnth ].
  split; [ exact Hlen | split ].
  - intros i sp Hsp.
    destruct (nth_error records i) as [ r | ] eqn:Hr.
    + exists r. split; [ reflexivity | apply (Hnth i sp r Hsp Hr) ].
    + apply nth_error_None in Hr.
      assert (i < List.length l)
        by (apply nth_error_Some; rewrite Hsp; discriminate).
      lia.
  - intros i r Hr.
    destruct (nth_error l i) as [ sp | ] eqn:Hsp.
    + exists sp. split; [ reflexivity | apply (Hnth i sp r Hsp Hr) ].
    + apply nth_error_None in Hsp.
      assert (i < List.length records)
        by (apply nth_error_Some; rewrite Hr; discriminate).
      lia.
Qed.

Lemma stub23_only :
  forall (s : subject),
    Info23.extract_info_from_report (details_reply s) = None ->
    Info23.process_subject s = Ok [Info23.stub (accession_number s)].
Proof.
  intros s He. unfold Info23.process_subject.
  destruct (Info23.get_number_of_specimens (count_reply s)).
  rewrite He. reflexivity.
Qed.

(** X4. In extract_info23.py a subject for which specimens were
    extracted gets one record per extracted specimen, in the order of
    the answer. The record at index [i] is named by the entry of
    specimen_names at that index when the list of names reaches that
    far, and Unknown Specimen otherwise; the number the model gave for
    the count plays no part. *)
Theorem process_subject23_names :
  forall (s : subject) (l records : list value),
    Info23.extract_info_from_report (details_reply s) = Some l ->
    Info23.process_subject s = Ok records ->
    List.length records = List.length l
    /\ forall (i : nat) (r : value),
         nth_error records i = Some r ->
         exists n,
           len (snd (Info23.get_number_of_specimens (count_reply s))) = Ok n
           /\ getitem r (u "specimen_name")
              = if i <? n
                then getitem_nat
                       (snd (Info23.get_number_of_specimens (count_reply s))) i
                else Ok (VStr (u "Unknown Specimen")).
Proof.
  intros s l records He H.
  destruct (process_subject23_inv s l records He H) as (Hlen & _ & Hrec).
  split; [ exact Hlen | ].
  intros i r Hr. destruct (Hrec i r Hr) as (sp & _ & Hf).
  destruct (finish_specimen_inv _ _ _ _ _ Hf)
    as (d & n & name & c & c' & -> & Hn & Hname & Hc & Hs & ->).
  exists n. split; [ exact Hn | ].
  unfold getitem. rewrite dict_get_set_other by discriminate.
  rewrite dict_get_set_same. symmetry. exact Hname.
Qed.

Lemma process_subject23_names_witness :
  List.length
    [ VDict [ (u "comment", VStr (u "focal")); (u "study_id", VStr (u "A1"));
              (u "specimen_name", VStr (u "left apex")) ];
      VDict [ (u "comment", VStr []); (u "study_id", VStr (u "A1"));
              (u "specimen_name", VStr (u "Unknown Specimen")) ] ]
  = 2.
Proof.
  apply (process_subject23_names
           {| report := Text (lit "r");
              accession_number := VStr (u "A1");
              count_reply :=
                Stdout (qq "{'number_of_specimens': 5, 'specimen_names': ['left apex']}");
              details_reply :=
                Stdout (qq "{'specimens': [{'comment': 'focal'}, {'comment': ''}]}") |}
           [ VDict [ (u "comment", VStr (u "focal")) ];
             VDict [ (u "comment", VStr []) ] ]).
  - vm_compute. reflexivity.
  - vm_compute. reflexivity.
Defined.

(** X5. The comment of every record that extract_info23.py builds from
    an extracted specimen is the first 200 items of the comment the
    model gave, so it is never longer than 200; the study_id is the
    accession number of the row; every key other than study_id,
    specimen_name and comment reads as the model gave it. *)
Theorem process_subject23_fields :
  forall (s : subject) (l records : list value),
    Info23.extract_info_from_report (details_reply s) = Some l ->
    Info23.process_subject s = Ok records ->
    forall (i : nat) (sp r : value),
      nth_error l i = Some sp ->
      nth_error records i = Some r ->
      getitem r (u "study_id") = Ok (accession_number s)
      /\ (exists c c' m,
             getitem sp (u "comment") = Ok c
             /\ slice_to c 200 = Ok c'
             /\ getitem r (u "comment") = Ok c'
             /\ len c' = Ok m /\ m <= 200)
      /\ forall k : ustr,
           k <> u "study_id" -> k <> u "specimen_name" -> k <> u "comment" ->
           getitem r k = getitem sp k.
Proof.
  intros s l records He H i sp r Hsp Hr.
  destruct (process_subject23_inv s l records He H) as (_ & _ & Hrec).
  destruct (Hrec i r Hr) as (sp' & Hsp' & Hf).
  rewrite Hsp in Hsp'. injection Hsp' as <-.
  destruct (finish_specimen_inv _ _ _ _ _ Hf)
    as (d & n & name & c & c' & -> & Hn & Hname & Hc & Hs & ->).
  unfold getitem. split; [ | split ].
  - rewrite !dict_get_set_other by discriminate.
    rewrite dict_get_set_same. reflexivity.
  - destruct (slice_to_len c c' 200 Hs) as (m & Hm & Hle).
    exists c, c', m. rewrite Hc, dict_get_set_same.
    repeat split; assumption.
  - intros k K1 K2 K3.
    rewrite !dict_get_set_other by (intros E; symmetry in E; contradiction).
    reflexivity.
Qed.

Lemma process_subject23_fields_witness :
  getitem
    (VDict [ (u "comment", VStr (u "focal")); (u "num_cores", VStr (u "1/2"));
             (u "study_id", VStr (u "A1"));
             (u "specimen_name", VStr (u "Unknown Specimen")) ])
    (u "study_id")
  = Ok (VStr (u "A1")).
Proof.
  apply (process_subject23_fields
           {| report := Text (lit "r");
              accession_number := VStr (u "A1");
              count_reply := CallFailed;
              details_reply :=
                Stdout (qq "{'specimens': [{'comment': 'focal', 'num_cores': '1/2'}]}") |}
           [ VDict [ (u "comment", VStr (u "focal"));
                     (u "num_cores", VStr (u "1/2")) ] ]
           [ VDict [ (u "comment", VStr (u "focal"));
                     (u "num_cores", VStr (u "1/2"));
                     (u "study_id", VStr (u "A1"));
                     (u "specimen_name", VStr (u "Unknown Specimen")) ] ]
           eq_refl eq_refl 0
           (VDict [ (u "comment", VStr (u "focal"));
                    (u "num_cores", VStr (u "1/2")) ])
           (VDict [ (u "comment", VStr (u "focal"));
                    (u "num_cores", VStr (u "1/2"));
                    (u "study_id", VStr (u "A1"));
                    (u "specimen_name", VStr (u "Unknown Specimen")) ])
           eq_refl eq_refl).
Defined.

(** X6. The loop of lines 184-187 has no handler: extract_info23.py
    gets past a subject with extracted specimens only when every one of
    them is an object that has a comment which can be sliced (a string
    or a list; a tuple, which no decoded answer holds, would do too), and, when there is at least one, the specimen_names of the count
    answer is a value with a length. Otherwise the exception leaves
    [main] and no output is written. *)
Theorem process_subject23_needs :
  forall (s : subject) (l records : list value),
    Info23.extract_info_from_report (details_reply s) = Some l ->
    Info23.process_subject s = Ok records ->
    Forall (fun sp =>
              exists d c,
                sp = VDict d
                /\ dict_get d (u "comment") = Some c
                /\ ((exists x, c = VStr x) \/ (exists x, c = VList x)
                    \/ (exists x, c = VTuple x)))
      l
    /\ (l <> [] ->
        exists n,
          len (snd (Info23.get_number_of_specimens (count_reply s))) = Ok n).
Proof.
  intros s l records He H.
  destruct (process_subject23_inv s l records He H) as (_ & K & _).
  split.
  - apply Forall_forall. intros sp Hin.
    destruct (In_nth_error l sp Hin) as [ i Hi ].
    destruct (K i sp Hi) as (r & _ & Hr).
    destruct (finish_specimen_inv _ _ _ _ _ Hr)
      as (d & n & name & c & c' & -> & _ & _ & Hc & Hs & _).
    exists d, c. split; [ reflexivity | ]. split; [ exact Hc | ].
    destruct c; try discriminate Hs;
      [ left | right; left | right; right ]; eexists; reflexivity.
  - intros Hne. destruct l as [ | sp l ]; [ contradiction | ].
    destruct (K 0 sp eq_refl) as (r & _ & Hr).
    destruct (finish_specimen_inv _ _ _ _ _ Hr)
      as (d & n & name & c & c' & _ & Hn & _).
    exists n. exact Hn.
Qed.

Lemma process_subject23_needs_witness :
  Forall (fun sp =>
            exists d c,
              sp = VDict d
              /\ dict_get d (u "comment") = Some c
              /\ ((exists x, c = VStr x) \/ (exists x, c = VList x)
                  \/ (exists x, c = VTuple x)))
    [ VDict [ (u "comment", VStr (u "focal")) ] ].
Proof.
  apply (process_subject23_needs
           {| report := Text (lit "r");
              accession_number := VStr (u "A1");
              count_reply := CallFailed;
              details_reply := Stdout (qq "{'specimens': [{'comment': 'focal'}]}") |}
           [ VDict [ (u "comment", VStr (u "focal")) ] ]
           [ VDict [ (u "comment", VStr (u "focal"));
                     (u "study_id", VStr (u "A1"));
                     (u "specimen_name", VStr (u "Unknown Specimen")) ] ]
           eq_refl eq_refl).
Defined.

(** X7. Every record of the list that extract_info23.py writes, stub
    or extracted, carries as study_id the accession number of one of
    the rows of the input. *)
Theorem main23_study_ids :
  forall (batch : list subject) (records : list value) (r : value),
    Info23.main batch = Ok records ->
    In r records ->
    exists s, In s batch /\ getitem r (u "study_id") = Ok (accession_number s).
Proof.
  induction batch as [ | s batch IH ]; intros records r H Hr.
  - injection H as <-. contradiction.
  - cbn [Info23.main] in H.
    destruct (Info23.process_subject s) as [ specimens | ] eqn:Es;
      [ | discriminate H ].
    cbn [bind] in H.
    destruct (Info23.main batch) as [ others | ] eqn:Eo; [ | discriminate H ].
    cbn [bind] in H. injection H as <-.
    apply in_app_or in Hr. destruct Hr as [ Hr | Hr ].
    + exists s. split; [ left; reflexivity | ].
      destruct (Info23.extract_info_from_report (details_reply s)) as [ l | ] eqn:He.
      * destruct (In_nth_error specimens r Hr) as [ i Hi ].
        destruct (process_subject23_inv s l specimens He Es) as (_ & _ & Hrec).
        destruct (Hrec i r Hi) as (sp & _ & Hf).
        destruct (finish_specimen_inv _ _ _ _ _ Hf)
          as (d & n & name & c & c' & -> & _ & _ & _ & _ & ->).
        unfold getitem. rewrite !dict_get_set_other by discriminate.
        rewrite dict_get_set_same. reflexivity.
      * rewrite (stub23_only s He) in Es. injection Es as <-.
        destruct Hr as [ <- | [] ]. reflexivity.
    + destruct (IH others r eq_refl Hr) as (s' & Hin & Hid).
      exists s'. split; [ right; exact Hin | exact Hid ].
Qed.

Lemma main23_study_ids_witness :
  exists s,
    In s [ {| report := Text (lit "r");
              accession_number := VStr (u "A1");
              count_reply := CallFailed;
              details_reply := CallFailed |} ]
    /\ getitem (Info23.stub (VStr (u "A1"))) (u "study_id")
       = Ok (accession_number s).
Proof.
  apply (main23_study_ids
           [ {| report := Text (lit "r");
                accession_number := VStr (u "A1");
                count_reply := CallFailed;
                details_reply := CallFailed |} ]
           [ Info23.stub (VStr (u "A1")) ]).
  - vm_compute. reflexivity.
  - left. reflexivity.
Defined.

(* ------------------------------------------------------------------ *)
(** * The stand-in model of new_extract_info3.py *)

Lemma contains_app_middle :
  forall p a s b : text,
    contains p s = true -> contains p (a ++ s ++ b) = true.
Proof.
  intros p a s b H. apply contains_spec in H. destruct H as (x & y & ->).
  apply contains_spec. exists (a ++ x), (y ++ b).
  repeat rewrite <- app_assoc. reflexivity.
Qed.

Lemma lower_app : forall a b : text, lower (a ++ b) = lower a ++ lower b.
Proof.
  intros a b. apply map_app.
Qed.

Lemma contains_after :
  forall p a s : text, contains p s = true -> contains p (a ++ s) = true.
Proof.
  intros p a s H. rewrite <- (app_nil_r s).
  apply contains_app_middle. exact H.
Qed.

Lemma contains_before :
  forall p s b : text, contains p s = true -> contains p (s ++ b) = true.
Proof.
  intros p s b H. apply (contains_app_middle p [] s b H).
Qed.

(** Each of the five prompts holds the text of the segment. *)
Lemma prompts_hold_segment :
  forall (p seg : text),
    contains p (lower seg) = true ->
    contains p (lower (gleason_prompt seg)) = true
    /\ contains p (lower (cores_prompt seg)) = true
    /\ contains p (lower (percent_prompt seg)) = true
    /\ contains p (lower (Info3.features_prompt seg)) = true
    /\ contains p (lower (comment_prompt seg)) = true.
Proof.
  intros p seg H.
  unfold gleason_prompt, cores_prompt, percent_prompt, Info3.features_prompt,
    comment_prompt.
  repeat split;
    rewrite !lower_app;
    do 4 apply contains_after;
    apply contains_before; exact H.
Qed.

(** X8. The stand-in model of new_extract_info3.py tests the whole
    prompt, report included, for the word gleason first. So for a
    segment of the report that mentions gleason in any mix of letter
    cases, all five questions get the answer to the Gleason question:
    num_cores, percent_specimen, features and comment each hold the
    object with gleason_score 7 and gleason_pattern 4+3. *)
Theorem mock_gleason_everywhere :
  forall seg : text,
    contains (lit "gleason") (lower seg) = true ->
    let answer := VDict [ (u "gleason_score", VStr (u "7"));
                          (u "gleason_pattern", VStr (u "4+3")) ] in
    Info3.process_report seg
    = Ok (structured_data answer answer answer answer answer).
Proof.
  intros seg H answer.
  destruct (prompts_hold_segment (lit "gleason") seg H)
    as (H1 & H2 & H3 & H4 & H5).
  unfold Info3.process_report, Info3.extract_gleason, Info3.extract_cores,
    Info3.extract_percent, Info3.extract_features, Info3.extract_comment,
    Info3.call_mistral, Info3.mock_mistral_processing.
  rewrite H1, H2, H3, H4, H5.
  replace (json_loads
             (json_dumps (VDict [ (u "gleason_score", VStr (u "7"));
                                  (u "gleason_pattern", VStr (u "4+3")) ])))
    with (Ok answer) by (vm_compute; reflexivity).
  reflexivity.
Qed.

Lemma mock_gleason_everywhere_witness :
  getitem
    (structured_data
       (VDict [ (u "gleason_score", VStr (u "7"));
                (u "gleason_pattern", VStr (u "4+3")) ])
       (VDict [ (u "gleason_score", VStr (u "7"));
                (u "gleason_pattern", VStr (u "4+3")) ])
       (VDict [ (u "gleason_score", VStr (u "7"));
                (u "gleason_pattern", VStr (u "4+3")) ])
       (VDict [ (u "gleason_score", VStr (u "7"));
                (u "gleason_pattern", VStr (u "4+3")) ])
       (VDict [ (u "gleason_score", VStr (u "7"));
                (u "gleason_pattern", VStr (u "4+3")) ]))
    (u "comment")
  = do v <- Info3.process_report (lit "GLEASON GRADE 3+3"); getitem v (u "comment").
Proof.
  rewrite (mock_gleason_everywhere (lit "GLEASON GRADE 3+3")).
  - reflexivity.
  - vm_compute. reflexivity.
Defined.

(* ------------------------------------------------------------------ *)
(** * new_extract_info2.py: no partial output *)

Lemma ask_ok :
  forall (call : text -> result text) (prompt : text) (v : value),
    Info2.ask call prompt = Ok v ->
    exists answer, call prompt = Ok answer /\ json_loads answer = Ok v.
Proof.
  intros call prompt v H. unfold Info2.ask in H.
  destruct (call prompt) as [ answer | ]; [ | discriminate H ].
  exists answer. split; [ reflexivity | exact H ].
Qed.

(** X9. In new_extract_info2.py no call of the model and no decoding is
    guarded: the list of entries comes out only if, for every row and
    every segment of its report, each of the five prompts was answered
    and each answer decoded. One failed call or one answer that is not
    JSON ends the run before the output file is opened. *)
Theorem process_rows2_needs_every_answer :
  forall (call : text -> result text) (rows : list csv_row)
         (entries : list value),
    Info2.process_rows call rows = Ok entries ->
    forall (row : csv_row) (seg : text),
      In row rows ->
      In seg (split TWO_SPACES (row_report row)) ->
      Forall (fun prompt =>
                exists answer v,
                  call prompt = Ok answer /\ json_loads answer = Ok v)
        [ gleason_prompt seg; cores_prompt seg; percent_prompt seg;
          Info2.features_prompt seg; comment_prompt seg ].
Proof.
  intros call rows entries H row seg Hrow Hseg.
  unfold Info2.process_rows in H.
  destruct (for_each_In _ _ _ _ _ row H Hrow) as [ d Hd ].
  unfold Info2.process_row in Hd.
  destruct (for_each (Info2.process_report call)
              (split TWO_SPACES (row_report row))) as [ es | ] eqn:Hes;
    [ | discriminate Hd ].
  destruct (for_each_In _ _ _ _ _ seg Hes Hseg) as [ v Hv ].
  unfold Info2.process_report, Info2.extract_gleason, Info2.extract_cores,
    Info2.extract_percent, Info2.extract_features, Info2.extract_comment in Hv.
  bind_inv Hv.
  repeat constructor;
    match goal with
    | E : Info2.ask call ?p = Ok ?x |- exists _ _, call ?p = _ /\ _ =>
        destruct (ask_ok call p x E) as (answer & Ha & Hb);
        exists answer, x; split; assumption
    end.
Qed.

Lemma process_rows2_needs_every_answer_witness :
  Forall (fun prompt =>
            exists answer v,
              (fun _ : text => Ok (lit "{}")) prompt = Ok answer
              /\ json_loads answer = Ok v)
    [ gleason_prompt (lit "a"); cores_prompt (lit "a"); percent_prompt (lit "a");
      Info2.features_prompt (lit "a"); comment_prompt (lit "a") ].
Proof.
  apply (process_rows2_needs_every_answer
           (fun _ : text => Ok (lit "{}"))
           [ {| row_accession_number := lit "A1"; row_report := lit "a  b" |} ]
           [ specimen_data (lit "A1")
               [ structured_data (VDict []) (VDict []) (VDict []) (VDict [])
                   (VDict []);
                 structured_data (VDict []) (VDict []) (VDict []) (VDict [])
                   (VDict []) ] ]
           eq_refl
           {| row_accession_number := lit "A1"; row_report := lit "a  b" |}
           (lit "a")).
  - left. reflexivity.
  - left. reflexivity.
Defined.

(* ------------------------------------------------------------------ *)
(** * Splitting loses nothing *)

Lemma skipn_startswith :
  forall p s : text,
    startswith p s = true -> s = p ++ skipn (List.length p) s.
Proof.
  intros p s H. apply startswith_spec in H. destruct H as [ r -> ].
  rewrite skipn_app_exact. reflexivity.
Qed.

Lemma split_from_skip :
  forall (sep s : text) (k : nat) (cur : text),
    k <= List.length s ->
    split_from sep s k cur = split_from sep (skipn k s) 0 cur.
Proof.
  induction s as [ | c s IH ]; intros k cur Hk.
  - destruct k; [ reflexivity | simpl in Hk; lia ].
  - destruct k as [ | k ]; [ reflexivity | ].
    cbn [split_from skipn]. apply IH. simpl in Hk. lia.
Qed.

Lemma join_cons :
  forall (sep p : text) (rest : list text),
    rest <> [] -> join sep (p :: rest) = p ++ sep ++ join sep rest.
Proof.
  intros sep p rest H. destruct rest; [ contradiction | reflexivity ].
Qed.

Lemma split_from_not_nil :
  forall (sep s : text) (k : nat) (cur : text), split_from sep s k cur <> [].
Proof.
  intros sep s k cur H.
  pose proof (split_from_nonempty sep s k cur) as L.
  rewrite H in L. simpl in L. lia.
Qed.

Lemma join_split_from :
  forall (sep : text) (n : nat) (s cur : text),
    sep <> [] ->
    List.length s <= n ->
    join sep (split_from sep s 0 cur) = rev cur ++ s.
Proof.
  intros sep n. induction n as [ | n IH ]; intros s cur Hsep Hn.
  - destruct s; [ | simpl in Hn; lia ].
    simpl. rewrite app_nil_r. reflexivity.
  - destruct s as [ | c s ].
    + simpl. rewrite app_nil_r. reflexivity.
    + cbn [split_from]. cbn [List.length] in Hn.
      destruct (startswith sep (c :: s)) eqn:E.
      * rewrite join_cons by apply split_from_not_nil.
        pose proof (skipn_startswith sep (c :: s) E) as Hs.
        destruct sep as [ | c0 sep ]; [ contradiction | ].
        cbn [List.length Nat.sub] in *. rewrite Nat.sub_0_r.
        cbn [skipn app] in Hs. injection Hs as <- Hs.
        assert (Hlen : List.length sep <= List.length s).
        { rewrite Hs, length_app. lia. }
        rewrite (split_from_skip (c :: sep) s (List.length sep) [] Hlen).
        rewrite IH; [ | discriminate | rewrite length_skipn; lia ].
        cbn [rev app]. rewrite <- Hs. reflexivity.
      * rewrite IH; [ | exact Hsep | lia ].
        cbn [rev]. rewrite <- app_assoc. reflexivity.
Qed.

(** X10. Splitting a report on two spaces loses nothing of it: the
    segments handed to [process_report], joined again by two spaces,
    are the report. *)
Theorem split_report_joins_back :
  forall report_text : text,
    join TWO_SPACES (split TWO_SPACES report_text) = report_text.
Proof.
  intros report_text. unfold split.
  apply (join_split_from TWO_SPACES (List.length report_text) report_text []).
  - discriminate.
  - apply Nat.le_refl.
Qed.

(* ------------------------------------------------------------------ *)
(** * Trimming *)

Lemma lstrip_before_solid :
  forall (s : text) (c : ascii) (t : text),
    isspace c = false -> lstrip (s ++ c :: t) = lstrip s ++ c :: t.
Proof.
  induction s as [ | x s IH ]; intros c t H; cbn [app lstrip].
  - rewrite H. reflexivity.
  - destruct (isspace x); [ apply IH; exact H | reflexivity ].
Qed.

Lemma rstrip_after_solid :
  forall (t : text) (c : ascii) (s : text),
    isspace c = false -> rstrip (t ++ c :: s) = t ++ c :: rstrip s.
Proof.
  intros t c s H. unfold rstrip.
  rewrite rev_app_distr. cbn [rev]. rewrite <- app_assoc. cbn [app].
  rewrite (lstrip_before_solid (rev s) c (rev t) H).
  rewrite rev_app_distr. cbn [rev]. rewrite rev_involutive, <- app_assoc.
  reflexivity.
Qed.

Lemma lstrip_length : forall s : text, List.length (lstrip s) <= List.length s.
Proof.
  induction s as [ | c s IH ]; cbn [lstrip List.length].
  - apply Nat.le_refl.
  - destruct (isspace c); cbn [List.length]; lia.
Qed.

Lemma lstrip_Forall :
  forall (P : ascii -> Prop) (s : text), Forall P s -> Forall P (lstrip s).
Proof.
  intros P s H. induction H as [ | c s Hc H IH ]; cbn [lstrip].
  - constructor.
  - destruct (isspace c); [ exact IH | constructor; assumption ].
Qed.

Lemma rstrip_Forall :
  forall (P : ascii -> Prop) (s : text), Forall P s -> Forall P (rstrip s).
Proof.
  intros P s H. unfold rstrip.
  apply Forall_rev, lstrip_Forall, Forall_rev. exact H.
Qed.

(** The two ends of a trimmed text are not white space. *)
Lemma lstrip_head :
  forall s : text,
    match lstrip s with
    | [] => True
    | c :: _ => isspace c = false
    end.
Proof.
  induction s as [ | c s IH ]; cbn [lstrip]; [ exact I | ].
  destruct (isspace c) eqn:E; [ exact IH | exact E ].
Qed.

Lemma lstrip_fixed :
  forall s : text,
    match s with
    | [] => True
    | c :: _ => isspace c = false
    end ->
    lstrip s = s.
Proof.
  intros [ | c s ] H; cbn [lstrip]; [ reflexivity | ].
  rewrite H. reflexivity.
Qed.

Lemma lstrip_idempotent : forall s : text, lstrip (lstrip s) = lstrip s.
Proof.
  intros s. apply lstrip_fixed, lstrip_head.
Qed.

Lemma rstrip_idempotent : forall s : text, rstrip (rstrip s) = rstrip s.
Proof.
  intros s. unfold rstrip. rewrite rev_involutive, lstrip_idempotent.
  reflexivity.
Qed.

Lemma rstrip_keeps_head :
  forall s : text,
    match s with
    | [] => True
    | c :: _ => isspace c = false
    end ->
    match rstrip s with
    | [] => True
    | c :: _ => isspace c = false
    end.
Proof.
  intros s H. destruct (rstrip_prefix s) as (b & E & _).
  destruct (rstrip s) as [ | c r ]; [ exact I | ].
  rewrite E in H. exact H.
Qed.

Lemma strip_idempotent : forall s : text, strip (strip s) = strip s.
Proof.
  intros s. unfold strip.
  rewrite (lstrip_fixed (rstrip (lstrip s)))
    by apply rstrip_keeps_head, lstrip_head.
  apply rstrip_idempotent.
Qed.

(** X11. What the response sanitizer returns is trimmed: it neither
    starts nor ends with white space, and trimming it again changes
    nothing. *)
Theorem clean_json_output_trimmed :
  forall output r : text,
    clean_json_output output = Ok r -> strip r = r.
Proof.
  intros output r H. unfold clean_json_output in H.
  destruct (startswith FENCE (strip output)).
  - destruct (splitlines (strip output)) as [ | first rest ];
      [ discriminate H | ].
    cbn [bind] in H. injection H as <-. apply strip_idempotent.
  - injection H as <-. apply strip_idempotent.
Qed.

Lemma clean_json_output_trimmed_witness :
  strip (qq "{'a': 1}") = qq "{'a': 1}".
Proof.
  apply (clean_json_output_trimmed
           (lit "```json" ++ NL ++ qq "  {'a': 1}  " ++ NL ++ lit "```" ++ NL)).
  vm_compute. reflexivity.
Defined.

(* ------------------------------------------------------------------ *)
(** * The repair, when balancing is enough *)

Lemma decodable_lex :
  forall (s : text) (v : value),
    json_loads s = Ok v -> exists q, lex LOut s = Some q.
Proof.
  intros s v H.
  destruct (json_loads_shape s v H)
    as (w0 & a & w1 & -> & Hw0 & Hw1 & (_ & _ & q & Hq & Hq') & _).
  exists q.
  rewrite lex_app, (lex_ws w0 LOut Hw0 (or_introl eq_refl)).
  rewrite lex_app, Hq. apply (lex_ws w1 q Hw1 Hq').
Qed.

(** X12. Whenever the trimmed text, with the closers that the bracket
    step appends, is valid JSON, the comma step leaves it as it is and
    [fix_malformed_json] returns the value it decodes to. *)
Theorem fix_after_balancing :
  forall (json_str : text) (v : value),
    json_loads (Info16.balance_brackets (strip json_str)) = Ok v ->
    Info16.fix_malformed_json json_str = Ok v.
Proof.
  intros json_str v H. unfold Info16.fix_malformed_json.
  destruct (decodable_lex _ v H) as [ q Hq ].
  rewrite (insert_commas_id _ q Hq), H. reflexivity.
Qed.

Lemma fix_after_balancing_witness :
  Info16.fix_malformed_json (qq " [{'a': 'b', 'c': [1, 2]} ")
  = Ok (VList [VDict [(u "a", VStr (u "b")); (u "c", VList [VInt 1; VInt 2])]]).
Proof.
  apply (fix_after_balancing (qq " [{'a': 'b', 'c': [1, 2]} ")).
  vm_compute. reflexivity.
Defined.

Lemma rstrip_fixed_end :
  forall s : text,
    rstrip s = s ->
    s = [] \/ exists a0 c, s = a0 ++ [c] /\ isspace c = false.
Proof.
  intros s H. destruct s as [ | x s ]; [ left; reflexivity | right ].
  destruct (exists_last (l := x :: s)) as (a0 & c & E); [ discriminate | ].
  exists a0, c. split; [ exact E | ].
  destruct (isspace c) eqn:Ec; [ exfalso | reflexivity ].
  rewrite E in H. unfold rstrip in H.
  rewrite rev_app_distr in H. cbn [rev app lstrip] in H. rewrite Ec in H.
  apply (f_equal (@List.length ascii)) in H.
  rewrite length_rev, length_app in H. cbn [List.length] in H.
  pose proof (lstrip_length (rev a0)) as L. rewrite length_rev in L. lia.
Qed.

Lemma strip_of_rstripped :
  forall s : text, rstrip s = s -> strip s = lstrip s.
Proof.
  intros s H. unfold strip.
  destruct (rstrip_fixed_end s H) as [ -> | (a0 & c & -> & Hc) ];
    [ reflexivity | ].
  rewrite (lstrip_before_solid a0 c [] Hc).
  change (lstrip a0 ++ [c]) with (lstrip a0 ++ c :: []).
  rewrite (rstrip_after_solid (lstrip a0) c [] Hc). reflexivity.
Qed.

Lemma count_lstrip :
  forall (c0 : ascii) (s : text),
    (c0 = "{" \/ c0 = "}" \/ c0 = "[" \/ c0 = "]")%char ->
    count [c0] (lstrip s) = count [c0] s.
Proof.
  intros c0 s Hc. destruct (lstrip_suffix s) as (w & E & Hw).
  rewrite E at 2.
  rewrite <- (app_nil_r (lstrip s)) at 2.
  rewrite (count_bracket_trimmed c0 w (lstrip s) [] Hc Hw (Forall_nil _)).
  reflexivity.
Qed.

(** X13. A valid document that lost its last closing brace, its last
    closing square bracket, or the pair of a brace and a bracket that
    ended it, and that does not end in white space, is repaired: when
    the braces and the square brackets of the whole document are equal
    in number, [fix_malformed_json] returns the value of the whole
    document. *)
Theorem lost_closers_are_repaired :
  forall (json_str closers : text) (v : value),
    closers = lit "}" \/ closers = lit "]" \/ closers = lit "}]" ->
    rstrip json_str = json_str ->
    json_loads (json_str ++ closers) = Ok v ->
    count (lit "{") (json_str ++ closers) = count (lit "}") (json_str ++ closers) ->
    count (lit "[") (json_str ++ closers) = count (lit "]") (json_str ++ closers) ->
    Info16.fix_malformed_json json_str = Ok v.
Proof.
  intros s closers v Hc Hr H Hb Hk. apply fix_after_balancing.
  rewrite (strip_of_rstripped s Hr).
  assert (Hd : json_loads (lstrip s ++ closers) = Ok v).
  { destruct (json_loads_shape _ v H)
      as (w0 & a & w1 & E & Hw0 & Hw1 & Ha & Hv).
    assert (Hc0 : exists c t, closers = c :: t /\ isspace c = false).
    { destruct Hc as [ -> | [ -> | -> ] ]; eexists; eexists;
        (split; [ reflexivity | reflexivity ]). }
    destruct Hc0 as (c & t & Ec & Hsp).
    assert (L : lstrip (s ++ closers) = lstrip s ++ closers).
    { rewrite Ec. apply lstrip_before_solid. exact Hsp. }
    assert (Hlast : exists t0 z, closers = t0 ++ [z] /\ is_json_ws z = false).
    { destruct Hc as [ -> | [ -> | -> ] ];
        [ exists [], "}"%char | exists [], "]"%char | exists ["}"%char], "]"%char ];
        (split; reflexivity). }
    destruct Hlast as (t0 & z & Ez & Hz).
    assert (W : w1 = []).
    { destruct w1 as [ | a0 w1 ]; [ reflexivity | exfalso ].
      destruct (exists_last (l := a0 :: w1)) as (w1' & x & Ex);
        [ discriminate | ].
      rewrite Ex in E, Hw1. rewrite Ez in E.
      rewrite !app_assoc in E. apply app_inj_tail in E. destruct E as [ _ <- ].
      apply Forall_app in Hw1. destruct Hw1 as [ _ Hw1 ].
      inversion Hw1 as [ | ? ? Hx _ ]. congruence. }
    subst w1. rewrite app_nil_r in E.
    rewrite <- L, E.
    rewrite (lstrip_spaces w0 a (Forall_impl _ json_ws_is_space Hw0)).
    destruct Ha as ((c1 & a1 & -> & Hc1) & _).
    rewrite (lstrip_solid c1 a1 Hc1). exact Hv. }
  change (lit "{") with ["{"%char] in Hb. change (lit "}") with ["}"%char] in Hb.
  change (lit "[") with ["["%char] in Hk. change (lit "]") with ["]"%char] in Hk.
  rewrite !count_single_app in Hb, Hk.
  rewrite <- (count_lstrip "{"%char s (or_introl eq_refl)) in Hb.
  rewrite <- (count_lstrip "}"%char s (or_intror (or_introl eq_refl))) in Hb.
  rewrite <- (count_lstrip "["%char s (or_intror (or_intror (or_introl eq_refl))))
    in Hk.
  rewrite <- (count_lstrip "]"%char s (or_intror (or_intror (or_intror eq_refl))))
    in Hk.
  remember (count ["{"%char] closers) as k1 eqn:K1.
  remember (count ["}"%char] closers) as k2 eqn:K2.
  remember (count ["["%char] closers) as k3 eqn:K3.
  remember (count ["]"%char] closers) as k4 eqn:K4.
  set (a := lstrip s) in *.
  assert (Z1 : count (lit "[") (a ++ lit "}") = count ["["%char] a).
  { change (lit "[") with ["["%char]. rewrite count_single_app.
    change (count ["["%char] (lit "}")) with 0. apply Nat.add_0_r. }
  assert (Z2 : count (lit "]") (a ++ lit "}") = count ["]"%char] a).
  { change (lit "]") with ["]"%char]. rewrite count_single_app.
    change (count ["]"%char] (lit "}")) with 0. apply Nat.add_0_r. }
  unfold Info16.balance_brackets.
  change (count (lit "}") a) with (count ["}"%char] a).
  change (count (lit "{") a) with (count ["{"%char] a).
  destruct Hc as [ -> | [ -> | -> ] ];
    vm_compute in K1, K2, K3, K4; subst k1 k2 k3 k4.
  - replace (count ["}"%char] a <? count ["{"%char] a) with true
      by (symmetry; apply Nat.ltb_lt; lia).
    rewrite Z1, Z2.
    replace (count ["]"%char] a <? count ["["%char] a)
      with false by (symmetry; apply Nat.ltb_ge; lia).
    exact Hd.
  - replace (count ["}"%char] a <? count ["{"%char] a) with false
      by (symmetry; apply Nat.ltb_ge; lia).
    change (count (lit "]") a) with (count ["]"%char] a).
    change (count (lit "[") a) with (count ["["%char] a).
    replace (count ["]"%char] a <? count ["["%char] a) with true
      by (symmetry; apply Nat.ltb_lt; lia).
    exact Hd.
  - replace (count ["}"%char] a <? count ["{"%char] a) with true
      by (symmetry; apply Nat.ltb_lt; lia).
    rewrite Z1, Z2.
    replace (count ["]"%char] a <? count ["["%char] a)
      with true by (symmetry; apply Nat.ltb_lt; lia).
    rewrite <- app_assoc. exact Hd.
Qed.

Lemma lost_closers_are_repaired_witness :
  Info16.fix_malformed_json (qq "[{'gleason_score': '7'")
  = Ok (VList [VDict [(u "gleason_score", VStr (u "7"))]]).
Proof.
  apply (lost_closers_are_repaired (qq "[{'gleason_score': '7'") (lit "}]")).
  - right. right. reflexivity.
  - vm_compute. reflexivity.
  - vm_compute. reflexivity.
  - vm_compute. reflexivity.
  - vm_compute. reflexivity.
Defined.

(* ------------------------------------------------------------------ *)
(** * extract_info16.py: the span between the braces *)

Lemma star_any_none :
  forall (q : text) (i : nat) (c : caps),
    Forall (fun x => is_char 125 x = false) q ->
    star any_char (match_here [One (is_char 125)]) q i c = None.
Proof.
  intros q i c H. revert i. induction H as [ | x q Hx H IH ]; intros i.
  - reflexivity.
  - cbn [star any_char]. rewrite IH. cbn [match_here]. rewrite Hx. reflexivity.
Qed.

(** The greedy star gives characters back up to the last closing
    brace. *)
Lemma star_any_last :
  forall (m q : text) (i : nat) (c : caps),
    Forall (fun x => is_char 125 x = false) q ->
    star any_char (match_here [One (is_char 125)]) (m ++ "}"%char :: q) i c
    = Some (S (i + List.length m), c).
Proof.
  induction m as [ | x m IH ]; intros q i c H; cbn [app star any_char].
  - rewrite (star_any_none q (S i) c H). cbn [match_here List.length].
    change (is_char 125 "}"%char) with true. cbv beta iota.
    rewrite Nat.add_0_r. reflexivity.
  - rewrite (IH q (S i) c H). cbn [List.length].
    rewrite Nat.add_succ_r. reflexivity.
Qed.

Lemma match_braces :
  forall (m q : text),
    Forall (fun x => is_char 125 x = false) q ->
    match_here braces_rx ("{"%char :: m ++ "}"%char :: q) 0 no_caps
    = Some (S (S (List.length m)), no_caps).
Proof.
  intros m q H. exact (star_any_last m q 1 no_caps H).
Qed.

Lemma match_braces_head :
  forall (x : ascii) (t : text),
    is_char 123 x = false -> match_here braces_rx (x :: t) 0 no_caps = None.
Proof.
  intros x t H. unfold braces_rx. cbn [match_here]. rewrite H. reflexivity.
Qed.

Lemma firstn_exact :
  forall (A : Type) (a b : list A), firstn (List.length a) (a ++ b) = a.
Proof.
  intros A a b. rewrite firstn_app, Nat.sub_diag, firstn_all. cbn [firstn].
  apply app_nil_r.
Qed.

Lemma search_braces :
  forall p m q : text,
    Forall (fun x => is_char 123 x = false) p ->
    Forall (fun x => is_char 125 x = false) q ->
    re_search braces_rx (p ++ "{"%char :: m ++ "}"%char :: q)
    = Some ("{"%char :: m ++ ["}"%char]).
Proof.
  intros p m q Hp Hq. induction Hp as [ | x p Hx Hp IH ]; cbn [app].
  - cbn [re_search]. rewrite (match_braces m q Hq).
    f_equal.
    change ("{"%char :: m ++ "}"%char :: q)
      with (("{"%char :: m) ++ ["}"%char] ++ q).
    rewrite app_assoc.
    replace (S (S (List.length m)))
      with (List.length (("{"%char :: m) ++ ["}"%char]))
      by (rewrite length_app; cbn [List.length]; lia).
    apply firstn_exact.
  - cbn [re_search]. rewrite (match_braces_head x _ Hx). exact IH.
Qed.

Lemma strip_around :
  forall (p : text) (c : ascii) (m : text) (d : ascii) (q : text),
    isspace c = false ->
    isspace d = false ->
    strip (p ++ c :: m ++ d :: q) = lstrip p ++ c :: m ++ d :: rstrip q.
Proof.
  intros p c m d q Hc Hd. unfold strip.
  rewrite (lstrip_before_solid p c (m ++ d :: q) Hc).
  change (lstrip p ++ c :: m ++ d :: q) with (lstrip p ++ (c :: m) ++ d :: q).
  rewrite app_assoc, (rstrip_after_solid _ d q Hd), <- app_assoc.
  reflexivity.
Qed.

Lemma strip_around_text :
  forall (p a q : text) (c : ascii) (a1 a0 : text) (y : ascii),
    a = c :: a1 ->
    a = a0 ++ [y] ->
    isspace c = false ->
    isspace y = false ->
    strip (p ++ a ++ q) = lstrip p ++ a ++ rstrip q.
Proof.
  intros p a q c a1 a0 y H H0 Hc Hy. unfold strip.
  assert (L : lstrip (p ++ a ++ q) = lstrip p ++ a ++ q).
  { rewrite H. cbn [app]. apply lstrip_before_solid. exact Hc. }
  rewrite L, H0. rewrite <- !app_assoc. cbn [app].
  rewrite app_assoc, (rstrip_after_solid _ y q Hy), <- app_assoc.
  reflexivity.
Qed.

(** X14. In extract_info16.py the model may write around its answer:
    what comes before the first opening brace and after the last
    closing brace plays no part. The extraction from a reply is the
    extraction from the text between these two braces. *)
Theorem extraction_ignores_text_around :
  forall p m q : text,
    Forall (fun x => is_char 123 x = false) p ->
    Forall (fun x => is_char 125 x = false) q ->
    Info16.extract_info_from_report (Stdout (p ++ lit "{" ++ m ++ lit "}" ++ q))
    = Info16.extract_info_from_report (Stdout (lit "{" ++ m ++ lit "}")).
Proof.
  intros p m q Hp Hq. unfold Info16.extract_info_from_report.
  change (p ++ lit "{" ++ m ++ lit "}" ++ q)
    with (p ++ "{"%char :: m ++ "}"%char :: q).
  change (lit "{" ++ m ++ lit "}") with ([] ++ "{"%char :: m ++ "}"%char :: []).
  rewrite !strip_around by reflexivity.
  rewrite (search_braces (lstrip p) m (rstrip q)
             (lstrip_Forall _ p Hp) (rstrip_Forall _ q Hq)).
  rewrite (search_braces (lstrip []) m (rstrip []) (Forall_nil _) (Forall_nil _)).
  reflexivity.
Qed.

Lemma extraction_ignores_text_around_witness :
  Info16.extract_info_from_report
    (Stdout (lit "Here is the JSON: " ++ lit "{" ++ qq "'specimens': [1]"
             ++ lit "}" ++ lit " Hope this helps."))
  = Info16.extract_info_from_report
      (Stdout (lit "{" ++ qq "'specimens': [1]" ++ lit "}")).
Proof.
  apply (extraction_ignores_text_around (lit "Here is the JSON: ")
           (qq "'specimens': [1]") (lit " Hope this helps.")).
  - repeat constructor.
  - repeat constructor.
Defined.

(* ------------------------------------------------------------------ *)
(** * extract_info16.py: the number of specimens *)

Lemma star_digits :
  forall (d post : text) (i : nat) (c : caps),
    Forall (fun x => isdigit x = true) d ->
    match post with
    | [] => True
    | x :: _ => isdigit x = false
    end ->
    star isdigit (match_here []) (d ++ post) i c = Some (i + List.length d, c).
Proof.
  intros d post i c Hd Hpost. revert i.
  induction Hd as [ | x d Hx Hd IH ]; intros i; cbn [app List.length].
  - rewrite Nat.add_0_r. destruct post as [ | x post ]; [ reflexivity | ].
    cbn [star]. rewrite Hpost. reflexivity.
  - cbn [star]. rewrite Hx, IH, Nat.add_succ_r. reflexivity.
Qed.

Lemma match_digits :
  forall (x : ascii) (d post : text),
    isdigit x = true ->
    Forall (fun x => isdigit x = true) d ->
    match post with
    | [] => True
    | x :: _ => isdigit x = false
    end ->
    match_here digits_rx (x :: d ++ post) 0 no_caps
    = Some (S (List.length d), no_caps).
Proof.
  intros x d post Hx Hd Hpost.
  unfold digits_rx. cbn [match_here]. rewrite Hx.
  exact (star_digits d post 1 no_caps Hd Hpost).
Qed.

Lemma match_digits_head :
  forall (x : ascii) (t : text),
    isdigit x = false -> match_here digits_rx (x :: t) 0 no_caps = None.
Proof.
  intros x t H. unfold digits_rx. cbn [match_here]. rewrite H. reflexivity.
Qed.

Lemma search_digits :
  forall pre d post : text,
    Forall (fun x => isdigit x = false) pre ->
    d <> [] ->
    Forall (fun x => isdigit x = true) d ->
    match post with
    | [] => True
    | x :: _ => isdigit x = false
    end ->
    re_search digits_rx (pre ++ d ++ post) = Some d.
Proof.
  intros pre d post Hpre Hne Hd Hpost.
  induction Hpre as [ | x pre Hx Hpre IH ]; cbn [app].
  - destruct d as [ | x d ]; [ contradiction | ].
    inversion Hd as [ | ? ? Hx Hd' ]; subst.
    cbn [app re_search]. rewrite (match_digits x d post Hx Hd' Hpost).
    apply f_equal. exact (firstn_exact _ (x :: d) post).
  - cbn [re_search]. rewrite (match_digits_head x _ Hx). exact IH.
Qed.

Lemma search_digits_none :
  forall s : text,
    Forall (fun x => isdigit x = false) s -> re_search digits_rx s = None.
Proof.
  intros s H. induction H as [ | x s Hx H IH ].
  - reflexivity.
  - cbn [re_search]. rewrite (match_digits_head x _ Hx). exact IH.
Qed.

Lemma digit_not_space : forall c, isdigit c = true -> isspace c = false.
Proof.
  apply (char_excludes isdigit isspace). all_chars_check.
Qed.

Lemma digits_value_app :
  forall (d : text) (z : Z),
    (0 <= z)%Z ->
    (0 <= fold_left (fun acc c => acc * 10 + Z.of_N (code c - 48)) d z)%Z.
Proof.
  induction d as [ | c d IH ]; intros z Hz; cbn [fold_left].
  - exact Hz.
  - apply IH. lia.
Qed.

(** X15. The number of specimens of extract_info16.py is the value of
    the first run of digits of the answer, whatever stands around it:
    a sign, a decimal part and any text are ignored. This holds for a
    run of up to 4300 digits, the most that int() converts; a longer
    run makes int() raise ValueError, which the function catches, and
    the number is 0. It is 0 as well when the answer holds no digit or
    the call failed, and it is never negative. *)
Theorem number_of_specimens_first_digits :
  forall pre d post : text,
    Forall (fun x => isdigit x = false) pre ->
    d <> [] ->
    Forall (fun x => isdigit x = true) d ->
    match post with
    | [] => True
    | x :: _ => isdigit x = false
    end ->
    (List.length d <= 4300 ->
     Info16.get_number_of_specimens (Stdout (pre ++ d ++ post)) = digits_value d)
    /\ (4300 < List.length d ->
        Info16.get_number_of_specimens (Stdout (pre ++ d ++ post)) = 0%Z)
    /\ Info16.get_number_of_specimens (Stdout pre) = 0%Z
    /\ forall r : reply, (0 <= Info16.get_number_of_specimens r)%Z.
Proof.
  intros pre d post Hpre Hne Hd Hpost.
  assert (G : Info16.get_number_of_specimens (Stdout (pre ++ d ++ post))
              = if Info16.INT_MAX_STR_DIGITS <? List.length d then 0%Z
                else digits_value d).
  { unfold Info16.get_number_of_specimens.
    destruct (exists_last Hne) as (d0 & y & Ey).
    destruct d as [ | x d1 ]; [ contradiction | ].
    assert (Hx : isspace x = false).
    { apply digit_not_space. inversion Hd; assumption. }
    assert (Hy : isspace y = false).
    { apply digit_not_space. rewrite Ey in Hd.
      apply Forall_app in Hd. destruct Hd as [ _ Hd ].
      inversion Hd; assumption. }
    assert (E : strip (pre ++ (x :: d1) ++ post)
                = lstrip pre ++ (x :: d1) ++ rstrip post).
    { apply (strip_around_text pre (x :: d1) post x d1 d0 y eq_refl Ey Hx Hy). }
    rewrite E.
    rewrite (search_digits (lstrip pre) (x :: d1) (rstrip post)
               (lstrip_Forall _ pre Hpre) Hne Hd).
    + reflexivity.
    + destruct (rstrip_prefix post) as (b & Eb & _).
      destruct (rstrip post) as [ | z t ]; [ exact I | ].
      rewrite Eb in Hpost. exact Hpost. }
  unfold Info16.INT_MAX_STR_DIGITS in G.
  split; [ | split; [ | split ] ].
  - intros Hlen. rewrite G.
    destruct (Nat.ltb_spec 4300 (List.length d)) as [ L | L ]; [ lia | reflexivity ].
  - intros Hlen. rewrite G.
    destruct (Nat.ltb_spec 4300 (List.length d)) as [ L | L ]; [ reflexivity | lia ].
  - unfold Info16.get_number_of_specimens.
    rewrite (search_digits_none (strip pre)); [ reflexivity | ].
    unfold strip. apply rstrip_Forall, lstrip_Forall. exact Hpre.
  - intros r. unfold Info16.get_number_of_specimens.
    destruct r as [ | out ]; [ apply Z.le_refl | ].
    destruct (re_search digits_rx (strip out)) as [ t | ]; [ | apply Z.le_refl ].
    destruct (Info16.INT_MAX_STR_DIGITS <? List.length t); [ apply Z.le_refl | ].
    apply digits_value_app. apply Z.le_refl.
Qed.

Lemma number_of_specimens_first_digits_witness :
  Info16.get_number_of_specimens (Stdout (lit "about -" ++ lit "12" ++ lit ".5 cores"))
  = 12%Z
  /\ Info16.get_number_of_specimens
       (Stdout (lit "n=" ++ repeat "7"%char 4301 ++ lit " specimens"))
     = 0%Z.
Proof.
  split.
  - apply (proj1 (number_of_specimens_first_digits (lit "about -") (lit "12")
                    (lit ".5 cores")
                    ltac:(repeat constructor) ltac:(discriminate)
                    ltac:(repeat constructor) eq_refl)).
    apply Nat.leb_le. vm_compute. reflexivity.
  - apply (proj1 (proj2 (number_of_specimens_first_digits (lit "n=")
                           (repeat "7"%char 4301) (lit " specimens")
                           ltac:(repeat constructor) ltac:(discriminate)
                           ltac:(apply Forall_forall; intros x Hx;
                                 apply repeat_spec in Hx; rewrite Hx; reflexivity)
                           eq_refl))).
    rewrite repeat_length. apply Nat.ltb_lt. vm_compute. reflexivity.
Defined.

(* ------------------------------------------------------------------ *)
(** * extract_info16.py: the override on a specimen that is no object *)

Lemma override_benign_type_error :
  forall (report_text : text) (specimen : value),
    contains (lit "benign") (lower report_text) = true ->
    (forall d, specimen <> VDict d) ->
    Info16.override_benign report_text specimen = Raise TypeError.
Proof.
  intros report_text specimen H Hd. unfold Info16.override_benign. rewrite H.
  destruct specimen; try reflexivity. elim (Hd d). reflexivity.
Qed.

Lemma override_benign_outcome :
  forall (report_text : text) (specimen : value),
    (exists r, Info16.override_benign report_text specimen = Ok r)
    \/ Info16.override_benign report_text specimen = Raise TypeError.
Proof.
  intros report_text specimen. unfold Info16.override_benign.
  destruct (contains (lit "benign") (lower report_text));
    [ | left; eexists; reflexivity ].
  destruct specimen; try (right; reflexivity).
  left. cbn [setitem bind]. eexists. reflexivity.
Qed.

Lemma for_each_raise :
  forall (A B : Type) (f : A -> result B) (e : exn) (l : list A) (a : A),
    (forall x, (exists y, f x = Ok y) \/ f x = Raise e) ->
    In a l ->
    f a = Raise e ->
    for_each f l = Raise e.
Proof.
  intros A B f e l a Hf. induction l as [ | x l IH ]; intros Ha Hr.
  - contradiction.
  - cbn [for_each]. destruct (Hf x) as [ [ y Hy ] | Hx ].
    + rewrite Hy. cbn [bind].
      destruct Ha as [ -> | Ha ]; [ congruence | ].
      rewrite (IH Ha Hr). reflexivity.
    + rewrite Hx. reflexivity.
Qed.

(** X16. The override of lines 179-183 assigns into each specimen
    without looking at what it is. Under a report, a string, that
    mentions benign,
    a subject of extract_info16.py gets its records exactly when every
    extracted specimen is an object; one specimen that is a string, a
    number, a list or null ends the run with [TypeError], outside any
    handler. *)
Theorem benign_override_needs_objects :
  forall (line_number : nat) (s : subject) (report_text : text) (l : list value),
    report s = Text report_text ->
    contains (lit "benign") (lower report_text) = true ->
    Info16.extract_info_from_report (details_reply s) = Some l ->
    (Forall (fun sp => exists d, sp = VDict d) l ->
     exists records, Info16.process_subject line_number s = Ok records)
    /\ (Exists (fun sp => forall d, sp <> VDict d) l ->
        Info16.process_subject line_number s = Raise TypeError).
Proof.
  intros line_number s report_text l Et Hb He. unfold Info16.process_subject.
  rewrite He, Et. cbn [Info16.override].
  split.
  - intros H. apply for_each_total. intros sp Hsp.
    rewrite Forall_forall in H. destruct (H sp Hsp) as [ d -> ].
    apply override_benign_total.
  - intros H. apply Exists_exists in H. destruct H as (sp & Hsp & Hd).
    apply (for_each_raise _ _ _ TypeError l sp).
    + apply override_benign_outcome.
    + exact Hsp.
    + apply override_benign_type_error; assumption.
Qed.

Lemma benign_override_needs_objects_witness :
  Info16.process_subject 1
    {| report := Text (lit "Benign prostatic tissue");
       accession_number := VStr (u "A1");
       count_reply := Stdout (lit "1");
       details_reply := Stdout (qq "{'specimens': ['none']}") |}
  = Raise TypeError.
Proof.
  apply (benign_override_needs_objects 1
           {| report := Text (lit "Benign prostatic tissue");
              accession_number := VStr (u "A1");
              count_reply := Stdout (lit "1");
              details_reply := Stdout (qq "{'specimens': ['none']}") |}
           (lit "Benign prostatic tissue") [VStr (u "none")]).
  - reflexivity.
  - vm_compute. reflexivity.
  - vm_compute. reflexivity.
  - left. discriminate.
Defined.

(* ------------------------------------------------------------------ *)
(** * extract_info16.py: the names of the columns *)

Lemma lit_injective : forall a b : string, lit a = lit b -> a = b.
Proof.
  intros a b H. unfold lit in H.
  rewrite <- (string_of_list_ascii_of_string a),
          <- (string_of_list_ascii_of_string b), H.
  reflexivity.
Qed.

Lemma str_of_nat_injective :
  forall n m : nat, str_of_nat n = str_of_nat m -> n = m.
Proof.
  intros n m H. unfold str_of_nat in H. apply lit_injective in H.
  assert (E : Some (Nat.to_uint n) = Some (Nat.to_uint m)).
  { rewrite <- (NilEmpty.usu (Nat.to_uint n)), <- (NilEmpty.usu (Nat.to_uint m)), H.
    reflexivity. }
  injection E as E.
  rewrite <- (Unsigned.of_to n), <- (Unsigned.of_to m), E. reflexivity.
Qed.

(** A text is cut in one way only at its first underscore. *)
Lemma underscore_split :
  forall a a' d d' : text,
    ~ In "_"%char a ->
    ~ In "_"%char a' ->
    a ++ "_"%char :: d = a' ++ "_"%char :: d' ->
    a = a' /\ d = d'.
Proof.
  induction a as [ | x a IH ]; intros a' d d' Ha Ha' H.
  - destruct a' as [ | x' a' ]; cbn [app] in H.
    + injection H as <-. split; reflexivity.
    + injection H as <- _. elim Ha'. left. reflexivity.
  - destruct a' as [ | x' a' ]; cbn [app] in H.
    + injection H as -> _. elim Ha. left. reflexivity.
    + injection H as <- H.
      destruct (IH a' d d') as [ -> -> ].
      * intros N. apply Ha. right. exact N.
      * intros N. apply Ha'. right. exact N.
      * exact H.
      * split; reflexivity.
Qed.

(** The eleven names of a block, before the number of the slot. *)
Lemma block_names :
  forall (i : nat) (col : text),
    In col (Info16.block_columns i) ->
    exists a,
      col = a ++ "_"%char :: str_of_nat (i + 1)
      /\ ~ In "_"%char a
      /\ In a (map lit [ "Specimen"; "GS"; "GP"; "#C"; "%Spec"; "HGPIN"; "ASAP";
                         "ATYP"; "INF"; "ADC"; "Comment" ]%string).
Proof.
  intros i col H. unfold Info16.block_columns in H. cbn [map] in H.
  repeat (destruct H as [ <- | H ];
          [ match goal with
            | |- exists a, lit ?n ++ _ = _ /\ _ =>
                exists (removelast (lit n))
            end;
            split; [ reflexivity | ];
            split; [ cbn; intuition discriminate | cbn; tauto ]
          | ]).
  contradiction.
Qed.

Lemma block_columns_NoDup :
  forall i : nat, NoDup (Info16.block_columns i).
Proof.
  intros i. unfold Info16.block_columns.
  apply NoDup_map_NoDup_ForallPairs.
  - intros x y _ _ H. apply app_inv_tail in H. apply lit_injective. exact H.
  - repeat (constructor; [ cbn; intuition discriminate | ]). constructor.
Qed.

Lemma in_columns :
  forall (m : nat) (col : text),
    In col (flat_map Info16.block_columns (seq 0 m)) ->
    exists i, i < m /\ In col (Info16.block_columns i).
Proof.
  intros m col H. apply in_flat_map in H. destruct H as (i & Hi & H).
  apply in_seq in Hi. exists i. split; [ lia | exact H ].
Qed.

Lemma blocks_NoDup :
  forall m : nat, NoDup (flat_map Info16.block_columns (seq 0 m)).
Proof.
  induction m as [ | m IH ]; [ constructor | ].
  rewrite seq_S, flat_map_app. cbn [flat_map Nat.add]. rewrite app_nil_r.
  apply NoDup_app; [ exact IH | apply block_columns_NoDup | ].
  intros col H1 H2.
  destruct (in_columns m col H1) as (i & Hi & H1').
  destruct (block_names i col H1') as (a & E & Ha & _).
  destruct (block_names m col H2) as (a' & E' & Ha' & _).
  rewrite E in E'.
  destruct (underscore_split a a' _ _ Ha Ha' E') as [ _ N ].
  apply str_of_nat_injective in N. lia.
Qed.

(** X17. The names of the columns of the table of extract_info16.py
    are pairwise distinct, whatever the number of slots: a cell of the
    output is addressed by its column name alone. *)
Theorem columns_NoDup :
  forall max_specimens : nat, NoDup (Info16.columns max_specimens).
Proof.
  intros m. unfold Info16.columns. constructor; [ | apply blocks_NoDup ].
  intros H. destruct (in_columns m _ H) as (i & _ & H').
  destruct (block_names i _ H') as (a & E & _).
  assert (N : In "_"%char (lit "StudyID")).
  { rewrite E. apply in_or_app. right. left. reflexivity. }
  cbn in N. intuition discriminate.
Qed.

(* ------------------------------------------------------------------ *)
(** * extract_info16.py: a run without the backend *)

(** The records and the rows of a batch for which every extraction
    fails, from the line number of its first row on. *)
Lemma degraded_rows :
  forall (batch : list subject) (line_number : nat),
    Forall (fun s => exists report_text, report s = Text report_text) batch ->
    Forall (fun s => Info16.extract_info_from_report (details_reply s) = None)
      batch ->
    exists data rows,
      Info16.process_subjects line_number batch = Ok data
      /\ List.length data = List.length batch
      /\ Forall (fun report_data => List.length report_data = 1) data
      /\ for_each (Info16.flatten_row 1) data = Ok rows
      /\ List.length rows = List.length batch
      /\ forall (i : nat) (s : subject),
           nth_error batch i = Some s ->
           exists report_text,
             report s = Text report_text
             /\ nth_error rows i
                = Some (stub_study_id (accession_number s) (line_number + i)
                          :: degraded_cells16
                               (contains (lit "benign") (lower report_text))).
Proof.
  induction batch as [ | s batch IH ]; intros line_number Ht Hn.
  - exists [], []. repeat split; try constructor.
    intros i s H. destruct i; discriminate H.
  - inversion Ht as [ | ? ? (t & Et) Ht' ]; subst.
    inversion Hn as [ | ? ? Hs Hn' ]; subst.
    destruct (IH (S line_number) Ht' Hn')
      as (data & rows & Hd & Ld & Fd & Hr & Lr & Hrows).
    exists ([degraded_record16 (accession_number s) line_number
               (contains (lit "benign") (lower t))] :: data),
           ((stub_study_id (accession_number s) line_number
               :: degraded_cells16 (contains (lit "benign") (lower t))) :: rows).
    split; [ | split; [ | split; [ | split; [ | split ] ] ] ].
    + cbn [Info16.process_subjects]. unfold Info16.process_subject.
      rewrite Hs, Et. cbn [for_each Info16.override].
      rewrite override_of_stub. cbn [bind]. rewrite Hd. reflexivity.
    + cbn [List.length]. rewrite Ld. reflexivity.
    + constructor; [ reflexivity | exact Fd ].
    + cbn [for_each]. rewrite (degraded_row _ _ 1 _ (le_n 1)). cbn [bind].
      rewrite Hr. cbn [bind Nat.sub Nat.mul repeat]. rewrite app_nil_r.
      reflexivity.
    + cbn [List.length]. rewrite Lr. reflexivity.
    + intros i s' H. destruct i as [ | i ]; cbn [nth_error] in H |- *.
      * injection H as <-. exists t. rewrite Nat.add_0_r.
        split; [ exact Et | reflexivity ].
      * destruct (Hrows i s' H) as (t' & Et' & Hrow). exists t'.
        replace (line_number + S i) with (S line_number + i) by lia.
        split; [ exact Et' | exact Hrow ].
Qed.

Lemma max_len_singletons :
  forall data : list (list value),
    data <> [] ->
    Forall (fun report_data => List.length report_data = 1) data ->
    Info16.max_len data = Ok 1.
Proof.
  intros data Hne H. unfold Info16.max_len.
  destruct H as [ | rd data Hrd H ]; [ contradiction | ].
  f_equal. cbn [map fold_right]. rewrite Hrd. clear Hne Hrd.
  induction H as [ | rd' data Hrd' H IH ].
  - reflexivity.
  - cbn [map fold_right]. rewrite Hrd'. lia.
Qed.

(** X18. When the extraction fails for every row of the input, because
    the backend is down or never answers with an object that holds a
    list of specimens, and every report cell is a string, the run of
    extract_info16.py still ends with a table: the twelve columns of
    one slot and one row per input row, in the order of the input. The
    row of input row i, counted from 1, holds the accession number when
    that is truthy and subject_i otherwise, followed by the eleven cells
    of the stub, with the benign override when the report mentions
    benign. *)
Theorem run16_without_backend :
  forall batch : list subject,
    batch <> [] ->
    Forall (fun s => exists report_text, report s = Text report_text) batch ->
    Forall (fun s => Info16.extract_info_from_report (details_reply s) = None)
      batch ->
    exists rows,
      Info16.run batch = Ok (Info16.columns 1, rows)
      /\ List.length rows = List.length batch
      /\ forall (i : nat) (s : subject),
           nth_error batch i = Some s ->
           exists report_text,
             report s = Text report_text
             /\ nth_error rows i
                = Some (stub_study_id (accession_number s) (i + 1)
                          :: degraded_cells16
                               (contains (lit "benign") (lower report_text))).
Proof.
  intros batch Hne Ht Hn.
  destruct (degraded_rows batch 1 Ht Hn)
    as (data & rows & Hd & Ld & Fd & Hr & Lr & Hrows).
  exists rows. unfold Info16.run. rewrite Hd. cbn [bind]. unfold Info16.flatten.
  rewrite (max_len_singletons data).
  - cbn [bind]. rewrite Hr. cbn [bind].
    split; [ reflexivity | split; [ exact Lr | ] ].
    intros i s H. destruct (Hrows i s H) as (t & Et & Hrow). exists t.
    rewrite Nat.add_comm. split; [ exact Et | exact Hrow ].
  - intros E. rewrite E in Ld. destruct batch; [ apply Hne; reflexivity | ].
    discriminate Ld.
  - exact Fd.
Qed.

Lemma run16_without_backend_witness :
  exists rows,
    Info16.run [ {| report := Text (lit "Prostate biopsy");
                    accession_number := NAN;
                    count_reply := CallFailed;
                    details_reply := Stdout (lit "I cannot help with that.") |};
                 {| report := Text (lit "Benign prostatic tissue");
                    accession_number := VFloat (lit "0.0");
                    count_reply := CallFailed;
                    details_reply := CallFailed |} ]
    = Ok (Info16.columns 1, rows)
    /\ nth_error rows 0
       = Some [ NAN; VStr (u "Specimen Unknown"); VStr (u "No GS");
                VStr (u "No GP"); VStr (u "No #C"); VStr (u "unknown");
                VInt 0; VInt 0; VInt 0; VInt 0; VInt 0;
                VStr (u "No comment") ]
    /\ nth_error rows 1
       = Some [ VStr (u "subject_2"); VStr (u "Specimen Unknown");
                VStr (u "benign"); VStr (u "benign");
                VStr (u "No #C"); VStr (u "unknown");
                VInt 0; VInt 0; VInt 0; VInt 0; VInt 0;
                VStr (u "benign") ].
Proof.
  destruct (run16_without_backend
              [ {| report := Text (lit "Prostate biopsy");
                   accession_number := NAN;
                   count_reply := CallFailed;
                   details_reply := Stdout (lit "I cannot help with that.") |};
                {| report := Text (lit "Benign prostatic tissue");
                   accession_number := VFloat (lit "0.0");
                   count_reply := CallFailed;
                   details_reply := CallFailed |} ])
    as (rows & Hrun & _ & Hrows).
  - discriminate.
  - constructor; [ eexists; reflexivity | ].
    constructor; [ eexists; reflexivity | constructor ].
  - constructor; [ vm_compute; reflexivity | ].
    constructor; [ vm_compute; reflexivity | constructor ].
  - exists rows. split; [ exact Hrun | ]. split.
    + destruct (Hrows 0 _ eq_refl) as (t & Et & Hrow).
      injection Et as <-. rewrite Hrow. vm_compute. reflexivity.
    + destruct (Hrows 1 _ eq_refl) as (t & Et & Hrow).
      injection Et as <-. rewrite Hrow. vm_compute. reflexivity.
Defined.

(* ------------------------------------------------------------------ *)
(** * new_extract_info3.py: the rows are never read *)

(** X19. new_extract_info3.py builds its reader from the module csv,
    which it does not import (new_extract_info2.py does). Whatever the
    input file holds, the script ends with [NameError] for csv before
    it reads a row, and writes no output. *)
Theorem info3_rows_name_error :
  forall rows : list csv_row, info3_rows rows = Raise (NameError "csv").
Proof.
  intros rows. reflexivity.
Qed.

(* ------------------------------------------------------------------ *)
(** * The segments of a report *)

Lemma split_from_segments :
  forall (sep : text) (n : nat) (s cur : text),
    sep <> [] ->
    List.length s <= n ->
    (forall u w, rev cur = u ++ w -> w <> [] -> startswith sep (w ++ s) = false) ->
    Forall (fun seg => contains sep seg = false) (split_from sep s 0 cur).
Proof.
  intros sep n. induction n as [ | n IH ]; intros s cur Hsep Hn Hinv.
  - destruct s; [ | simpl in Hn; lia ].
    cbn [split_from]. constructor; [ | constructor ].
    destruct (contains sep (rev cur)) eqn:E; [ exfalso | reflexivity ].
    apply contains_spec in E. destruct E as (a & b & E).
    assert (N : startswith sep ((sep ++ b) ++ []) = false).
    { apply (Hinv a (sep ++ b) E). destruct sep; [ contradiction | discriminate ]. }
    rewrite app_nil_r in N.
    assert (P : startswith sep (sep ++ b) = true)
      by (apply startswith_spec; exists b; reflexivity).
    congruence.
  - destruct s as [ | c s ].
    + apply (IH [] cur Hsep); [ simpl; lia | exact Hinv ].
    + cbn [split_from]. cbn [List.length] in Hn.
      destruct (startswith sep (c :: s)) eqn:E.
      * constructor.
        -- destruct (contains sep (rev cur)) eqn:C; [ exfalso | reflexivity ].
           apply contains_spec in C. destruct C as (a & b & C).
           assert (N : startswith sep ((sep ++ b) ++ c :: s) = false).
           { apply (Hinv a (sep ++ b) C).
             destruct sep; [ contradiction | discriminate ]. }
           assert (P : startswith sep ((sep ++ b) ++ c :: s) = true).
           { apply startswith_spec. exists (b ++ c :: s).
             rewrite <- app_assoc. reflexivity. }
           congruence.
        -- pose proof (skipn_startswith sep (c :: s) E) as Hs.
           destruct sep as [ | c0 sep ]; [ contradiction | ].
           cbn [List.length Nat.sub] in *. rewrite Nat.sub_0_r.
           cbn [skipn app] in Hs. injection Hs as _ Hs.
           assert (Hlen : List.length sep <= List.length s).
           { rewrite Hs, length_app. lia. }
           rewrite (split_from_skip (c0 :: sep) s (List.length sep) [] Hlen).
           apply IH; [ discriminate | rewrite length_skipn; lia | ].
           intros u w Huw Hw. destruct u; destruct w; try discriminate Huw.
           contradiction.
      * apply IH; [ exact Hsep | lia | ].
        intros u w Huw Hw. cbn [rev] in Huw.
        destruct (exists_last Hw) as (w0 & x & ->).
        rewrite app_assoc in Huw. apply app_inj_tail in Huw.
        destruct Huw as [ Huw <- ].
        destruct w0 as [ | y w0 ].
        -- cbn [app]. exact E.
        -- rewrite <- app_assoc. cbn [app].
           apply (Hinv u (y :: w0) Huw). discriminate.
Qed.

(** X20. No segment of a report split on two spaces holds two
    consecutive spaces: each text handed to [process_report] in
    new_extract_info2.py and new_extract_info3.py is free of the
    separator. *)
Theorem segments_hold_no_separator :
  forall report_text : text,
    Forall (fun seg => contains TWO_SPACES seg = false)
      (split TWO_SPACES report_text).
Proof.
  intros report_text. unfold split.
  apply (split_from_segments TWO_SPACES (List.length report_text)).
  - discriminate.
  - apply Nat.le_refl.
  - intros u w Huw Hw. destruct u; destruct w; try discriminate Huw.
    contradiction.
Qed.

(* ------------------------------------------------------------------ *)
(** * The stand-in model on a segment without its key phrases *)

Lemma app_eq_app_cases :
  forall (A : Type) (a b x y : list A),
    a ++ b = x ++ y ->
    exists l, (a = x ++ l /\ y = l ++ b) \/ (x = a ++ l /\ b = l ++ y).
Proof.
  intros A a. induction a as [ | c a IH ]; intros b x y H.
  - exists x. right. split; [ reflexivity | exact H ].
  - destruct x as [ | d x ].
    + exists (c :: a). left. split; [ reflexivity | symmetry; exact H ].
    + cbn [app] in H. injection H as <- H.
      destruct (IH b x y H) as [ l [ [ -> -> ] | [ -> -> ] ] ];
        exists l; [ left | right ]; split; reflexivity.
Qed.

Lemma in_overlap_range :
  forall l l' : text,
    l <> [] -> l' <> [] ->
    In (List.length l) (seq 1 (List.length (l ++ l') - 1)).
Proof.
  intros l l' H H'. apply in_seq. rewrite length_app.
  destruct l; [ contradiction | ]. destruct l'; [ contradiction | ].
  cbn [List.length]. lia.
Qed.

(** Where an occurrence of [p] in [a ++ b] can lie. *)
Lemma contains_app_cases :
  forall p a b : text,
    contains p (a ++ b) = true ->
    contains p a = true \/ contains p b = true
    \/ (overlaps_end p a = true /\ overlaps_start p b = true).
Proof.
  intros p a b H. apply contains_spec in H. destruct H as (x & y & H).
  destruct (app_eq_app_cases _ a b x (p ++ y) H) as [ l [ [ Ea E ] | [ Ex Eb ] ] ].
  - destruct (app_eq_app_cases _ p y l b E) as [ l' [ [ Ep Eb ] | [ El Ey ] ] ].
    + destruct l as [ | c l ].
      * right. left. apply contains_spec. exists [], y.
        cbn [app] in *. subst. reflexivity.
      * destruct l' as [ | c' l' ].
        -- left. apply contains_spec. exists x, [].
           rewrite app_nil_r in Ep. subst. rewrite app_nil_r. reflexivity.
        -- right. right. unfold overlaps_end, overlaps_start.
           split; apply existsb_exists; exists (List.length (c :: l));
             (split; [ rewrite Ep; apply in_overlap_range; discriminate | ]).
           ++ unfold endswith. rewrite Ep, firstn_exact, Ea, rev_app_distr.
              apply startswith_spec. eexists. reflexivity.
           ++ rewrite Ep, skipn_app_exact, Eb.
              apply startswith_spec. eexists. reflexivity.
    + left. apply contains_spec. exists x, l'.
      rewrite Ea, El. reflexivity.
  - right. left. apply contains_spec. exists l, y. exact Eb.
Qed.

Lemma not_contains_around :
  forall p a s b : text,
    contains p a = false ->
    contains p s = false ->
    contains p b = false ->
    overlaps_end p a = false ->
    overlaps_start p b = false ->
    contains p (a ++ s ++ b) = false.
Proof.
  intros p a s b Ha Hs Hb Oa Ob.
  destruct (contains p (a ++ s ++ b)) eqn:E; [ exfalso | reflexivity ].
  destruct (contains_app_cases p a (s ++ b) E) as [ H | [ H | [ H _ ] ] ];
    try congruence.
  destruct (contains_app_cases p s b H) as [ K | [ K | [ _ K ] ] ]; congruence.
Qed.

(** The text of a prompt around the segment. *)
Lemma prompt_parts :
  forall seg : text,
    lower (cores_prompt seg)
    = lower (firstn 93 (cores_prompt [])) ++ lower seg
        ++ lower (skipn 93 (cores_prompt []))
    /\ lower (percent_prompt seg)
       = lower (firstn 95 (percent_prompt [])) ++ lower seg
           ++ lower (skipn 95 (percent_prompt []))
    /\ lower (Info3.features_prompt seg)
       = lower (firstn 53 (Info3.features_prompt [])) ++ lower seg
           ++ lower (skipn 53 (Info3.features_prompt []))
    /\ lower (comment_prompt seg)
       = lower (firstn 74 (comment_prompt [])) ++ lower seg
           ++ lower (skipn 74 (comment_prompt [])).
Proof.
  intros seg. repeat split; rewrite <- !lower_app; reflexivity.
Qed.

(** X21. For a segment that holds none of the phrases the stand-in
    model of new_extract_info3.py looks for (gleason, number of biopsy
    cores, percentage of cancer, features from the pathology report, in
    any mix of letter cases), [process_report] gives the same fixed
    record, whatever else the segment says: score 7 and pattern 4+3,
    cores 3/10, 30%, all features 0 but Benign 1, and the comment No
    significant findings. *)
Theorem mock_record_everywhere :
  forall seg : text,
    contains (lit "gleason") (lower seg) = false ->
    contains (lit "number of biopsy cores") (lower seg) = false ->
    contains (lit "percentage of cancer") (lower seg) = false ->
    contains (lit "features from the pathology report") (lower seg) = false ->
    Info3.process_report seg = Ok mock_record.
Proof.
  intros seg H1 H2 H3 H4.
  destruct (prompt_parts seg) as (Ec & Ep & Ef & Em).
  assert (G : contains (lit "gleason") (lower (gleason_prompt seg)) = true).
  { unfold gleason_prompt. rewrite !lower_app.
    apply contains_after, contains_before. vm_compute. reflexivity. }
  assert (C1 : contains (lit "gleason") (lower (cores_prompt seg)) = false).
  { rewrite Ec. apply not_contains_around;
      [ vm_compute; reflexivity | exact H1 | vm_compute; reflexivity
      | vm_compute; reflexivity | vm_compute; reflexivity ]. }
  assert (C2 : contains (lit "number of biopsy cores") (lower (cores_prompt seg))
               = true).
  { rewrite Ec. apply contains_before. vm_compute. reflexivity. }
  assert (P1 : contains (lit "gleason") (lower (percent_prompt seg)) = false).
  { rewrite Ep. apply not_contains_around;
      [ vm_compute; reflexivity | exact H1 | vm_compute; reflexivity
      | vm_compute; reflexivity | vm_compute; reflexivity ]. }
  assert (P2 : contains (lit "number of biopsy cores") (lower (percent_prompt seg))
               = false).
  { rewrite Ep. apply not_contains_around;
      [ vm_compute; reflexivity | exact H2 | vm_compute; reflexivity
      | vm_compute; reflexivity | vm_compute; reflexivity ]. }
  assert (P3 : contains (lit "percentage of cancer") (lower (percent_prompt seg))
               = true).
  { rewrite Ep. apply contains_before. vm_compute. reflexivity. }
  assert (F1 : contains (lit "gleason") (lower (Info3.features_prompt seg))
               = false).
  { rewrite Ef. apply not_contains_around;
      [ vm_compute; reflexivity | exact H1 | vm_compute; reflexivity
      | vm_compute; reflexivity | vm_compute; reflexivity ]. }
  assert (F2 : contains (lit "number of biopsy cores")
                 (lower (Info3.features_prompt seg)) = false).
  { rewrite Ef. apply not_contains_around;
      [ vm_compute; reflexivity | exact H2 | vm_compute; reflexivity
      | vm_compute; reflexivity | vm_compute; reflexivity ]. }
  assert (F3 : contains (lit "percentage of cancer")
                 (lower (Info3.features_prompt seg)) = false).
  { rewrite Ef. apply not_contains_around;
      [ vm_compute; reflexivity | exact H3 | vm_compute; reflexivity
      | vm_compute; reflexivity | vm_compute; reflexivity ]. }
  assert (F4 : contains (lit "features from the pathology report")
                 (lower (Info3.features_prompt seg)) = true).
  { rewrite Ef. apply contains_before. vm_compute. reflexivity. }
  assert (M1 : contains (lit "gleason") (lower (comment_prompt seg)) = false).
  { rewrite Em. apply not_contains_around;
      [ vm_compute; reflexivity | exact H1 | vm_compute; reflexivity
      | vm_compute; reflexivity | vm_compute; reflexivity ]. }
  assert (M2 : contains (lit "number of biopsy cores") (lower (comment_prompt seg))
               = false).
  { rewrite Em. apply not_contains_around;
      [ vm_compute; reflexivity | exact H2 | vm_compute; reflexivity
      | vm_compute; reflexivity | vm_compute; reflexivity ]. }
  assert (M3 : contains (lit "percentage of cancer") (lower (comment_prompt seg))
               = false).
  { rewrite Em. apply not_contains_around;
      [ vm_compute; reflexivity | exact H3 | vm_compute; reflexivity
      | vm_compute; reflexivity | vm_compute; reflexivity ]. }
  assert (M4 : contains (lit "features from the pathology report")
                 (lower (comment_prompt seg)) = false).
  { rewrite Em. apply not_contains_around;
      [ vm_compute; reflexivity | exact H4 | vm_compute; reflexivity
      | vm_compute; reflexivity | vm_compute; reflexivity ]. }
  assert (M5 : contains (lit "comment section") (lower (comment_prompt seg))
               = true).
  { rewrite Em. apply contains_before. vm_compute. reflexivity. }
  unfold Info3.process_report, Info3.extract_gleason, Info3.extract_cores,
    Info3.extract_percent, Info3.extract_features, Info3.extract_comment,
    Info3.call_mistral, Info3.mock_mistral_processing.
  rewrite G, C1, C2, P1, P2, P3, F1, F2, F3, F4, M1, M2, M3, M4, M5.
  vm_compute. reflexivity.
Qed.

Lemma mock_record_everywhere_witness :
  Info3.process_report (lit "ADENOCARCINOMA, GRADE 3+3 = 6.") = Ok mock_record.
Proof.
  apply (mock_record_everywhere (lit "ADENOCARCINOMA, GRADE 3+3 = 6."));
    vm_compute; reflexivity.
Defined.

(* ------------------------------------------------------------------ *)
(** * extract_info23.py: how many records are written *)

(** X22. The list that extract_info23.py writes holds, for each row of
    the input in turn, one record when the extraction failed and as
    many records as the answer lists specimens otherwise: a row whose
    answer holds an empty list of specimens leaves no record at all. *)
Theorem main23_record_count :
  forall (batch : list subject) (records : list value),
    Info23.main batch = Ok records ->
    List.length records
    = list_sum
        (map (fun s =>
                match Info23.extract_info_from_report (details_reply s) with
                | Some l => List.length l
                | None => 1
                end)
           batch).
Proof.
  induction batch as [ | s batch IH ]; intros records H.
  - injection H as <-. reflexivity.
  - cbn [Info23.main] in H.
    destruct (Info23.process_subject s) as [ specimens | ] eqn:Es;
      [ | discriminate H ].
    cbn [bind] in H.
    destruct (Info23.main batch) as [ others | ] eqn:Eo; [ | discriminate H ].
    cbn [bind] in H. injection H as <-.
    rewrite length_app. cbn [map list_sum]. rewrite (IH others eq_refl).
    apply (f_equal (fun n => n + _)).
    destruct (Info23.extract_info_from_report (details_reply s)) as [ l | ] eqn:He.
    + destruct (process_subject23_inv s l specimens He Es) as (Hlen & _).
      exact Hlen.
    + rewrite (stub23_only s He) in Es. injection Es as <-. reflexivity.
Qed.

Lemma main23_record_count_witness :
  List.length [ Info23.stub (VStr (u "A1")) ] = 1 + (0 + 0).
Proof.
  apply (main23_record_count
           [ {| report := Text (lit "r");
                accession_number := VStr (u "A1");
                count_reply := CallFailed;
                details_reply := CallFailed |};
             {| report := Text (lit "r");
                accession_number := VStr (u "A2");
                count_reply := CallFailed;
                details_reply := Stdout (qq "{'specimens': []}") |} ]
           [ Info23.stub (VStr (u "A1")) ]).
  vm_compute. reflexivity.
Defined.

(* ------------------------------------------------------------------ *)
(** * The sanitizer on a fenced block *)

Lemma splitlines_from_line :
  forall (l rest cur : text) (c : ascii),
    Forall (fun x => islinebreak x = false) l ->
    splitlines_from (l ++ NL ++ c :: rest) cur
    = rev (rev l ++ cur) :: splitlines_from (c :: rest) [].
Proof.
  intros l rest cur c H. revert cur.
  induction H as [ | x l Hx H IH ]; intros cur.
  - reflexivity.
  - cbn [app splitlines_from]. rewrite Hx. rewrite IH.
    cbn [rev]. rewrite <- app_assoc. reflexivity.
Qed.

Lemma splitlines_from_last :
  forall (l cur : text),
    l <> [] ->
    Forall (fun x => islinebreak x = false) l ->
    splitlines_from l cur = [rev (rev l ++ cur)].
Proof.
  intros l cur Hne H. revert cur.
  induction H as [ | x l Hx H IH ]; intros cur; [ contradiction | ].
  cbn [splitlines_from]. rewrite Hx.
  destruct l as [ | y l ].
  - reflexivity.
  - rewrite IH by discriminate. cbn [rev]. rewrite <- !app_assoc. reflexivity.
Qed.

Lemma rev_rev_nil : forall l : text, rev (rev l ++ []) = l.
Proof.
  intros l. rewrite app_nil_r. apply rev_involutive.
Qed.

(** The lines of a text that ends with a line of its own. *)
Lemma splitlines_lines :
  forall (lines : list text) (c : ascii) (last : text),
    Forall (Forall (fun x => islinebreak x = false)) lines ->
    Forall (fun x => islinebreak x = false) (c :: last) ->
    lines <> [] ->
    splitlines_from (join NL lines ++ NL ++ c :: last) []
    = lines ++ [c :: last].
Proof.
  intros lines c last H Hlast Hne.
  induction H as [ | l lines Hl H IH ]; [ contradiction | ].
  destruct lines as [ | l2 lines ].
  - cbn [join app]. rewrite (splitlines_from_line l last [] c Hl).
    rewrite rev_rev_nil.
    rewrite (splitlines_from_last (c :: last) []) by (discriminate || exact Hlast).
    rewrite rev_rev_nil. reflexivity.
  - change (join NL (l :: l2 :: lines)) with (l ++ NL ++ join NL (l2 :: lines)).
    rewrite <- !app_assoc.
    assert (E : exists d t, join NL (l2 :: lines) ++ NL ++ c :: last = d :: t).
    { destruct (join NL (l2 :: lines)); eexists; eexists; reflexivity. }
    destruct E as (d & t & E).
    rewrite E, (splitlines_from_line l t [] d Hl), <- E, rev_rev_nil.
    rewrite IH by discriminate. reflexivity.
Qed.

Lemma fence_not_linebreak :
  Forall (fun x => islinebreak x = false) FENCE.
Proof.
  repeat constructor.
Qed.

Lemma removelast_app_one :
  forall (A : Type) (l : list A) (x : A), removelast (l ++ [x]) = l.
Proof.
  intros A l x. rewrite removelast_app by discriminate.
  cbn [removelast]. apply app_nil_r.
Qed.

Lemma strip_solid :
  forall (a : text) (c : ascii) (a1 a0 : text) (y : ascii),
    a = c :: a1 ->
    a = a0 ++ [y] ->
    isspace c = false ->
    isspace y = false ->
    strip a = a.
Proof.
  intros a c a1 a0 y H H0 Hc Hy.
  pose proof (strip_around_text [] a [] c a1 a0 y H H0 Hc Hy) as E.
  cbn [app lstrip] in E. rewrite app_nil_r in E.
  change (rstrip []) with (@nil ascii) in E. rewrite app_nil_r in E. exact E.
Qed.

(** X23. A block in a fence is unwrapped: for a body of one or more
    lines between an opening fence, with any language tag, and a
    closing fence, the sanitizer returns the body, trimmed. *)
Theorem clean_json_output_unwraps :
  forall (tag : text) (lines : list text),
    Forall (fun x => islinebreak x = false) tag ->
    Forall (Forall (fun x => islinebreak x = false)) lines ->
    lines <> [] ->
    clean_json_output (FENCE ++ tag ++ NL ++ join NL lines ++ NL ++ FENCE)
    = Ok (strip (join NL lines)).
Proof.
  intros tag lines Htag Hlines Hne. unfold clean_json_output.
  assert (S : strip (FENCE ++ tag ++ NL ++ join NL lines ++ NL ++ FENCE)
              = FENCE ++ tag ++ NL ++ join NL lines ++ NL ++ FENCE).
  { apply (strip_solid _ "`"%char
             (lit "``" ++ tag ++ NL ++ join NL lines ++ NL ++ FENCE)
             (FENCE ++ tag ++ NL ++ join NL lines ++ NL ++ lit "``")
             "`"%char);
      [ reflexivity | | reflexivity | reflexivity ].
    rewrite <- !app_assoc. reflexivity. }
  rewrite S.
  replace (startswith FENCE (FENCE ++ tag ++ NL ++ join NL lines ++ NL ++ FENCE))
    with true by reflexivity.
  unfold splitlines.
  assert (Sp : splitlines_from
                 (FENCE ++ tag ++ NL ++ join NL lines ++ NL ++ FENCE) []
               = (FENCE ++ tag) :: lines ++ [FENCE]).
  { rewrite app_assoc.
    assert (E : exists d t, join NL lines ++ NL ++ FENCE = d :: t).
    { destruct (join NL lines); eexists; eexists; reflexivity. }
    destruct E as (d & t & E).
    rewrite E.
    rewrite (splitlines_from_line (FENCE ++ tag) t [] d)
      by (apply Forall_app; split; [ apply fence_not_linebreak | exact Htag ]).
    rewrite rev_rev_nil, <- E.
    pose proof (splitlines_lines lines "`"%char (lit "``") Hlines
                  fence_not_linebreak Hne) as K.
    change ("`"%char :: lit "``") with FENCE in K. rewrite K.
    reflexivity. }
  rewrite Sp. cbn [bind].
  replace (startswith FENCE (FENCE ++ tag)) with true by reflexivity.
  cbn [tl]. unfold last_is_fence. rewrite rev_app_distr. cbn [rev app].
  replace (startswith FENCE FENCE) with true by reflexivity.
  rewrite removelast_app_one. reflexivity.
Qed.

Lemma clean_json_output_unwraps_witness :
  clean_json_output
    (FENCE ++ lit "json" ++ NL
     ++ join NL [ qq "{"; qq "  'specimens': []"; qq "}" ] ++ NL ++ FENCE)
  = Ok (strip (join NL [ qq "{"; qq "  'specimens': []"; qq "}" ])).
Proof.
  apply (clean_json_output_unwraps (lit "json")
           [ qq "{"; qq "  'specimens': []"; qq "}" ]).
  - repeat constructor.
  - repeat constructor.
  - discriminate.
Defined.
